(** * AI-Knowledge-Assistant backend: persistence layer and generation client

  A shallow embedding of [backend/services/local_storage.py],
  [backend/services/cosmos.py], [backend/services/gemini.py],
  [backend/services/storage.py], [backend/services/pdf.py] and of the
  routes of [backend/main.py], together with the properties of the
  specification that concern them and further properties of the code.

  Conventions of the embedding.
  - A Python [str] is a Rocq [string] (a sequence of 8-bit characters; text
    outside ASCII is carried as its UTF-8 bytes).  White space is the ASCII
    white space recognised by [str.isspace].
  - A JSON scalar is a [value]; a JSON object (a Python [dict]) is a
    [gmap string value].
  - A Python exception is an [exn]; a call that may raise returns a
    [result].
  - [float] arithmetic is idealised: a finite float is the rational number
    it denotes.
  - The interpreter's clock, its local time zone, the [uuid4] generator and
    the remote generation service are inputs of the functions that use
    them; so are the disk, the blob service, the remote container and the
    PDF reader. *)

From Stdlib Require Import ZArith QArith Qround Lia Lqa Ascii String List.
From Stdlib Require Import Permutation Sorted.
From stdpp Require Import base tactics option list gmap strings.

(* ===================================================================== *)
(** * The Python fragment the services are written in                     *)
(* ===================================================================== *)

Module Py.

(** Exceptions, by class.  [except Exception] catches every one of them. *)
Inductive exn : Type :=
| ValueError (msg : string)
| KeyError (key : string)
| OverflowError (msg : string)
| OSError (msg : string)
| RuntimeError (msg : string).

Inductive result (A : Type) : Type :=
| Ok (a : A)
| Raise (e : exn).
Global Arguments Ok {A} a.
Global Arguments Raise {A} e.

Definition bind {A B : Type} (r : result A) (k : A -> result B) : result B :=
  match r with
  | Ok a => k a
  | Raise e => Raise e
  end.

(** [try: body  except ValueError: handler] *)
Definition except_ValueError {A : Type} (body handler : result A) : result A :=
  match body with
  | Raise (ValueError _) => handler
  | r => r
  end.

(** JSON scalars as [json.load] produces them. *)
Inductive value : Type :=
| VNone
| VBool (b : bool)
| VInt (n : Z)
| VFloat (x : Q)
| VStr (s : string).

(** [bool(v)] *)
Definition truthy (v : value) : bool :=
  match v with
  | VNone => false
  | VBool b => b
  | VInt n => negb (n =? 0)%Z
  | VFloat x => negb (Qeq_bool x 0)
  | VStr s => negb (String.eqb s "")
  end.

(** [bool] is a subclass of [int]; numbers of the three kinds compare by
    value. *)
Definition as_number (v : value) : option Q :=
  match v with
  | VBool b => Some (inject_Z (if b then 1 else 0))
  | VInt n => Some (inject_Z n)
  | VFloat x => Some x
  | _ => None
  end.

(** [a == b] *)
Definition py_eq (a b : value) : bool :=
  match a, b with
  | VNone, VNone => true
  | VStr s, VStr t => String.eqb s t
  | _, _ =>
      match as_number a, as_number b with
      | Some x, Some y => Qeq_bool x y
      | _, _ => false
      end
  end.

(** [a or b] *)
Definition py_or (a b : value) : value := if truthy a then a else b.

(** ** Dictionaries *)

(** [d[k]] *)
Definition getitem (d : gmap string value) (k : string) : result value :=
  match d !! k with
  | Some v => Ok v
  | None => Raise (KeyError k)
  end.

(** [d.get(k)] *)
Definition get (d : gmap string value) (k : string) : value :=
  default VNone (d !! k).

(** [d.get(k, dflt)] *)
Definition get_default (d : gmap string value) (k : string) (dflt : value) : value :=
  default dflt (d !! k).

(** [d.setdefault(k, dflt)], as the dictionary it leaves behind. *)
Definition setdefault (d : gmap string value) (k : string) (dflt : value)
  : gmap string value :=
  match d !! k with
  | Some _ => d
  | None => <[k := dflt]> d
  end.

(** ** Strings *)

(** [c.isspace()] on ASCII: TAB, LF, VT, FF, CR, FS, GS, RS, US, SPACE. *)
Definition is_space (c : ascii) : bool :=
  let n := N_of_ascii c in
  ((9 <=? n) && (n <=? 13) || (28 <=? n) && (n <=? 32))%N.

Fixpoint lstrip (s : string) : string :=
  match s with
  | EmptyString => EmptyString
  | String c s' => if is_space c then lstrip s' else s
  end.

Fixpoint rstrip (s : string) : string :=
  match s with
  | EmptyString => EmptyString
  | String c s' =>
      match rstrip s' with
      | EmptyString => if is_space c then EmptyString else String c EmptyString
      | r => String c r
      end
  end.

(** [s.strip()] *)
Definition strip (s : string) : string := rstrip (lstrip s).

(** [sub in s] *)
Fixpoint contains (sub s : string) : bool :=
  String.prefix sub s ||
  match s with
  | EmptyString => false
  | String _ s' => contains sub s'
  end.

Definition lower_char (c : ascii) : ascii :=
  let n := N_of_ascii c in
  if ((65 <=? n) && (n <=? 90))%N then ascii_of_N (n + 32) else c.

(** [s.lower()], on ASCII letters. *)
Fixpoint lower (s : string) : string :=
  match s with
  | EmptyString => EmptyString
  | String c s' => String (lower_char c) (lower s')
  end.

(** [s.replace(old, new)]: every non-overlapping occurrence, left to
    right.  [skip] counts the characters of an occurrence that has just
    been replaced and are still to be passed over. *)
Fixpoint replace_from (old new : string) (skip : nat) (s : string) : string :=
  match s with
  | EmptyString => EmptyString
  | String c s' =>
      match skip with
      | S k => replace_from old new k s'
      | O =>
          if String.prefix old s
          then new +:+ replace_from old new (String.length old - 1) s'
          else String c (replace_from old new 0 s')
      end
  end.

Fixpoint intersperse (new s : string) : string :=
  match s with
  | EmptyString => new
  | String c s' => new +:+ String c (intersperse new s')
  end.

Definition replace (old new s : string) : string :=
  match old with
  | EmptyString => intersperse new s
  | _ => replace_from old new 0 s
  end.

(** [s[:n]] and [len(s)] *)
Fixpoint take (n : nat) (s : string) : string :=
  match n, s with
  | S k, String c s' => String c (take k s')
  | _, _ => EmptyString
  end.

(** [s[n:]] *)
Fixpoint drop (n : nat) (s : string) : string :=
  match n, s with
  | S k, String _ s' => drop k s'
  | _, _ => s
  end.

Definition len (s : string) : Z := Z.of_nat (String.length s).

(** [s.find(c)] for a single character; [None] for -1. *)
Fixpoint find_char (c : ascii) (s : string) : option nat :=
  match s with
  | EmptyString => None
  | String c' s' => if Ascii.eqb c c' then Some O else S <$> find_char c s'
  end.

(** Every character of [s] satisfies [p]. *)
Fixpoint all_chars (p : ascii -> bool) (s : string) : bool :=
  match s with
  | EmptyString => true
  | String c s' => p c && all_chars p s'
  end.

(** ** Decimal digits *)

Definition is_digit (c : ascii) : bool :=
  let n := N_of_ascii c in ((48 <=? n) && (n <=? 57))%N.

Definition digit_val (c : ascii) : Z := Z.of_N (N_of_ascii c) - 48.

Definition digit_char (d : Z) : ascii := ascii_of_N (Z.to_N (d + 48)).

(** The value of a string of decimal digits, [None] if some character is
    not one. *)
Fixpoint digits_from (acc : Z) (s : string) : option Z :=
  match s with
  | EmptyString => Some acc
  | String c s' =>
      if is_digit c then digits_from (10 * acc + digit_val c) s' else None
  end.

Definition parse_digits (s : string) : option Z :=
  match s with
  | EmptyString => None
  | _ => digits_from 0 s
  end.

(** ["%0kd" % n] for [0 <= n < 10^k]. *)
Fixpoint zfill (k : nat) (n : Z) : string :=
  match k with
  | O => EmptyString
  | S k' => zfill k' (n / 10) +:+ String (digit_char (n mod 10)) EmptyString
  end.

End Py.

(* ===================================================================== *)
(** * The [datetime] library                                              *)
(* ===================================================================== *)

(** The part of the standard [datetime] module that the timestamp
  normaliser calls: the proleptic Gregorian calendar, [fromtimestamp],
  [fromisoformat], [astimezone], [replace(microsecond=0)] and
  [isoformat].  Messages of library exceptions are abbreviated; the
  services only ever look at the class of an exception. *)

Module Datetime.
Import Py.
Local Open Scope Z_scope.

(** ** Calendar arithmetic *)

Definition MINYEAR : Z := 1.
Definition MAXYEAR : Z := 9999.
Definition MAXORDINAL : Z := 3652059.
(** [date(1970, 1, 1).toordinal()] *)
Definition EPOCH_ORDINAL : Z := 719163.

Definition is_leap (year : Z) : bool :=
  (year mod 4 =? 0) && (negb (year mod 100 =? 0) || (year mod 400 =? 0)).

Definition days_before_year (year : Z) : Z :=
  let y := year - 1 in y * 365 + y / 4 - y / 100 + y / 400.

Definition DAYS_IN_MONTH (month : Z) : Z :=
  match month with
  | 1 => 31 | 2 => 28 | 3 => 31 | 4 => 30 | 5 => 31 | 6 => 30
  | 7 => 31 | 8 => 31 | 9 => 30 | 10 => 31 | 11 => 30 | 12 => 31
  | _ => -1
  end.

Definition DAYS_BEFORE_MONTH (month : Z) : Z :=
  match month with
  | 1 => 0 | 2 => 31 | 3 => 59 | 4 => 90 | 5 => 120 | 6 => 151
  | 7 => 181 | 8 => 212 | 9 => 243 | 10 => 273 | 11 => 304 | 12 => 334
  | _ => -1
  end.

Definition days_in_month (year month : Z) : Z :=
  if (month =? 2) && is_leap year then 29 else DAYS_IN_MONTH month.

Definition days_before_month (year month : Z) : Z :=
  DAYS_BEFORE_MONTH month + (if (2 <? month) && is_leap year then 1 else 0).

Definition ymd2ord (year month day : Z) : Z :=
  days_before_year year + days_before_month year month + day.

Definition DI400Y : Z := 146097.
Definition DI100Y : Z := 36524.
Definition DI4Y : Z := 1461.

(** Ordinal to (year, month, day), with 01-Jan-0001 as day 1. *)
Definition ord2ymd (ordinal : Z) : Z * Z * Z :=
  let n := ordinal - 1 in
  let n400 := n / DI400Y in
  let n := n mod DI400Y in
  let year := n400 * 400 + 1 in
  let n100 := n / DI100Y in
  let n := n mod DI100Y in
  let n4 := n / DI4Y in
  let n := n mod DI4Y in
  let n1 := n / 365 in
  let n := n mod 365 in
  let year := year + n100 * 100 + n4 * 4 + n1 in
  if (n1 =? 4) || (n100 =? 4) then (year - 1, 12, 31)
  else
    let leapyear := (n1 =? 3) && (negb (n4 =? 24) || (n100 =? 3)) in
    let month := Z.shiftr (n + 50) 5 in
    let preceding :=
      DAYS_BEFORE_MONTH month + (if (2 <? month) && leapyear then 1 else 0) in
    if n <? preceding then
      let month := month - 1 in
      let preceding :=
        preceding
        - (DAYS_IN_MONTH month + (if (month =? 2) && leapyear then 1 else 0)) in
      (year, month, n - preceding + 1)
    else (year, month, n - preceding + 1).

(** ** Aware and naive datetimes *)

(** [tzinfo] is the UTC offset of the attached [timezone] in microseconds;
    [None] for a naive datetime.  Offset zero is [timezone.utc]. *)
Record datetime : Type := mk_datetime {
  year : Z;
  month : Z;
  day : Z;
  hour : Z;
  minute : Z;
  second : Z;
  microsecond : Z;
  tzinfo : option Z
}.

Definition MICRO : Z := 1000000.
Definition DAY_US : Z := 86400 * MICRO.

Definition valid_date (y m d : Z) : bool :=
  (MINYEAR <=? y) && (y <=? MAXYEAR) && (1 <=? m) && (m <=? 12)
  && (1 <=? d) && (d <=? days_in_month y m).

Definition valid_time (hh mm ss us : Z) : bool :=
  (0 <=? hh) && (hh <=? 23) && (0 <=? mm) && (mm <=? 59)
  && (0 <=? ss) && (ss <=? 59) && (0 <=? us) && (us <=? 999999).

(** [timezone(offset)] wants an offset strictly within a day. *)
Definition valid_tzinfo (tz : option Z) : bool :=
  match tz with
  | None => true
  | Some off => (- DAY_US <? off) && (off <? DAY_US)
  end.

(** The constructor [datetime(year, month, day, hour, minute, second,
    microsecond, tzinfo)], which checks its arguments. *)
Definition new_datetime (y m d hh mm ss us : Z) (tz : option Z) : result datetime :=
  if negb (valid_tzinfo tz) then
    Raise (ValueError "offset must be a timedelta strictly between -timedelta(hours=24) and timedelta(hours=24)")
  else if negb (valid_date y m d) then
    Raise (ValueError "date field is out of range")
  else if negb (valid_time hh mm ss us) then
    Raise (ValueError "time field is out of range")
  else Ok (mk_datetime y m d hh mm ss us tz).

(** The fields of [dt] are those of a date and a time that exist. *)
Definition well_formed (dt : datetime) : bool :=
  valid_date (year dt) (month dt) (day dt)
  && valid_time (hour dt) (minute dt) (second dt) (microsecond dt).

(** Microseconds between 1970-01-01T00:00:00 and the fields of [dt] read
    as they stand (the attached offset is not applied). *)
Definition to_epoch_us (dt : datetime) : Z :=
  ((ymd2ord (year dt) (month dt) (day dt) - EPOCH_ORDINAL) * 86400
   + hour dt * 3600 + minute dt * 60 + second dt) * MICRO
  + microsecond dt.

Definition of_epoch_us (us : Z) (tz : option Z) : datetime :=
  let secs := us / MICRO in
  let days := secs / 86400 in
  let sod := secs mod 86400 in
  let '(y, m, d) := ord2ymd (days + EPOCH_ORDINAL) in
  mk_datetime y m d (sod / 3600) (sod mod 3600 / 60) (sod mod 60) (us mod MICRO) tz.

Definition ordinal_of_epoch_us (us : Z) : Z := us / MICRO / 86400 + EPOCH_ORDINAL.

(** ** [datetime.fromtimestamp(t, tz=timezone.utc)] *)

Inductive pyfloat : Type :=
| Finite (x : Q)
| Inf (negative : bool)
| NaN.

Inductive timestamp : Type :=
| TInt (n : Z)
| TFloat (f : pyfloat).

Definition round_half_even (x : Q) : Z :=
  let f := Qfloor x in
  match Qcompare (x - inject_Z f) (1 # 2) with
  | Lt => f
  | Gt => f + 1
  | Eq => if Z.even f then f else f + 1
  end.

(** The platform (64-bit Linux): the range of [time_t], the range on
    which [gmtime] succeeds, and the seconds of years 1 to 9999. *)
Definition TIME_T_MIN : Z := - 2 ^ 63.
Definition TIME_T_MAX : Z := 2 ^ 63 - 1.
Definition GMTIME_MIN : Z := -67768040609740800.
Definition GMTIME_MAX : Z := 67768036191676799.
Definition EPOCH_MIN : Z := -62135596800.
Definition EPOCH_MAX : Z := 253402300799.

Definition in_range (lo hi x : Z) : bool := (lo <=? x) && (x <=? hi).

Definition utc_from_us (us : Z) : result datetime :=
  let secs := us / MICRO in
  if negb (in_range TIME_T_MIN TIME_T_MAX secs) then
    Raise (OverflowError "timestamp out of range for platform time_t")
  else if negb (in_range GMTIME_MIN GMTIME_MAX secs) then
    Raise (OSError "Value too large for defined data type")
  else if negb (in_range EPOCH_MIN EPOCH_MAX secs) then
    Raise (ValueError "year is out of range")
  else Ok (of_epoch_us us (Some 0)).

Definition fromtimestamp (t : timestamp) : result datetime :=
  match t with
  | TInt n => utc_from_us (n * MICRO)
  | TFloat (Finite x) => utc_from_us (round_half_even (x * inject_Z MICRO))
  | TFloat (Inf _) =>
      Raise (OverflowError "timestamp out of range for platform time_t")
  | TFloat NaN => Raise (ValueError "Invalid value NaN (not a number)")
  end.

(** ** [dt.astimezone(timezone.utc)] *)

(** [self - offset], re-attached to UTC. *)
Definition shift_to_utc (dt : datetime) (off : Z) : result datetime :=
  let us := to_epoch_us dt - off in
  if in_range 1 MAXORDINAL (ordinal_of_epoch_us us)
  then Ok (of_epoch_us us (Some 0))
  else Raise (OverflowError "date value out of range").

(** [local_utcoffset] is the interpreter's local time zone: the offset it
    assigns to a naive datetime, or the exception the lookup raises.
    Converting an aware datetime to its own zone changes nothing. *)
Definition astimezone_utc (local_utcoffset : datetime -> result Z) (dt : datetime)
  : result datetime :=
  match tzinfo dt with
  | Some off => if off =? 0 then Ok dt else shift_to_utc dt off
  | None => bind (local_utcoffset dt) (shift_to_utc dt)
  end.

(** [dt.replace(microsecond=0)] *)
Definition replace_microsecond_0 (dt : datetime) : datetime :=
  mk_datetime (year dt) (month dt) (day dt) (hour dt) (minute dt) (second dt)
              0 (tzinfo dt).

(** ** [dt.isoformat()] *)

Definition format_offset (tz : option Z) : string :=
  match tz with
  | None => ""
  | Some off =>
      let sign := if off <? 0 then "-" else "+" in
      let a := Z.abs off in
      let hh := a / (3600 * MICRO) in
      let r := a mod (3600 * MICRO) in
      let mm := r / (60 * MICRO) in
      let r := r mod (60 * MICRO) in
      let ss := r / MICRO in
      let us := r mod MICRO in
      sign +:+ zfill 2 hh +:+ ":" +:+ zfill 2 mm
      +:+ (if (ss =? 0) && (us =? 0) then ""
           else ":" +:+ zfill 2 ss
                +:+ (if us =? 0 then "" else "." +:+ zfill 6 us))
  end.

Definition isoformat (dt : datetime) : string :=
  zfill 4 (year dt) +:+ "-" +:+ zfill 2 (month dt) +:+ "-" +:+ zfill 2 (day dt)
  +:+ "T" +:+ zfill 2 (hour dt) +:+ ":" +:+ zfill 2 (minute dt)
  +:+ ":" +:+ zfill 2 (second dt)
  +:+ (if microsecond dt =? 0 then "" else "." +:+ zfill 6 (microsecond dt))
  +:+ format_offset (tzinfo dt).

(** ** [datetime.fromisoformat(s)] *)

(** The documented grammar,
    [YYYY-MM-DD[*HH[:MM[:SS[.fff[fff]]]][+HH:MM[:SS[.ffffff]]]]], where [*]
    is any one character.  Later interpreters also read further ISO-8601
    spellings. *)

(** [n] decimal digits, then the rest of the string. *)
Definition digits_field (n : nat) (s : string) : option (Z * string) :=
  let f := take n s in
  if (String.length f =? n)%nat
  then v ← parse_digits f; Some (v, drop n s)
  else None.

Definition expect_char (c : ascii) (s : string) : option string :=
  match s with
  | String c' s' => if Ascii.eqb c c' then Some s' else None
  | EmptyString => None
  end.

Definition parse_isoformat_date (s : string) : option (Z * Z * Z * string) :=
  '(y, s) ← digits_field 4 s;
  s ← expect_char "-" s;
  '(m, s) ← digits_field 2 s;
  s ← expect_char "-" s;
  '(d, s) ← digits_field 2 s;
  Some (y, m, d, s).

(** [HH[:MM[:SS[.fff[fff]]]]] as (hours, minutes, seconds, microseconds). *)
Definition parse_hh_mm_ss_ff (s : string) : option (Z * Z * Z * Z) :=
  '(hh, s) ← digits_field 2 s;
  match s with
  | EmptyString => Some (hh, 0, 0, 0)
  | String c s =>
      if negb (Ascii.eqb c ":") then None else
      '(mm, s) ← digits_field 2 s;
      match s with
      | EmptyString => Some (hh, mm, 0, 0)
      | String c s =>
          if negb (Ascii.eqb c ":") then None else
          '(ss, s) ← digits_field 2 s;
          match s with
          | EmptyString => Some (hh, mm, ss, 0)
          | String c s =>
              if negb (Ascii.eqb c ".") then None else
              match String.length s with
              | 3%nat => ff ← parse_digits s; Some (hh, mm, ss, ff * 1000)
              | 6%nat => ff ← parse_digits s; Some (hh, mm, ss, ff)
              | _ => None
              end
          end
      end
  end.

(** The time-zone suffix starts at the first ["-"], or, when there is
    none, at the first ["+"]. *)
Definition tz_split (tstr : string) : string * option (bool * string) :=
  match find_char "-" tstr with
  | Some i => (take i tstr, Some (true, drop (S i) tstr))
  | None =>
      match find_char "+" tstr with
      | Some i => (take i tstr, Some (false, drop (S i) tstr))
      | None => (tstr, None)
      end
  end.

Definition parse_isoformat_time (tstr : string)
  : option (Z * Z * Z * Z * option Z) :=
  if (String.length tstr <? 2)%nat then None else
  let '(timestr, tz) := tz_split tstr in
  '(hh, mm, ss, us) ← parse_hh_mm_ss_ff timestr;
  match tz with
  | None => Some (hh, mm, ss, us, None)
  | Some (negative, tzstr) =>
      let n := String.length tzstr in
      if negb ((n =? 5) || (n =? 8) || (n =? 15))%nat then None else
      '(th, tm, ts, tus) ← parse_hh_mm_ss_ff tzstr;
      let off := (th * 3600 + tm * 60 + ts) * MICRO + tus in
      Some (hh, mm, ss, us, Some (if negative then - off else off))
  end.

Definition parse_isoformat (s : string)
  : option (Z * Z * Z * (Z * Z * Z * Z * option Z)) :=
  '(y, m, d, rest) ← parse_isoformat_date s;
  match rest with
  | EmptyString => Some (y, m, d, (0, 0, 0, 0, None))
  | String _ tstr => t ← parse_isoformat_time tstr; Some (y, m, d, t)
  end.

Definition fromisoformat (s : string) : result datetime :=
  match parse_isoformat s with
  | None => Raise (ValueError "Invalid isoformat string")
  | Some (y, m, d, (hh, mm, ss, us, tz)) => new_datetime y m d hh mm ss us tz
  end.

(** ** [float(s)] *)

(** A digit part: digits, with single underscores allowed between them.
    Returns its value, its number of digits and what follows it. *)
Fixpoint digitpart_from (acc : Z) (n : nat) (s : string) : Z * nat * string :=
  match s with
  | EmptyString => (acc, n, s)
  | String c s' =>
      if is_digit c then digitpart_from (10 * acc + digit_val c) (S n) s'
      else if Ascii.eqb c "_" then
        match s' with
        | String d s'' =>
            if is_digit d
            then digitpart_from (10 * acc + digit_val d) (S n) s''
            else (acc, n, s)
        | EmptyString => (acc, n, s)
        end
      else (acc, n, s)
  end.

Definition digitpart (s : string) : Z * nat * string :=
  match s with
  | String c _ => if is_digit c then digitpart_from 0 0 s else (0, O, s)
  | EmptyString => (0, O, s)
  end.

Definition parse_sign (s : string) : bool * string :=
  match s with
  | String "-" s' => (true, s')
  | String "+" s' => (false, s')
  | _ => (false, s)
  end.

(** [e] or [E], an optional sign and a digit part; [Some 0] when the
    string is over. *)
Definition parse_exponent (s : string) : option Z :=
  match s with
  | EmptyString => Some 0
  | String c s' =>
      if Ascii.eqb c "e" || Ascii.eqb c "E" then
        let '(negative, s') := parse_sign s' in
        match digitpart s' with
        | (_, O, _) => None
        | (e, _, EmptyString) => Some (if negative then - e else e)
        | _ => None
        end
      else None
  end.

Definition parse_floatnumber (s : string) : option Q :=
  let '(ip, ni, s) := digitpart s in
  let '(fp, nf, s) :=
    match s with
    | String "." s' => digitpart s'
    | _ => (0, O, s)
    end in
  if ((ni + nf)%nat =? 0)%nat then None else
  e ← parse_exponent s;
  let mantissa := ip * 10 ^ Z.of_nat nf + fp in
  Some (inject_Z mantissa * Qpower (inject_Z 10) (e - Z.of_nat nf))%Q.

(** [float(s)]; [None] stands for [ValueError]. *)
Definition parse_float (s : string) : option pyfloat :=
  let '(negative, body) := parse_sign (strip s) in
  let word := lower body in
  if String.eqb word "inf" || String.eqb word "infinity" then Some (Inf negative)
  else if String.eqb word "nan" then Some NaN
  else x ← parse_floatnumber body; Some (Finite (if negative then - x else x)%Q).

Definition float_of_string (s : string) : result pyfloat :=
  match parse_float s with
  | Some f => Ok f
  | None => Raise (ValueError "could not convert string to float")
  end.

End Datetime.

(* ===================================================================== *)
(** * [services/local_storage.py]                                         *)
(* ===================================================================== *)

Module LocalStorage.
Import Py Datetime.

(** What a call observes of its surroundings.  A call walks a list of
    records; [clock i] is the POSIX time, in microseconds, read while record
    [i] is being handled, and [uuid4 i] the identifier [str(uuid4())]
    yields there.  [local_utcoffset] is the interpreter's local time
    zone. *)
Record world : Type := mk_world {
  clock : nat -> Z;
  uuid4 : nat -> string;
  local_utcoffset : datetime -> result Z
}.

(** The contents of [local_db.json]. *)
Record db : Type := mk_db {
  documents : list (gmap string value);
  messages : list (gmap string value)
}.

Definition empty_db : db := mk_db [] [].

(** [dt.replace(microsecond=0).isoformat().replace("+00:00", "Z")] *)
Definition canonical (dt : datetime) : string :=
  replace "+00:00" "Z" (isoformat (replace_microsecond_0 dt)).

Definition _utc_now (now : Z) : result string :=
  bind (utc_from_us now) (fun dt => Ok (canonical dt)).

Definition _normalize_timestamp (tz : datetime -> result Z) (now : Z) (value : value)
  : result string :=
  if py_eq value VNone || py_eq value (VStr "") then _utc_now now
  else
    match value with
    | VBool b =>
        bind (fromtimestamp (TInt (if b then 1 else 0))) (fun dt => Ok (canonical dt))
    | VInt n => bind (fromtimestamp (TInt n)) (fun dt => Ok (canonical dt))
    | VFloat x =>
        bind (fromtimestamp (TFloat (Finite x))) (fun dt => Ok (canonical dt))
    | VNone => _utc_now now
    | VStr s =>
        let candidate := strip s in
        if String.eqb candidate "" then _utc_now now
        else
          except_ValueError
            (bind (fromisoformat (replace "Z" "+00:00" candidate)) (fun parsed =>
             bind (astimezone_utc tz parsed) (fun dt =>
             Ok (canonical dt))))
            (except_ValueError
               (bind (float_of_string candidate) (fun f =>
                bind (fromtimestamp (TFloat f)) (fun parsed =>
                Ok (canonical parsed))))
               (_utc_now now))
    end.

Definition save_document (now : Z)
    (doc_id user_id file_name blob_name blob_url document_text : string) (d : db)
  : result db :=
  bind (_utc_now now) (fun created_at =>
  Ok (mk_db
        (documents d ++
           [ <["id" := VStr doc_id]>
             (<["user_id" := VStr user_id]>
             (<["file_name" := VStr file_name]>
             (<["blob_name" := VStr blob_name]>
             (<["blob_url" := VStr blob_url]>
             (<["document_text" := VStr document_text]>
             (<["created_at" := VStr created_at]>
             (<["type" := VStr "document"]> ∅))))))) ])
        (messages d))).

Fixpoint find_document_text (user_id doc_id : string)
    (docs : list (gmap string value)) : result value :=
  match docs with
  | [] => Raise (ValueError "Document not found.")
  | doc :: rest =>
      bind (getitem doc "user_id") (fun u =>
      if py_eq u (VStr user_id) then
        bind (getitem doc "id") (fun i =>
        if py_eq i (VStr doc_id) then getitem doc "document_text"
        else find_document_text user_id doc_id rest)
      else find_document_text user_id doc_id rest)
  end.

Definition get_document_text (user_id doc_id : string) (d : db) : result value :=
  find_document_text user_id doc_id (documents d).

Definition save_message (now : Z) (fresh_id : string)
    (user_id doc_id role message : string) (d : db) : result db :=
  bind (_utc_now now) (fun ts =>
  Ok (mk_db
        (documents d)
        (messages d ++
           [ <["id" := VStr fresh_id]>
             (<["type" := VStr "message"]>
             (<["user_id" := VStr user_id]>
             (<["doc_id" := VStr doc_id]>
             (<["role" := VStr role]>
             (<["content" := VStr message]>
             (<["timestamp" := VStr ts]> ∅)))))) ]))).

(** ** [get_history], the branch for one conversation *)

(** The body of the loop for an entry that passed the filter: the entry as
    the body leaves it in memory, the shaped copy appended to
    [normalized], and whether the body set [updated]. *)
Definition heal_message (w : world) (i : nat) (entry : gmap string value)
  : result (gmap string value * gmap string value * bool) :=
  let '(entry, u1) :=
    match entry !! "id" with
    | Some v =>
        if negb (truthy v) then (<["id" := VStr (uuid4 w i)]> entry, true)
        else (entry, false)
    | None => (<["id" := VStr (uuid4 w i)]> entry, true)
    end in
  let content := py_or (py_or (get entry "content") (get entry "message")) (VStr "") in
  let '(entry, u2) :=
    if negb (py_eq (get entry "content") content)
    then (<["content" := content]> entry, true)
    else (entry, false) in
  bind (_normalize_timestamp (local_utcoffset w) (clock w i) (get entry "timestamp"))
    (fun timestamp =>
  let '(entry, u3) :=
    if negb (py_eq (get entry "timestamp") (VStr timestamp))
    then (<["timestamp" := VStr timestamp]> entry, true)
    else (entry, false) in
  let entry := setdefault entry "type" (VStr "message") in
  bind (getitem entry "id") (fun e_id =>
  bind (getitem entry "type") (fun e_type =>
  bind (getitem entry "user_id") (fun e_user =>
  bind (getitem entry "doc_id") (fun e_doc =>
  bind (getitem entry "role") (fun e_role =>
  bind (getitem entry "content") (fun e_content =>
  bind (getitem entry "timestamp") (fun e_ts =>
  Ok (entry,
      <["id" := e_id]>
      (<["type" := e_type]>
      (<["user_id" := e_user]>
      (<["doc_id" := e_doc]>
      (<["role" := e_role]>
      (<["content" := e_content]>
      (<["timestamp" := e_ts]> ∅)))))),
      u1 || u2 || u3))))))))).

(** The loop over [db["messages"]], from position [i] on.  It returns the
    list as mutated in place, the entries appended to [normalized], and
    [updated]. *)
Fixpoint history_loop (w : world) (user_id doc_id : string) (i : nat)
    (entries : list (gmap string value))
  : result (list (gmap string value) * list (gmap string value) * bool) :=
  match entries with
  | [] => Ok ([], [], false)
  | entry :: rest =>
      if negb (py_eq (get entry "user_id") (VStr user_id))
         || negb (py_eq (get entry "doc_id") (VStr doc_id))
      then
        bind (history_loop w user_id doc_id (S i) rest) (fun '(rest', normalized, updated) =>
        Ok (entry :: rest', normalized, updated))
      else
        bind (heal_message w i entry) (fun '(entry', shaped, u) =>
        bind (history_loop w user_id doc_id (S i) rest) (fun '(rest', normalized, updated) =>
        Ok (entry' :: rest', shaped :: normalized, u || updated)))
  end.

(** The sort key [item["timestamp"]] of a shaped entry, a [str]. *)
Definition timestamp_key (item : gmap string value) : string :=
  match item !! "timestamp" with
  | Some (VStr s) => s
  | _ => ""
  end.

(** [list.sort(key=...)]: ascending and stable. *)
Fixpoint insert_by {A : Type} (key : A -> string) (x : A) (l : list A) : list A :=
  match l with
  | [] => [x]
  | y :: l' =>
      if String.ltb (key y) (key x) then y :: insert_by key x l'
      else x :: l
  end.

Definition sort_by {A : Type} (key : A -> string) (l : list A) : list A :=
  foldr (insert_by key) [] l.

(** ** [get_history], the branch that lists a user's documents *)

Definition heal_document (w : world) (i : nat) (doc : gmap string value)
  : result (gmap string value * gmap string value * bool) :=
  bind (_normalize_timestamp (local_utcoffset w) (clock w i) (get doc "created_at"))
    (fun created_at =>
  let '(doc, u) :=
    if negb (py_eq (get doc "created_at") (VStr created_at))
    then (<["created_at" := VStr created_at]> doc, true)
    else (doc, false) in
  bind (getitem doc "id") (fun d_id =>
  bind (getitem doc "user_id") (fun d_user =>
  Ok (doc,
      <["id" := d_id]>
      (<["type" := get_default doc "type" (VStr "document")]>
      (<["user_id" := d_user]>
      (<["file_name" := get_default doc "file_name" (VStr "")]>
      (<["blob_name" := get doc "blob_name"]>
      (<["blob_url" := get doc "blob_url"]>
      (<["created_at" := VStr created_at]> ∅)))))),
      u)))).

Fixpoint documents_loop (w : world) (user_id : string) (i : nat)
    (docs : list (gmap string value))
  : result (list (gmap string value) * list (gmap string value) * bool) :=
  match docs with
  | [] => Ok ([], [], false)
  | doc :: rest =>
      if negb (py_eq (get doc "user_id") (VStr user_id))
      then
        bind (documents_loop w user_id (S i) rest) (fun '(rest', out, updated) =>
        Ok (doc :: rest', out, updated))
      else
        bind (heal_document w i doc) (fun '(doc', summary, u) =>
        bind (documents_loop w user_id (S i) rest) (fun '(rest', out, updated) =>
        Ok (doc' :: rest', summary :: out, u || updated)))
  end.

(** [if doc_id:] holds for a document identifier that is given and not
    empty. *)
Definition truthy_doc_id (doc_id : option string) : option string :=
  match doc_id with
  | Some doc => if String.eqb doc "" then None else Some doc
  | None => None
  end.

(** [get_history(user_id, doc_id)]: the list returned and the contents of
    the file afterwards.  [_save_db] runs only when [updated] is set; an
    exception leaves the file as it was. *)
Definition get_history (w : world) (user_id : string) (doc_id : option string) (d : db)
  : result (list (gmap string value) * db) :=
  match truthy_doc_id doc_id with
  | Some doc =>
      bind (history_loop w user_id doc 0 (messages d)) (fun '(msgs', normalized, updated) =>
      Ok (sort_by timestamp_key normalized,
          if updated then mk_db (documents d) msgs' else d))
  | None =>
      bind (documents_loop w user_id 0 (documents d)) (fun '(docs', out, updated) =>
      Ok (out, if updated then mk_db docs' (messages d) else d))
  end.

End LocalStorage.

(* ===================================================================== *)
(** * [services/cosmos.py]                                                *)
(* ===================================================================== *)

Module Cosmos.
Import Py Datetime.

(** The remote container is the list of its items; a query returns the
    items its [WHERE] clause selects, in the order of the container.  A
    comparison with a property an item does not have is false. *)
Definition prop_is (item : gmap string value) (k v : string) : bool :=
  py_eq (get item k) (VStr v).

Definition query_items (where_ : gmap string value -> bool)
    (container : list (gmap string value)) : list (gmap string value) :=
  List.filter where_ container.

(** The same text as in [local_storage.py]. *)
Definition _normalize_timestamp := LocalStorage._normalize_timestamp.

Definition get_document_text (USE_LOCAL_MODE : bool) (user_id doc_id : string)
    (local : LocalStorage.db) (container : list (gmap string value))
  : result value :=
  if USE_LOCAL_MODE then LocalStorage.get_document_text user_id doc_id local
  else
    let results :=
      query_items (fun c => prop_is c "id" doc_id && prop_is c "user_id" user_id
                            && prop_is c "type" "document") container in
    match results with
    | [] => Raise (ValueError "Document not found.")
    | first :: _ => getitem first "document_text"
    end.

Fixpoint shape_messages (w : LocalStorage.world) (i : nat)
    (results : list (gmap string value)) : result (list (gmap string value)) :=
  match results with
  | [] => Ok []
  | item :: rest =>
      bind (_normalize_timestamp (LocalStorage.local_utcoffset w)
              (LocalStorage.clock w i) (get item "timestamp")) (fun ts =>
      bind (shape_messages w (S i) rest) (fun shaped =>
      Ok (<["id" := get item "id"]>
          (<["type" := get_default item "type" (VStr "message")]>
          (<["user_id" := get item "user_id"]>
          (<["doc_id" := get item "doc_id"]>
          (<["role" := get item "role"]>
          (<["content" := py_or (py_or (get item "content") (get item "message"))
                                (VStr "")]>
          (<["timestamp" := VStr ts]> ∅)))))) :: shaped)))
  end.

Fixpoint shape_documents (w : LocalStorage.world) (i : nat)
    (results : list (gmap string value)) : result (list (gmap string value)) :=
  match results with
  | [] => Ok []
  | item :: rest =>
      bind (_normalize_timestamp (LocalStorage.local_utcoffset w)
              (LocalStorage.clock w i) (get item "created_at")) (fun created_at =>
      bind (shape_documents w (S i) rest) (fun out =>
      Ok (<["id" := get item "id"]>
          (<["type" := get_default item "type" (VStr "document")]>
          (<["user_id" := get item "user_id"]>
          (<["file_name" := get item "file_name"]>
          (<["blob_name" := get item "blob_name"]>
          (<["blob_url" := get item "blob_url"]>
          (<["created_at" := VStr created_at]> ∅)))))) :: out)))
  end.

Definition get_history (USE_LOCAL_MODE : bool) (w : LocalStorage.world)
    (user_id : string) (doc_id : option string)
    (local : LocalStorage.db) (container : list (gmap string value))
  : result (list (gmap string value) * LocalStorage.db) :=
  if USE_LOCAL_MODE then LocalStorage.get_history w user_id doc_id local
  else
    match LocalStorage.truthy_doc_id doc_id with
    | Some doc =>
        let results :=
          query_items (fun c => prop_is c "user_id" user_id && prop_is c "doc_id" doc
                                && prop_is c "type" "message") container in
        bind (shape_messages w 0 results) (fun shaped =>
        Ok (LocalStorage.sort_by LocalStorage.timestamp_key shaped, local))
    | None =>
        let results :=
          query_items (fun c => prop_is c "user_id" user_id
                                && prop_is c "type" "document") container in
        bind (shape_documents w 0 results) (fun out => Ok (out, local))
    end.

End Cosmos.

(* ===================================================================== *)
(** * [main.py]: the [/api/documents] route                               *)
(* ===================================================================== *)

Module Main.
Import Py.





End Main.

(* ===================================================================== *)
(** * [services/gemini.py]                                                *)
(* ===================================================================== *)

Module Gemini.
Import Py.

Definition NL : string := String "010"%char EmptyString.

Definition SYSTEM_PROMPT : string :=
  "You are an assistant that answers questions strictly using the "
  +:+ "provided document text. If the answer cannot be found, reply with "
  +:+ "a short apology and say it's unavailable.".

Definition TRUNCATION_MARKER : string := "..." +:+ NL +:+ "[Truncated for length]".

Definition DEFAULT_MAX_CHARS : Z := 12000.

Definition _truncate (text : string) (max_chars : Z) : string :=
  if (len text <=? max_chars)%Z then text
  else take (Z.to_nat max_chars) text +:+ TRUNCATION_MARKER.

Definition PROMPT_HEAD : string :=
  SYSTEM_PROMPT +:+ NL +:+ NL +:+ "Document Text:" +:+ NL.

Definition prompt_tail (question : string) : string :=
  NL +:+ NL +:+ "Question:" +:+ NL +:+ strip question +:+ NL +:+ NL +:+ "Answer:".

Definition build_prompt (document_text question : string) : string :=
  PROMPT_HEAD +:+ _truncate document_text DEFAULT_MAX_CHARS +:+ prompt_tail question.

(** ** The process and the remote service *)

(** [now] is what [time.time()] returns, in seconds;
    [_last_request_time] is the module's global.  [slept] and [sent] record
    the durations handed to [asyncio.sleep] and the prompts handed to
    [generate_content], oldest first. *)
Record state : Type := mk_state {
  now : Q;
  _last_request_time : Q;
  slept : list Q;
  sent : list string
}.

(** What [generate_content] does: it returns a response whose [text] may be
    [None], or raises an exception [e] with [str(e) = error_msg]. *)
Inductive outcome : Type :=
| Response (text : option string)
| Failure (error_msg : string).

(** The surroundings: what the [k]-th request of the process is answered
    with and how long it takes, and by how much the [k]-th sleep
    overshoots. *)
Record service : Type := mk_service {
  generate_content : nat -> string -> outcome;
  latency : nat -> Q;
  overshoot : nat -> Q
}.

Definition _min_request_interval : Q := 2.
Definition max_retries : nat := 3.
Definition base_delay : Q := 3.

Definition QUOTA_MESSAGE : string :=
  "⏱️ API quota limit reached. The free tier has strict rate limits. "
  +:+ "Please wait 60 seconds and try again, or upgrade your API key at https://ai.google.dev/pricing".

Definition GENERIC_PREFIX : string := "Failed to get response from AI service: ".

(** [await asyncio.sleep(d)] for a positive [d]. *)
Definition sleep (svc : service) (d : Q) (st : state) : state :=
  mk_state (now st + d + overshoot svc (length (slept st)))%Q
           (_last_request_time st) (slept st ++ [d]) (sent st).

(** [await asyncio.to_thread(_invoke)], up to the [strip] of the answer. *)
Definition invoke (svc : service) (prompt : string) (st : state) : outcome * state :=
  let k := length (sent st) in
  (generate_content svc k prompt,
   mk_state (now st + latency svc k)%Q (_last_request_time st) (slept st)
            (sent st ++ [prompt])).

Definition is_quota_error (error_msg : string) : bool :=
  contains "429" error_msg || contains "RESOURCE_EXHAUSTED" error_msg
  || contains "quota" (lower error_msg) || contains "Too Many Requests" error_msg.

Definition backoff (attempt : nat) : Q := (base_delay * 2 ^ Z.of_nat attempt)%Q.

(** [for attempt in range(max_retries): ...], over the attempts still to
    make, and the [raise] that follows the loop. *)
Fixpoint retry_loop (svc : service) (prompt : string) (attempts : list nat)
    (st : state) : result string * state :=
  match attempts with
  | [] => (Raise (RuntimeError "Failed to get response from AI service after all retries"), st)
  | attempt :: rest =>
      let '(r, st) := invoke svc prompt st in
      match r with
      | Response text => (Ok (strip (default "" text)), st)
      | Failure error_msg =>
          if is_quota_error error_msg then
            if (attempt <? max_retries - 1)%nat
            then retry_loop svc prompt rest (sleep svc (backoff attempt) st)
            else (Raise (RuntimeError QUOTA_MESSAGE), st)
          else
            if (attempt <? max_retries - 1)%nat
            then retry_loop svc prompt rest (sleep svc (backoff attempt) st)
            else (Raise (RuntimeError (GENERIC_PREFIX +:+ error_msg)), st)
      end
  end.

(** The throttle at the head of [get_gemini_response]: wait out what is
    left of the minimum interval, then record the time of dispatch. *)
Definition rate_limit (svc : service) (st : state) : state :=
  let current_time := now st in
  let time_since_last_request := (current_time - _last_request_time st)%Q in
  let st :=
    if Qlt_le_dec time_since_last_request _min_request_interval
    then sleep svc (_min_request_interval - time_since_last_request)%Q st
    else st in
  mk_state (now st) (now st) (slept st) (sent st).

Definition get_gemini_response (svc : service) (document_text question : string)
    (st : state) : result string * state :=
  if String.eqb (strip question) "" then
    (Raise (ValueError "Question must not be empty."), st)
  else
    let st := rate_limit svc st in
    let prompt := build_prompt document_text question in
    retry_loop svc prompt (seq 0 max_retries) st.

End Gemini.

(* ===================================================================== *)
(** * [services/cosmos.py]: [save_document] and [save_message]           *)
(* ===================================================================== *)

Module CosmosWrites.
Import Py Datetime.

(** [container.create_item(item)]: the item joins the container, unless the
    service refuses it, in which case the call raises what the service
    answered. *)
Definition create_item (refuse : gmap string value -> option exn)
    (item : gmap string value) (container : list (gmap string value))
  : result (list (gmap string value)) :=
  match refuse item with
  | Some e => Raise e
  | None => Ok (container ++ [item])
  end.

(** [save_document]: the local file and the remote container afterwards. *)
Definition save_document (USE_LOCAL_MODE : bool) (refuse : gmap string value -> option exn)
    (now : Z) (doc_id user_id file_name blob_name blob_url document_text : string)
    (local : LocalStorage.db) (container : list (gmap string value))
  : result (LocalStorage.db * list (gmap string value)) :=
  if USE_LOCAL_MODE then
    bind (LocalStorage.save_document now doc_id user_id file_name blob_name blob_url
            document_text local) (fun local' =>
    Ok (local', container))
  else
    bind (LocalStorage._utc_now now) (fun created_at =>
    let item :=
      <["id" := VStr doc_id]>
      (<["user_id" := VStr user_id]>
      (<["file_name" := VStr file_name]>
      (<["blob_name" := VStr blob_name]>
      (<["blob_url" := VStr blob_url]>
      (<["document_text" := VStr document_text]>
      (<["created_at" := VStr created_at]>
      (<["type" := VStr "document"]> ∅))))))) in
    bind (create_item refuse item container) (fun container' =>
    Ok (local, container'))).

(** [save_message].  [fresh_id] is what [str(uuid4())] yields and
    [random_hex] what [os.urandom(4).hex()] yields. *)
Definition save_message (USE_LOCAL_MODE : bool) (refuse : gmap string value -> option exn)
    (now : Z) (fresh_id random_hex : string) (user_id doc_id role message : string)
    (local : LocalStorage.db) (container : list (gmap string value))
  : result (LocalStorage.db * list (gmap string value)) :=
  if USE_LOCAL_MODE then
    bind (LocalStorage.save_message now fresh_id user_id doc_id role message local)
      (fun local' =>
    Ok (local', container))
  else
    bind (LocalStorage._utc_now now) (fun timestamp =>
    let item :=
      <["id" := VStr (doc_id +:+ "-" +:+ role +:+ "-" +:+ random_hex)]>
      (<["user_id" := VStr user_id]>
      (<["doc_id" := VStr doc_id]>
      (<["type" := VStr "message"]>
      (<["role" := VStr role]>
      (<["content" := VStr message]>
      (<["message" := VStr message]>
      (<["timestamp" := VStr timestamp]> ∅))))))) in
    bind (create_item refuse item container) (fun container' =>
    Ok (local, container'))).

End CosmosWrites.

(* ===================================================================== *)
(** * [pathlib] on a POSIX system, [str.split] and [str.join]              *)
(* ===================================================================== *)

Module Pathlib.
Import Py.

(** [s.split(sep)] for a separator of one character. *)
Fixpoint split (sep : ascii) (s : string) : list string :=
  match s with
  | EmptyString => [EmptyString]
  | String c s' =>
      if Ascii.eqb c sep then EmptyString :: split sep s'
      else
        match split sep s' with
        | x :: xs => String c x :: xs
        | [] => [String c EmptyString]
        end
  end.

(** [sep.join(l)] *)
Fixpoint join (sep : string) (l : list string) : string :=
  match l with
  | [] => EmptyString
  | [x] => x
  | x :: l' => x +:+ sep +:+ join sep l'
  end.

(** A pure path: its root, [""], ["/"] or ["//"], and its parts below the
    root. *)
Record path : Type := mk_path {
  root : string;
  parts : list string
}.

(** The root of a string: exactly two leading slashes are kept as they
    are, any other number of them is one slash. *)
Definition splitroot (s : string) : string :=
  match s with
  | String "/" (String "/" (String "/" _)) => "/"
  | String "/" (String "/" _) => "//"
  | String "/" _ => "/"
  | _ => ""
  end.

(** Empty components and ["."] are dropped. *)
Definition is_part (x : string) : bool :=
  negb (String.eqb x "") && negb (String.eqb x ".").

(** [Path(s)] *)
Definition Path (s : string) : path :=
  mk_path (splitroot s) (List.filter is_part (split "/" s)).

(** [p.name]: the last part, [""] when there is none. *)
Definition name (p : path) : string := List.last (parts p) "".

(** [p / s]: a string with a root replaces the path. *)
Definition joinpath (p : path) (s : string) : path :=
  let q := Path s in
  if String.eqb (root q) "" then mk_path (root p) (parts p ++ parts q) else q.

(** [str(p)] *)
Definition str (p : path) : string :=
  match root p, parts p with
  | EmptyString, [] => "."
  | r, l => r +:+ join "/" l
  end.

End Pathlib.

(* ===================================================================== *)
(** * Uploaded files, and [LocalStorage.save_pdf]                         *)
(* ===================================================================== *)

Module Upload.
Import Py.

Definition bytes : Type := list Byte.byte.

(** A [fastapi.UploadFile]: the name and the content type the client sent,
    the content, the position of the file pointer, and the exception that
    reading raises, if the file cannot be read. *)
Record UploadFile : Type := mk_UploadFile {
  filename : option string;
  content_type : option string;
  content : bytes;
  position : nat;
  read_error : option exn
}.

(** [await file.read()]: what is left from the pointer on; the pointer
    moves to the end. *)
Definition read (file : UploadFile) : result bytes * UploadFile :=
  match read_error file with
  | Some e => (Raise e, file)
  | None =>
      (Ok (List.skipn (position file) (content file)),
       mk_UploadFile (filename file) (content_type file) (content file)
         (Nat.max (position file) (length (content file))) (read_error file))
  end.

(** [file.file.seek(0)] *)
Definition seek_0 (file : UploadFile) : UploadFile :=
  mk_UploadFile (filename file) (content_type file) (content file) 0 (read_error file).

End Upload.

Module LocalFiles.
Import Py Pathlib Upload.

(** What the file system answers to [mkdir(exist_ok=True)] and to
    [write_bytes] on a path: nothing, or the exception it raises. *)
Record disk : Type := mk_disk {
  mkdir_error : string -> option exn;
  write_error : string -> option exn
}.

(** [save_pdf]: the triple returned and the files on the disk afterwards,
    by path.  [TMP_DIR] is the directory [tmp] beside the package. *)
Definition save_pdf (dsk : disk) (TMP_DIR : path)
    (file_bytes : bytes) (file_name doc_id user_id : string)
    (files : gmap string bytes)
  : result (string * string * string) * gmap string bytes :=
  let user_folder := joinpath TMP_DIR user_id in
  match mkdir_error dsk (str user_folder) with
  | Some e => (Raise e, files)
  | None =>
      let file_path := joinpath user_folder file_name in
      let blob_name := user_id +:+ "/" +:+ file_name in
      match write_error dsk (str file_path) with
      | Some e => (Raise e, files)
      | None =>
          let fake_blob_url := "file://" +:+ str file_path in
          (Ok (fake_blob_url, file_name, blob_name),
           <[str file_path := file_bytes]> files)
      end
  end.

End LocalFiles.

(* ===================================================================== *)
(** * [services/storage.py]                                               *)
(* ===================================================================== *)

Module Storage.
Import Py Pathlib Upload.

Definition _sanitize_filename (filename fallback : string) : string :=
  let name := if negb (String.eqb filename "") then name (Path filename) else fallback in
  if negb (String.eqb name "") then name else fallback.

(** The blob service: the exception an upload under a name raises, if any,
    and the URL of the blob of that name. *)
Record blob_service : Type := mk_blob_service {
  upload_error : string -> option exn;
  url : string -> string
}.

(** What is stored: the files of the local disk by path, and the remote
    blobs by name, each with its content type. *)
Record stored : Type := mk_stored {
  files : gmap string bytes;
  blobs : gmap string (bytes * string)
}.

Definition upload_to_blob (USE_LOCAL_MODE : bool)
    (dsk : LocalFiles.disk) (TMP_DIR : path) (svc : blob_service)
    (file : UploadFile) (doc_id user_id : string) (st : stored)
  : result (string * string * string) * UploadFile * stored :=
  let safe_file_name :=
    _sanitize_filename (default "" (filename file)) (doc_id +:+ ".pdf") in
  match read file with
  | (Raise e, file) => (Raise e, file, st)
  | (Ok file_bytes, file) =>
      let file := seek_0 file in
      if USE_LOCAL_MODE then
        let '(r, files') :=
          LocalFiles.save_pdf dsk TMP_DIR file_bytes safe_file_name doc_id user_id
            (files st) in
        (r, file, mk_stored files' (blobs st))
      else
        let blob_name := user_id +:+ "/" +:+ doc_id +:+ "/" +:+ safe_file_name in
        match upload_error svc blob_name with
        | Some e => (Raise e, file, st)
        | None =>
            let settings :=
              match content_type file with
              | Some t => if String.eqb t "" then "application/pdf" else t
              | None => "application/pdf"
              end in
            (Ok (url svc blob_name, safe_file_name, blob_name), file,
             mk_stored (files st) (<[blob_name := (file_bytes, settings)]> (blobs st)))
        end
  end.

End Storage.

(* ===================================================================== *)
(** * [fastapi.HTTPException] and [services/pdf.py]                       *)
(* ===================================================================== *)

Module Fastapi.

(** How a handler ends: with a value, with an [HTTPException], or with
    another exception that nothing caught. *)
Inductive outcome (A : Type) : Type :=
| Return (a : A)
| HTTPException (status_code : Z) (detail : string)
| Uncaught (e : Py.exn).
Global Arguments Return {A} a.
Global Arguments HTTPException {A} status_code detail.
Global Arguments Uncaught {A} e.

End Fastapi.

Module Pdf.
Import Py Pathlib Upload Fastapi.

(** [get_text] is PyMuPDF: the text of each page of the document the bytes
    hold, or [None] when opening them or reading a page raises. *)
Definition extract_text_from_pdf (get_text : bytes -> option (list string))
    (file : UploadFile) : outcome string * UploadFile :=
  match read file with
  | (Raise _, file) => (HTTPException 400 "Failed to read PDF upload.", file)
  | (Ok pdf_bytes, file) =>
      let file := seek_0 file in
      match get_text pdf_bytes with
      | None => (HTTPException 400 "Invalid or corrupted PDF file.", file)
      | Some text_chunks =>
          let final_text :=
            join (String "010"%char EmptyString)
              (map strip
                 (List.filter (fun chunk => negb (String.eqb (strip chunk) ""))
                    text_chunks)) in
          if String.eqb final_text ""
          then (HTTPException 400 "No extractable text found in the PDF.", file)
          else (Return final_text, file)
      end
  end.

End Pdf.

(* ===================================================================== *)
(** * [main.py]: the routes [/api/upload], [/api/ask] and [/api/history]  *)
(* ===================================================================== *)

Module Api.
Import Py Pathlib Upload Fastapi.

(** The surroundings of the application: the two mode flags, computed
    separately by [services/storage.py] and by [services/cosmos.py], the
    local disk, the blob service, the remote container, PyMuPDF and the
    generation service. *)
Record env : Type := mk_env {
  storage_USE_LOCAL_MODE : bool;
  cosmos_USE_LOCAL_MODE : bool;
  dsk : LocalFiles.disk;
  TMP_DIR : path;
  blob : Storage.blob_service;
  refuse : gmap string value -> option exn;
  get_text : bytes -> option (list string);
  generation : Gemini.service
}.

(** What the application keeps: the local file, the remote container, the
    stored uploads and the state of the generation client. *)
Record app : Type := mk_app {
  local : LocalStorage.db;
  container : list (gmap string value);
  uploads : Storage.stored;
  client : Gemini.state
}.

(** What one call of [save_document] or [save_message] reads from the
    clock, from [uuid4] and from [os.urandom]. *)
Record draw : Type := mk_draw {
  clock : Z;
  uuid4 : string;
  urandom_hex : string
}.

Record UploadResponse : Type := mk_UploadResponse {
  doc_id : string;
  file_name : string;
  blob_url : string
}.

Definition is_pdf (content_type : option string) : bool :=
  match content_type with
  | Some t => String.eqb t "application/pdf" || String.eqb t "application/x-pdf"
  | None => false
  end.

Definition upload_pdf (e : env) (d : draw) (user_id : string) (file : UploadFile) (a : app)
  : outcome UploadResponse * UploadFile * app :=
  if String.eqb (strip user_id) "" then
    (HTTPException 400 "user_id is required.", file, a)
  else if negb (is_pdf (content_type file)) then
    (HTTPException 400 "Only PDF uploads are supported.", file, a)
  else
    let doc_id := uuid4 d in
    match Storage.upload_to_blob (storage_USE_LOCAL_MODE e) (dsk e) (TMP_DIR e) (blob e)
            file doc_id user_id (uploads a) with
    | (Raise _, file, st) =>
        (HTTPException 500 "Failed to process upload.", file,
         mk_app (local a) (container a) st (client a))
    | (Ok (blob_url, stored_file_name, blob_name), file, st) =>
        match Pdf.extract_text_from_pdf (get_text e) file with
        | (HTTPException status_code detail, file) =>
            (HTTPException status_code detail, file,
             mk_app (local a) (container a) st (client a))
        | (Uncaught _, file) =>
            (HTTPException 500 "Failed to process upload.", file,
             mk_app (local a) (container a) st (client a))
        | (Return document_text, file) =>
            match CosmosWrites.save_document (cosmos_USE_LOCAL_MODE e) (refuse e) (clock d)
                    doc_id user_id stored_file_name blob_name blob_url document_text
                    (local a) (container a) with
            | Raise _ =>
                (HTTPException 500 "Failed to process upload.", file,
                 mk_app (local a) (container a) st (client a))
            | Ok (local', container') =>
                (Return (mk_UploadResponse doc_id stored_file_name blob_url), file,
                 mk_app local' container' st (client a))
            end
        end
    end.

Record AskRequest : Type := mk_AskRequest {
  user_id : string;
  ask_doc_id : string;
  question : string
}.

(** [ask_question].  [d1] and [d2] are what the two calls of [save_message]
    draw.  A stored text that is no string makes [len] raise in
    [get_gemini_response] once the throttle has been passed. *)
Definition ask_question (e : env) (d1 d2 : draw) (request : AskRequest) (a : app)
  : outcome string * app :=
  let question := strip (question request) in
  if String.eqb question "" then
    (HTTPException 400 "Question cannot be empty.", a)
  else
    match Cosmos.get_document_text (cosmos_USE_LOCAL_MODE e) (user_id request)
            (ask_doc_id request) (local a) (container a) with
    | Raise (ValueError msg) => (HTTPException 404 msg, a)
    | Raise _ => (HTTPException 500 "Failed to load document.", a)
    | Ok document_text =>
        match CosmosWrites.save_message (cosmos_USE_LOCAL_MODE e) (refuse e) (clock d1)
                (uuid4 d1) (urandom_hex d1) (user_id request) (ask_doc_id request)
                "user" question (local a) (container a) with
        | Raise exc => (Uncaught exc, a)
        | Ok (local1, container1) =>
            match document_text with
            | VStr text =>
                let '(r, client') :=
                  Gemini.get_gemini_response (generation e) text question (client a) in
                let a1 := mk_app local1 container1 (uploads a) client' in
                match r with
                | Raise (RuntimeError msg) => (HTTPException 503 msg, a1)
                | Raise _ =>
                    (HTTPException 502
                       "AI service temporarily unavailable. Please try again.", a1)
                | Ok answer =>
                    match CosmosWrites.save_message (cosmos_USE_LOCAL_MODE e) (refuse e)
                            (clock d2) (uuid4 d2) (urandom_hex d2) (user_id request)
                            (ask_doc_id request) "assistant" answer local1 container1 with
                    | Raise exc => (Uncaught exc, a1)
                    | Ok (local2, container2) =>
                        (Return answer, mk_app local2 container2 (uploads a) client')
                    end
                end
            | _ =>
                (HTTPException 502 "AI service temporarily unavailable. Please try again.",
                 mk_app local1 container1 (uploads a)
                   (Gemini.rate_limit (generation e) (client a)))
            end
        end
    end.

Definition get_chat_history (e : env) (w : LocalStorage.world)
    (user_id : string) (doc_id : option string) (a : app)
  : outcome (list (gmap string value)) * app :=
  match Cosmos.get_history (cosmos_USE_LOCAL_MODE e) w user_id doc_id (local a)
          (container a) with
  | Ok (history, local') =>
      (Return history, mk_app local' (container a) (uploads a) (client a))
  | Raise _ => (HTTPException 500 "Failed to fetch history.", a)
  end.

End Api.

(* ===================================================================== *)
(** * Vocabulary of the specification                                     *)
(* ===================================================================== *)

Module Spec.
Import Py.

(** The records that are Documents: every entry of the [documents] list of
    the local file, and the items of the remote container tagged
    [type = "document"]. *)
Definition is_document (USE_LOCAL_MODE : bool) (r : gmap string value) : Prop :=
  USE_LOCAL_MODE = true \/ r !! "type" = Some (VStr "document").

(** A Document carries its owner, its identifier and its text, as
    [save_document] writes them. *)
Definition document_record (r : gmap string value) : Prop :=
  is_Some (r !! "user_id") /\ is_Some (r !! "id") /\ is_Some (r !! "document_text").

(** The record matches both the user and the document identifier. *)
Definition owned_by (user_id doc_id : string) (r : gmap string value) : Prop :=
  r !! "user_id" = Some (VStr user_id) /\ r !! "id" = Some (VStr doc_id).

(** The message belongs to the conversation of [user_id] about [doc_id]. *)
Definition in_conversation (user_id doc_id : string) (r : gmap string value) : Prop :=
  r !! "user_id" = Some (VStr user_id) /\ r !! "doc_id" = Some (VStr doc_id).

Definition in_conversationb (user_id doc_id : string) (r : gmap string value) : bool :=
  py_eq (get r "user_id") (VStr user_id) && py_eq (get r "doc_id") (VStr doc_id).

(** The order of [list.sort(key=...)] on two elements. *)
Definition le_key {A : Type} (key : A -> string) (a b : A) : Prop :=
  String.leb (key a) (key b) = true.

(** The entry [s] returned for the stored message [r]: the owner, the
    document and the role of [r], its text resolved from [content] or the
    legacy [message] field, and the normal form of its timestamp. *)
Definition shaped_from (tz : Datetime.datetime -> result Z) (r s : gmap string value) : Prop :=
  s !! "user_id" = r !! "user_id"
  /\ s !! "doc_id" = r !! "doc_id"
  /\ s !! "role" = r !! "role"
  /\ s !! "content"
     = Some (py_or (py_or (get r "content") (get r "message")) (VStr ""))
  /\ exists now ts,
       LocalStorage._normalize_timestamp tz now (get r "timestamp") = Ok ts
       /\ s !! "timestamp" = Some (VStr ts).


(** The canonical timestamp of the glossary: UTC, whole seconds, ISO-8601
    with the [Z] suffix, that is [YYYY-MM-DDTHH:MM:SSZ] naming a date of the
    years 1 to 9999 and a time of day that exist. *)
Definition num2 (a b : ascii) : Z := 10 * digit_val a + digit_val b.

Definition num4 (a b c d : ascii) : Z :=
  10 * (10 * (10 * digit_val a + digit_val b) + digit_val c) + digit_val d.

(** The canonical spelling of a date and a time of day. *)
Definition canonical_string (y m d hh mm ss : Z) : string :=
  zfill 4 y +:+ "-" +:+ zfill 2 m +:+ "-" +:+ zfill 2 d
  +:+ "T" +:+ zfill 2 hh +:+ ":" +:+ zfill 2 mm +:+ ":" +:+ zfill 2 ss +:+ "Z".

Definition canonical_timestamp (s : string) : bool :=
  match s with
  | String y1 (String y2 (String y3 (String y4 (String p1
    (String m1 (String m2 (String p2
    (String d1 (String d2 (String t
    (String h1 (String h2 (String q1
    (String n1 (String n2 (String q2
    (String s1 (String s2 (String z EmptyString))))))))))))))))))) =>
      forallb is_digit [y1; y2; y3; y4; m1; m2; d1; d2; h1; h2; n1; n2; s1; s2]
      && Ascii.eqb p1 "-" && Ascii.eqb p2 "-" && Ascii.eqb t "T"
      && Ascii.eqb q1 ":" && Ascii.eqb q2 ":" && Ascii.eqb z "Z"
      && Datetime.valid_date (num4 y1 y2 y3 y4) (num2 m1 m2) (num2 d1 d2)
      && Datetime.valid_time (num2 h1 h2) (num2 n1 n2) (num2 s1 s2) 0
  | _ => false
  end.

(** What a read of the conversation of [user_id] about [doc_id] may have
    done to a stored Message [r], now [r']: outside [id], [content],
    [timestamp] and [type] nothing; an [id] is written only over a missing or
    empty one, a [content] only over a missing or empty one and then from the
    legacy [message] field or as the empty string, a [timestamp] only as the
    normal form of the stored one, a [type] only where there was none; a
    message of another conversation is not touched. *)
Definition message_healed (tz : Datetime.datetime -> result Z) (user_id doc_id : string)
    (r r' : gmap string value) : Prop :=
  (forall k, k <> "id" -> k <> "content" -> k <> "timestamp" -> k <> "type" ->
             r' !! k = r !! k)
  /\ (r' !! "id" <> r !! "id" -> truthy (get r "id") = false)
  /\ (r' !! "content" <> r !! "content" ->
      truthy (get r "content") = false
      /\ r' !! "content" = Some (py_or (get r "message") (VStr "")))
  /\ (r' !! "timestamp" <> r !! "timestamp" ->
      exists now ts,
        LocalStorage._normalize_timestamp tz now (get r "timestamp") = Ok ts
        /\ r' !! "timestamp" = Some (VStr ts))
  /\ (r' !! "type" <> r !! "type" ->
      r !! "type" = None /\ r' !! "type" = Some (VStr "message"))
  /\ (~ in_conversation user_id doc_id r -> r' = r).

(** What a listing of the documents of [user_id] may have done to a stored
    Document: only [created_at] is written, as the normal form of the stored
    one, and only in a document of that user. *)
Definition document_healed (tz : Datetime.datetime -> result Z) (user_id : string)
    (r r' : gmap string value) : Prop :=
  (forall k, k <> "created_at" -> r' !! k = r !! k)
  /\ (r' !! "created_at" <> r !! "created_at" ->
      exists now ts,
        LocalStorage._normalize_timestamp tz now (get r "created_at") = Ok ts
        /\ r' !! "created_at" = Some (VStr ts))
  /\ (r !! "user_id" <> Some (VStr user_id) -> r' = r).

End Spec.

Module GeminiSpec.
Import Py.

(** [sum(durations)] *)
Definition total (durations : list Q) : Q := fold_right Qplus 0%Q durations.

(** The error raised once the last attempt has failed with [error_msg]. *)
Definition final_error (error_msg : string) : exn :=
  RuntimeError (if Gemini.is_quota_error error_msg then Gemini.QUOTA_MESSAGE
                else Gemini.GENERIC_PREFIX +:+ error_msg).

End GeminiSpec.

Module StoreSpec.
Import Py.

(** The record [save_document] appends. *)
Definition document_entry
    (doc_id user_id file_name blob_name blob_url document_text created_at : string)
  : gmap string value :=
  <["id" := VStr doc_id]>
  (<["user_id" := VStr user_id]>
  (<["file_name" := VStr file_name]>
  (<["blob_name" := VStr blob_name]>
  (<["blob_url" := VStr blob_url]>
  (<["document_text" := VStr document_text]>
  (<["created_at" := VStr created_at]>
  (<["type" := VStr "document"]> ∅))))))).

(** The record [save_message] appends. *)
Definition message_entry (id user_id doc_id role content timestamp : string)
  : gmap string value :=
  <["id" := VStr id]>
  (<["type" := VStr "message"]>
  (<["user_id" := VStr user_id]>
  (<["doc_id" := VStr doc_id]>
  (<["role" := VStr role]>
  (<["content" := VStr content]>
  (<["timestamp" := VStr timestamp]> ∅)))))).

(** The documents of [user_id], as the listing selects them. *)
Definition owned (user_id : string) (r : gmap string value) : bool :=
  py_eq (get r "user_id") (VStr user_id).

(** The summary [s] listed for the stored document [r] of [user_id]: it
    names the same document and the same file, and it has no field for the
    text of the document. *)
Definition summary_of (user_id : string) (r s : gmap string value) : Prop :=
  s !! "user_id" = Some (VStr user_id)
  /\ s !! "id" = r !! "id"
  /\ s !! "file_name" = Some (get_default r "file_name" (VStr ""))
  /\ s !! "blob_name" = Some (get r "blob_name")
  /\ s !! "blob_url" = Some (get r "blob_url")
  /\ s !! "type" = Some (get_default r "type" (VStr "document"))
  /\ (exists ts, s !! "created_at" = Some (VStr ts)
                 /\ Spec.canonical_timestamp ts = true)
  /\ s !! "document_text" = None.

(** A message on which the body of the loop has nothing to do. *)
Definition settled (r s : gmap string value) : Prop :=
  exists v_id v_type v_user v_doc v_role content ts,
    r !! "id" = Some v_id /\ truthy v_id = true
    /\ r !! "type" = Some v_type
    /\ r !! "user_id" = Some v_user
    /\ r !! "doc_id" = Some v_doc
    /\ r !! "role" = Some v_role
    /\ r !! "content" = Some content
    /\ py_or (py_or content (get r "message")) (VStr "") = content
    /\ r !! "timestamp" = Some (VStr ts)
    /\ Spec.canonical_timestamp ts = true
    /\ s = <["id" := v_id]>
           (<["type" := v_type]>
           (<["user_id" := v_user]>
           (<["doc_id" := v_doc]>
           (<["role" := v_role]>
           (<["content" := content]>
           (<["timestamp" := VStr ts]> ∅)))))).

End StoreSpec.

Module RemoteSpec.
Import Py.

(** The items a remote read of the conversation selects. *)
Definition selected (user_id doc_id : string) (c : gmap string value) : bool :=
  Cosmos.prop_is c "user_id" user_id && Cosmos.prop_is c "doc_id" doc_id
  && Cosmos.prop_is c "type" "message".

(** The entry [s] a remote read returns for the item [r]: every field is
    read with [get], so that a field the item lacks comes out as [None]. *)
Definition remote_shaped (tz : Datetime.datetime -> result Z) (r s : gmap string value)
  : Prop :=
  exists now ts,
    LocalStorage._normalize_timestamp tz now (get r "timestamp") = Ok ts
    /\ s = <["id" := get r "id"]>
           (<["type" := get_default r "type" (VStr "message")]>
           (<["user_id" := get r "user_id"]>
           (<["doc_id" := get r "doc_id"]>
           (<["role" := get r "role"]>
           (<["content" := py_or (py_or (get r "content") (get r "message")) (VStr "")]>
           (<["timestamp" := VStr ts]> ∅)))))).

(** No service error. *)
Definition accepting : gmap string value -> option exn := fun _ => None.

End RemoteSpec.

Module ApiSpec.
Import Py Upload Api.
Local Open Scope Z_scope.

(** The string has no slash in it. *)
Definition plain (s : string) : bool := all_chars (fun c => negb (Ascii.eqb c "/")) s.

(** The page has text: something is left of it once it is stripped. *)
Definition has_text (chunk : string) : bool := negb (String.eqb (strip chunk) "").

(** The separator of the pages. *)
Definition newline : string := String "010"%char EmptyString.

(** The disk and the blob service accept what they are asked. *)
Definition storage_accepts (e : env) : Prop :=
  (forall p, LocalFiles.mkdir_error (dsk e) p = None)
  /\ (forall p, LocalFiles.write_error (dsk e) p = None)
  /\ (forall n, Storage.upload_error (blob e) n = None).

(** The URL names bytes that are stored: a file of the local disk, or a
    blob of the remote service. *)
Definition stored_at (e : env) (st : Storage.stored) (blob_url : string) (data : bytes)
  : Prop :=
  if storage_USE_LOCAL_MODE e then
    exists p, blob_url = "file://" +:+ p /\ Storage.files st !! p = Some data
  else
    exists n t, blob_url = Storage.url (blob e) n /\ Storage.blobs st !! n = Some (data, t).

(** The identifier under which a saved message is read back. *)
Definition message_id (e : env) (d : draw) (doc_id role : string) : string :=
  if cosmos_USE_LOCAL_MODE e then uuid4 d
  else doc_id +:+ "-" +:+ role +:+ "-" +:+ urandom_hex d.

(** Both draws are good for saving a message: the clock is within the years
    1 to 9999, the fresh identifier is not empty, and the remote service
    accepts the item. *)
Definition can_save (e : env) (d : draw) : Prop :=
  Datetime.EPOCH_MIN <= clock d / Datetime.MICRO <= Datetime.EPOCH_MAX
  /\ uuid4 d <> ""
  /\ (forall item, refuse e item = None).

End ApiSpec.

(* ===================================================================== *)
(** * Sample data                                                         *)
(* ===================================================================== *)

(** Concrete surroundings, stores and inputs on which the properties below
    are exercised. *)

Module Scenario.
Import Py.

(** A service that answers every request with a rate-limit error. *)
Definition throttled : Gemini.service :=
  Gemini.mk_service (fun _ _ => Gemini.Failure "429 RESOURCE_EXHAUSTED")
                    (fun _ => 0%Q) (fun _ => 0%Q).

(** A process whose last request was long ago. *)
Definition idle : Gemini.state := Gemini.mk_state 100%Q 0%Q [] [].



(** The local file after [save_document("d1", "u1", ..., "hello world")] at
    2025-11-03T17:25:00Z. *)
Definition world0 : LocalStorage.world :=
  LocalStorage.mk_world (fun _ => 1762190700000000%Z) (fun _ => "uuid-0") (fun _ => Ok 0%Z).

(** A message stored by an earlier version: its text is under [message],
    there is no [content]; its timestamp is in normal form. *)
Definition legacy_message : gmap string value :=
  <["id" := VStr "m1"]>
  (<["type" := VStr "message"]>
  (<["user_id" := VStr "u1"]>
  (<["doc_id" := VStr "d1"]>
  (<["role" := VStr "user"]>
  (<["message" := VStr "hi"]>
  (<["timestamp" := VStr "2025-01-01T00:00:05Z"]> ∅)))))).

Definition legacy_store : LocalStorage.db := LocalStorage.mk_db [] [legacy_message].

(** The same message once its text has been copied to [content]. *)
Definition legacy_message_healed : gmap string value :=
  <["content" := VStr "hi"]> legacy_message.

(** What reading the conversation returns for it. *)
Definition legacy_message_shaped : gmap string value :=
  <["id" := VStr "m1"]>
  (<["type" := VStr "message"]>
  (<["user_id" := VStr "u1"]>
  (<["doc_id" := VStr "d1"]>
  (<["role" := VStr "user"]>
  (<["content" := VStr "hi"]>
  (<["timestamp" := VStr "2025-01-01T00:00:05Z"]> ∅)))))).

(** A message whose timestamp was stored as an epoch in milliseconds, as
    [Date.now()] gives it, not in seconds. *)
Definition millis_message : gmap string value :=
  <["id" := VStr "m2"]>
  (<["type" := VStr "message"]>
  (<["user_id" := VStr "u1"]>
  (<["doc_id" := VStr "d1"]>
  (<["role" := VStr "user"]>
  (<["content" := VStr "hi"]>
  (<["timestamp" := VInt 1762190700000]> ∅)))))).

Definition millis_store : LocalStorage.db := LocalStorage.mk_db [] [millis_message].

(** Two messages of one conversation, the later one saved first. *)
Definition said (role content ts : string) : gmap string value :=
  <["id" := VStr ("id-" +:+ role)]>
  (<["type" := VStr "message"]>
  (<["user_id" := VStr "u1"]>
  (<["doc_id" := VStr "d1"]>
  (<["role" := VStr role]>
  (<["content" := VStr content]>
  (<["timestamp" := VStr ts]> ∅)))))).

Definition two_messages : LocalStorage.db :=
  LocalStorage.mk_db []
    [said "user" "hi" "2025-01-01T00:00:05Z"; said "assistant" "yo" "2025-01-01T00:00:01Z"].

Definition one_document : LocalStorage.db :=
  match LocalStorage.save_document 1762190700000000 "d1" "u1" "notes.pdf" "u1/notes.pdf"
          "file:///tmp/u1/notes.pdf" "hello world" LocalStorage.empty_db with
  | Ok d => d
  | Raise _ => LocalStorage.empty_db
  end.

End Scenario.

Module GeminiScenario.
Import Py.

(** A service whose first answer is an internal error and whose later
    answers are a text padded with white space. *)
Definition flaky : Gemini.service :=
  Gemini.mk_service
    (fun k _ => match k with
                | O => Gemini.Failure "500 INTERNAL"
                | _ => Gemini.Response (Some "  It is on page 2. ")
                end)
    (fun _ => 1%Q) (fun _ => 0%Q).

(** A service that is down: every request fails with an internal error. *)
Definition down : Gemini.service :=
  Gemini.mk_service (fun _ _ => Gemini.Failure "500 INTERNAL")
                    (fun _ => 0%Q) (fun _ => 0%Q).

End GeminiScenario.

Module StoreScenario.
Import Py.

(** The summary listed for the document of [Scenario.one_document]. *)
Definition one_document_summary : gmap string value :=
  <["id" := VStr "d1"]>
  (<["type" := VStr "document"]>
  (<["user_id" := VStr "u1"]>
  (<["file_name" := VStr "notes.pdf"]>
  (<["blob_name" := VStr "u1/notes.pdf"]>
  (<["blob_url" := VStr "file:///tmp/u1/notes.pdf"]>
  (<["created_at" := VStr "2025-11-03T17:25:00Z"]> ∅)))))).

(** [Scenario.one_document] after a second document has been saved under
    the same user and identifier. *)
Definition saved_twice : LocalStorage.db :=
  LocalStorage.mk_db
    (LocalStorage.documents Scenario.one_document
     ++ [StoreSpec.document_entry "d1" "u1" "again.pdf" "u1/again.pdf"
           "file:///tmp/u1/again.pdf" "other words" "2025-11-03T17:25:00Z"])
    [].

End StoreScenario.

Module ApiScenario.
Import Py.

(** An upload of four bytes, sent as PDF under a name with directories in
    it, and one of a single byte. *)
Definition upload : Upload.UploadFile :=
  Upload.mk_UploadFile (Some "reports/2024/q3.pdf") (Some "application/pdf")
    [Byte.x25; Byte.x50; Byte.x44; Byte.x46] 0 None.


(** A reader that finds three pages, one of them blank, in four bytes, two
    blank pages in one byte, and no document in anything else. *)
Definition reader (data : Upload.bytes) : option (list string) :=
  match data with
  | [_; _; _; _] => Some ["  Page one. "; "   "; "Page two."]
  | [_] => Some ["  "; ""]
  | _ => None
  end.

(** A service that answers every request. *)
Definition helpful : Gemini.service :=
  Gemini.mk_service (fun _ _ => Gemini.Response (Some " It is on page 2. "))
                    (fun _ => 1%Q) (fun _ => 0%Q).

(** The application in local mode, with a disk that accepts every write. *)
Definition local_env (generation : Gemini.service) : Api.env :=
  Api.mk_env true true
    (LocalFiles.mk_disk (fun _ => None) (fun _ => None))
    (Pathlib.Path "/srv/app/backend/tmp")
    (Storage.mk_blob_service (fun _ => None) (fun n => "https://blobs.example/" +:+ n))
    (fun _ => None) reader generation.

Definition nothing_stored : Storage.stored := Storage.mk_stored ∅ ∅.

Definition app0 : Api.app :=
  Api.mk_app Scenario.one_document [] nothing_stored Scenario.idle.

Definition draw1 : Api.draw := Api.mk_draw 1762190700000000 "m1" "0a1b2c3d".
Definition draw2 : Api.draw := Api.mk_draw 1762190705000000 "m2" "4e5f6a7b".
Definition draw3 : Api.draw := Api.mk_draw 1762190700000000 "d2" "00000000".

Definition request0 : Api.AskRequest := Api.mk_AskRequest "u1" "d1" " why? ".

End ApiScenario.

(* ===================================================================== *)
(** * Proof automation                                                    *)
(* ===================================================================== *)

(** Linear arithmetic with division and remainder by constants. *)
Ltac zlia := Z.to_euclidean_division_equations; lia.

(* ===================================================================== *)
(** * Properties                                                          *)
(* ===================================================================== *)

(** ** Strings *)

Section StringFacts.
Import Py.

Lemma app_cons (c : ascii) (s t : string) : String c s +:+ t = String c (s +:+ t).
Proof. reflexivity. Qed.

Lemma app_empty_l (s : string) : "" +:+ s = s.
Proof. reflexivity. Qed.

Lemma app_empty_r (s : string) : s +:+ "" = s.
Proof. induction s as [|c s IH]; [reflexivity|]. rewrite app_cons, IH. reflexivity. Qed.

Lemma app_assoc_s (s t u : string) : (s +:+ t) +:+ u = s +:+ (t +:+ u).
Proof.
  induction s as [|c s IH]; [reflexivity|].
  rewrite !app_cons, IH. reflexivity.
Qed.

Lemma length_app_s (s t : string) :
  String.length (s +:+ t) = (String.length s + String.length t)%nat.
Proof.
  induction s as [|c s IH]; [reflexivity|].
  rewrite app_cons. simpl. rewrite IH. reflexivity.
Qed.







End StringFacts.

(** ** The generation client *)

Section GeminiFacts.
Import Py Gemini.







End GeminiFacts.

Section GeminiClaims.
Import Py Gemini.










End GeminiClaims.

(** ** Looking a document up *)

Section DocumentLookup.
Import Py LocalStorage Spec.

Lemma py_eq_VStr (v : value) (s : string) : py_eq v (VStr s) = true <-> v = VStr s.
Proof.
  destruct v as [|b|n|x|t]; simpl; try (split; [discriminate|discriminate]).
  rewrite String.eqb_eq. split; [intros ->; reflexivity|intros [= ->]; reflexivity].
Qed.

Lemma py_eq_get (r : gmap string value) (k s : string) :
  py_eq (get r k) (VStr s) = true <-> r !! k = Some (VStr s).
Proof.
  rewrite py_eq_VStr. unfold get.
  destruct (r !! k) as [v|]; simpl; split; congruence.
Qed.

Lemma find_document_text_found (user_id doc_id : string) (docs : list (gmap string value)) :
  Forall document_record docs ->
  Exists (owned_by user_id doc_id) docs ->
  exists before r after text,
    docs = before ++ r :: after
    /\ Forall (fun x => ~ owned_by user_id doc_id x) before
    /\ owned_by user_id doc_id r
    /\ r !! "document_text" = Some text
    /\ find_document_text user_id doc_id docs = Ok text.
Proof.
  induction docs as [|doc rest IH]; intros Hwf Hex; [inversion Hex|].
  inversion Hwf as [|? ? (Hu & Hi & Ht) Hrest]; subst.
  destruct Hu as [u Hu], Hi as [i Hi], Ht as [t Ht].
  cbn [find_document_text]. unfold getitem. rewrite Hu. cbn [bind].
  destruct (py_eq u (VStr user_id)) eqn:Eu.
  - rewrite Hi. cbn [bind]. destruct (py_eq i (VStr doc_id)) eqn:Ei.
    + apply py_eq_VStr in Eu, Ei. subst u i.
      exists [], doc, rest, t. rewrite Ht. repeat split; auto.
    + assert (Hno : ~ owned_by user_id doc_id doc).
      { intros [_ Hd]. rewrite Hi in Hd. injection Hd as ->.
        rewrite (proj2 (py_eq_VStr _ _) eq_refl) in Ei. discriminate. }
      inversion Hex as [? ? Hd|? ? Hd]; subst; [contradiction|].
      destruct (IH Hrest Hd) as (b & r & a & text & -> & Hb & Hr & Htext & ->).
      exists (doc :: b), r, a, text. repeat split; auto; apply Hr.
  - assert (Hno : ~ owned_by user_id doc_id doc).
    { intros [Hd _]. rewrite Hu in Hd. injection Hd as ->.
      rewrite (proj2 (py_eq_VStr _ _) eq_refl) in Eu. discriminate. }
    inversion Hex as [? ? Hd|? ? Hd]; subst; [contradiction|].
    destruct (IH Hrest Hd) as (b & r & a & text & -> & Hb & Hr & Htext & ->).
    exists (doc :: b), r, a, text. repeat split; auto; apply Hr.
Qed.

Lemma find_document_text_missing (user_id doc_id : string) (docs : list (gmap string value)) :
  Forall document_record docs ->
  Forall (fun x => ~ owned_by user_id doc_id x) docs ->
  find_document_text user_id doc_id docs = Raise (ValueError "Document not found.").
Proof.
  induction docs as [|doc rest IH]; intros Hwf Hno; [reflexivity|].
  inversion Hwf as [|? ? (Hu & Hi & Ht) Hrest]; subst.
  inversion Hno as [|? ? Hdoc Hno']; subst.
  destruct Hu as [u Hu], Hi as [i Hi].
  cbn [find_document_text]. unfold getitem. rewrite Hu. cbn [bind].
  destruct (py_eq u (VStr user_id)) eqn:Eu; [|auto].
  rewrite Hi. cbn [bind]. destruct (py_eq i (VStr doc_id)) eqn:Ei; [|auto].
  apply py_eq_VStr in Eu, Ei. subst. exfalso. apply Hdoc. split; assumption.
Qed.

Lemma filter_first {A : Type} (p : A -> bool) (l : list A) :
  match List.filter p l with
  | [] => Forall (fun x => p x = false) l
  | x :: _ =>
      exists before after,
        l = before ++ x :: after /\ Forall (fun y => p y = false) before /\ p x = true
  end.
Proof.
  induction l as [|a l IH]; simpl; [constructor|].
  destruct (p a) eqn:Ea.
  - exists [], l. repeat split; auto.
  - destruct (List.filter p l) as [|x rest].
    + constructor; assumption.
    + destruct IH as (b & c & -> & Hb & Hx). exists (a :: b), c. repeat split; auto.
Qed.

Lemma remote_where_document (user_id doc_id : string) (c : gmap string value) :
  Cosmos.prop_is c "id" doc_id && Cosmos.prop_is c "user_id" user_id
  && Cosmos.prop_is c "type" "document" = true
  <-> is_document false c /\ owned_by user_id doc_id c.
Proof.
  unfold Cosmos.prop_is, is_document, owned_by.
  rewrite !andb_true_iff, !py_eq_get. intuition congruence.
Qed.

(** C1.  Whichever backend is active, [get_document_text user_id doc_id]
    returns the text stored in the first Document that matches both the user
    and the identifier, and raises the not-found error ("Document not
    found.") when no Document matches both; in particular it raises it when
    every Document with that identifier belongs to somebody else.  A
    Document is a record with an owner, an identifier and a text. *)
Theorem document_text_owner_isolation
    (USE_LOCAL_MODE : bool) (user_id doc_id : string)
    (local : db) (container : list (gmap string value)) :
  let records := if USE_LOCAL_MODE then documents local else container in
  let ours := fun r => is_document USE_LOCAL_MODE r /\ owned_by user_id doc_id r in
  let outcome := Cosmos.get_document_text USE_LOCAL_MODE user_id doc_id local container in
  (forall r, r ∈ records -> is_document USE_LOCAL_MODE r -> document_record r) ->
  (Exists ours records ->
   exists before r after text,
     records = before ++ r :: after
     /\ Forall (fun x => ~ ours x) before
     /\ ours r
     /\ r !! "document_text" = Some text
     /\ outcome = Ok text)
  /\ (Forall (fun x => ~ ours x) records ->
      outcome = Raise (ValueError "Document not found."))
  /\ ((forall r, r ∈ records -> is_document USE_LOCAL_MODE r ->
                 r !! "id" = Some (VStr doc_id) ->
                 r !! "user_id" <> Some (VStr user_id)) ->
      outcome = Raise (ValueError "Document not found.")).
Proof.
  intros records ours outcome Hwf.
  assert (Hmissing : Forall (fun x => ~ ours x) records ->
                     outcome = Raise (ValueError "Document not found.")).
  { subst records ours outcome. destruct USE_LOCAL_MODE; cbn [Cosmos.get_document_text].
    - intros Hno. apply find_document_text_missing.
      + apply Forall_forall. intros r Hr. apply Hwf; [exact Hr|left; reflexivity].
      + eapply Forall_impl; [exact Hno|]. cbn. intros r Hr Ho. apply Hr.
        split; [left; reflexivity|exact Ho].
    - intros Hno. unfold Cosmos.query_items.
      match goal with |- context [List.filter ?p container] =>
        pose proof (filter_first p container) as Hf;
        destruct (List.filter p container) as [|x rest] end; [reflexivity|].
      destruct Hf as (b & a & -> & _ & Hx). apply remote_where_document in Hx.
      apply Forall_app in Hno as [_ Hno]. inversion Hno; subst. contradiction. }
  split; [|split; [exact Hmissing|]].
  - subst records ours outcome. destruct USE_LOCAL_MODE; cbn [Cosmos.get_document_text].
    + intros Hex.
      destruct (find_document_text_found user_id doc_id (documents local))
        as (b & r & a & text & E & Hb & Hr & Ht & Hres).
      * apply Forall_forall. intros r Hr. apply Hwf; [exact Hr|left; reflexivity].
      * apply Exists_exists in Hex as (r & Hin & _ & Ho). apply Exists_exists. eauto.
      * exists b, r, a, text. repeat split; auto; try apply Hr; [|left; reflexivity].
        eapply Forall_impl; [exact Hb|]. cbn. intros x Hx [_ Ho]. auto.
    + intros Hex. unfold Cosmos.query_items.
      match goal with |- context [List.filter ?p container] =>
        pose proof (filter_first p container) as Hf;
        destruct (List.filter p container) as [|x rest] end.
      * exfalso. apply Exists_exists in Hex as (r & Hin & Hr).
        rewrite Forall_forall in Hf. specialize (Hf r Hin).
        apply remote_where_document in Hr. congruence.
      * destruct Hf as (b & a & E & Hb & Hx). apply remote_where_document in Hx.
        destruct (Hwf x) as (_ & _ & [text Ht]);
          [rewrite E; apply elem_of_app; right; left|apply Hx|].
        exists b, x, a, text. unfold getitem. rewrite Ht.
        repeat split; auto; try apply Hx.
        eapply Forall_impl; [exact Hb|]. cbn. intros y Hy Ho.
        apply remote_where_document in Ho. congruence.
  - intros Hother. apply Hmissing. apply Forall_forall.
    intros r Hin [Hdoc [Hu Hi]]. exact (Hother r Hin Hdoc Hi Hu).
Qed.

Lemma document_text_owner_isolation_witness :
  (exists text, Cosmos.get_document_text true "u1" "d1" Scenario.one_document [] = Ok text)
  /\ Cosmos.get_document_text true "u2" "d1" Scenario.one_document []
     = Raise (ValueError "Document not found.").
Proof.
  assert (Hwf : forall r, r ∈ documents Scenario.one_document ->
                          is_document true r -> document_record r).
  { intros r Hr _. apply list_elem_of_singleton in Hr as ->.
    repeat split; eexists; vm_compute; reflexivity. }
  split.
  - destruct (proj1 (document_text_owner_isolation true "u1" "d1"
                       Scenario.one_document [] Hwf))
      as (_ & _ & _ & text & _ & _ & _ & _ & Hres).
    + apply Exists_cons_hd. split; [left; reflexivity|]. split; vm_compute; reflexivity.
    + exists text. exact Hres.
  - apply (proj1 (proj2 (document_text_owner_isolation true "u2" "d1"
                           Scenario.one_document [] Hwf))).
    repeat constructor. intros [_ [Hu _]]. vm_compute in Hu. discriminate.
Defined.

End DocumentLookup.

(** ** Listing the documents of a user *)

Section Listing.
Import Py LocalStorage Spec.







End Listing.

(** ** What a read writes back *)

Section Frame.
Import Py LocalStorage Spec.

Lemma message_healed_refl tz user_id doc_id r : message_healed tz user_id doc_id r r.
Proof. unfold message_healed. intuition congruence. Qed.

Lemma document_healed_refl tz user_id r : document_healed tz user_id r r.
Proof. unfold document_healed. intuition congruence. Qed.

Lemma py_or_falsy (a b : value) : truthy a = false -> py_or a b = b.
Proof. unfold py_or. intros ->. reflexivity. Qed.

Lemma content_rewritten (c m : value) :
  py_eq c (py_or (py_or c m) (VStr "")) = false ->
  truthy c = false /\ py_or (py_or c m) (VStr "") = py_or m (VStr "").
Proof.
  destruct (truthy c) eqn:Tc.
  - unfold py_or. rewrite !Tc. intros H. exfalso.
    destruct c as [|b|n|x|t]; cbn [py_eq as_number] in H; try discriminate;
      rewrite ?Qeq_bool_refl, ?String.eqb_refl in H; discriminate.
  - intros _. split; [reflexivity|]. unfold py_or. rewrite Tc. reflexivity.
Qed.

Lemma bind_Ok {A B : Type} (r : result A) (k : A -> result B) (b : B) :
  bind r k = Ok b -> exists a, r = Ok a /\ k a = Ok b.
Proof. destruct r as [a|e]; [eauto|discriminate]. Qed.

Lemma setdefault_frame (r : gmap string value) (k : string) (v : value) :
  (forall k', k' <> k -> setdefault r k v !! k' = r !! k')
  /\ (setdefault r k v !! k <> r !! k ->
      r !! k = None /\ setdefault r k v !! k = Some v).
Proof.
  unfold setdefault. destruct (r !! k) eqn:E.
  - split; [reflexivity|]. intros H. congruence.
  - split; [intros k' Hk; apply lookup_insert_ne; congruence|].
    intros _. split; [reflexivity|apply lookup_insert_eq].
Qed.

Lemma heal_message_healed w i user_id doc_id r r' shaped u :
  in_conversation user_id doc_id r ->
  heal_message w i r = Ok (r', shaped, u) ->
  message_healed (local_utcoffset w) user_id doc_id r r'.
Proof.
  unfold heal_message. intros Hconv H.
  match type of H with
  | context [match ?x with (a, b) => _ end] => destruct x as [e1 u1] eqn:E1
  end.
  match type of H with
  | context [match ?x with (a, b) => _ end] => destruct x as [e2 u2] eqn:E2
  end.
  destruct (_normalize_timestamp _ _ _) as [ts|] eqn:Ets; [|discriminate].
  cbn [bind] in H.
  match type of H with
  | context [match ?x with (a, b) => _ end] => destruct x as [e3 u3] eqn:E3
  end.
  repeat (apply bind_Ok in H as (? & _ & H)).
  injection H as <- _ _.
  assert (P1 : (forall k, k <> "id" -> e1 !! k = r !! k)
               /\ (e1 !! "id" <> r !! "id" -> truthy (get r "id") = false)).
  { unfold get. destruct (r !! "id") as [v|] eqn:E;
      [destruct (negb (truthy v)) eqn:T|]; rewrite ?E, ?T in E1; injection E1 as <- _;
      (split; [intros k Hk; rewrite ?lookup_insert_ne by congruence; reflexivity|]);
      intros Hne; try congruence; try reflexivity.
    apply negb_true_iff in T. exact T. }
  assert (P2 : (forall k, k <> "content" -> e2 !! k = e1 !! k)
               /\ (e2 !! "content" <> e1 !! "content" ->
                   truthy (get e1 "content") = false
                   /\ e2 !! "content" = Some (py_or (get e1 "message") (VStr "")))).
  { destruct (negb (py_eq _ _)) eqn:T in E2; injection E2 as <- _.
    - split; [intros k Hk; rewrite lookup_insert_ne by congruence; reflexivity|].
      intros _. apply negb_true_iff, content_rewritten in T as [T1 T2].
      split; [exact T1|]. rewrite lookup_insert_eq, T2. reflexivity.
    - split; [reflexivity|congruence]. }
  assert (P3 : (forall k, k <> "timestamp" -> e3 !! k = e2 !! k)
               /\ (e3 !! "timestamp" <> e2 !! "timestamp" ->
                   e3 !! "timestamp" = Some (VStr ts))).
  { destruct (negb (py_eq _ _)) eqn:T in E3; injection E3 as <- _.
    - split; [intros k Hk; rewrite lookup_insert_ne by congruence; reflexivity|].
      intros _. apply lookup_insert_eq.
    - split; [reflexivity|congruence]. }
  destruct (setdefault_frame e3 "type" (VStr "message")) as [P4 P4'].
  destruct P1 as [P1 P1'], P2 as [P2 P2'], P3 as [P3 P3'].
  unfold message_healed. repeat apply conj.
  - intros k ? ? ? ?. rewrite P4, P3, P2, P1 by assumption. reflexivity.
  - rewrite P4, P3, P2 by discriminate. exact P1'.
  - rewrite P4, P3 by discriminate. unfold get in *.
    rewrite <- !(P1 "content"), <- !(P1 "message") by discriminate. exact P2'.
  - rewrite P4 by discriminate. unfold get in *.
    rewrite <- (P1 "timestamp"), <- (P2 "timestamp") by discriminate.
    intros Hne. exists (clock w i), ts. split; [exact Ets|apply P3', Hne].
  - rewrite <- (P1 "type"), <- (P2 "type"), <- (P3 "type") by discriminate. exact P4'.
  - intros Hn. contradiction.
Qed.

Lemma in_conversationb_spec (user_id doc_id : string) (r : gmap string value) :
  negb (py_eq (get r "user_id") (VStr user_id))
  || negb (py_eq (get r "doc_id") (VStr doc_id)) = false
  <-> in_conversation user_id doc_id r.
Proof.
  unfold in_conversation. rewrite <- !py_eq_get.
  destruct (py_eq (get r "user_id") (VStr user_id)),
           (py_eq (get r "doc_id") (VStr doc_id)); simpl; intuition congruence.
Qed.

Lemma history_loop_healed w user_id doc_id i entries entries' normalized u :
  history_loop w user_id doc_id i entries = Ok (entries', normalized, u) ->
  Forall2 (message_healed (local_utcoffset w) user_id doc_id) entries entries'.
Proof.
  revert i entries' normalized u.
  induction entries as [|r rest IH]; intros i entries' normalized u H.
  - injection H as <- _ _. constructor.
  - cbn [history_loop] in H.
    destruct (negb (py_eq (get r "user_id") (VStr user_id))
              || negb (py_eq (get r "doc_id") (VStr doc_id))) eqn:Ef.
    + apply bind_Ok in H as ([[rest' n'] u'] & Hrest & H). injection H as <- _ _.
      constructor; [apply message_healed_refl|eapply IH, Hrest].
    + apply in_conversationb_spec in Ef.
      apply bind_Ok in H as ([[r' sh] u0] & Hheal & H).
      apply bind_Ok in H as ([[rest' n'] u'] & Hrest & H). injection H as <- _ _.
      constructor; [eapply heal_message_healed; eassumption|eapply IH, Hrest].
Qed.

Lemma heal_document_healed w i user_id r r' summary u :
  r !! "user_id" = Some (VStr user_id) ->
  heal_document w i r = Ok (r', summary, u) ->
  document_healed (local_utcoffset w) user_id r r'.
Proof.
  unfold heal_document. intros Hown H.
  apply bind_Ok in H as (ts & Ets & H).
  match type of H with
  | context [match ?x with (a, b) => _ end] => destruct x as [e1 u1] eqn:E1
  end.
  repeat (apply bind_Ok in H as (? & _ & H)). injection H as <- _ _.
  unfold document_healed.
  destruct (negb (py_eq _ _)) eqn:T in E1; injection E1 as <- _.
  - repeat apply conj.
    + intros k Hk. rewrite lookup_insert_ne by congruence. reflexivity.
    + intros _. exists (clock w i), ts. split; [exact Ets|apply lookup_insert_eq].
    + intros Hn. contradiction.
  - repeat apply conj; [reflexivity|congruence|reflexivity].
Qed.

Lemma documents_loop_healed w user_id i docs docs' out u :
  documents_loop w user_id i docs = Ok (docs', out, u) ->
  Forall2 (document_healed (local_utcoffset w) user_id) docs docs'.
Proof.
  revert i docs' out u.
  induction docs as [|r rest IH]; intros i docs' out u H.
  - injection H as <- _ _. constructor.
  - cbn [documents_loop] in H.
    destruct (negb (py_eq (get r "user_id") (VStr user_id))) eqn:Ef.
    + apply bind_Ok in H as ([[rest' n'] u'] & Hrest & H). injection H as <- _ _.
      constructor; [apply document_healed_refl|eapply IH, Hrest].
    + apply negb_false_iff, py_eq_get in Ef.
      apply bind_Ok in H as ([[r' sh] u0] & Hheal & H).
      apply bind_Ok in H as ([[rest' n'] u'] & Hrest & H). injection H as <- _ _.
      constructor; [eapply heal_document_healed; eassumption|eapply IH, Hrest].
Qed.

Lemma Forall2_refl_on {A : Type} (R : A -> A -> Prop) (l : list A) :
  (forall x, R x x) -> Forall2 R l l.
Proof. intros H. induction l; constructor; auto. Qed.

(** C8, as the code has it.  A read that returns writes the file back with
    every record in its place and, of each record, only this changed: in the
    messages of the conversation read, a missing or empty [id], a missing or
    empty [content] (restored from the legacy [message] field, else empty), a
    [timestamp] that was not in normal form, and a missing [type]; in the
    documents of the user whose documents are listed, a [created_at] that
    was not in normal form.  Every other field of every record, every
    record of another user or conversation, and the list that the read does
    not walk are left as they were. *)
Theorem read_writes_only_healed_fields
    (w : world) (user_id : string) (doc_id : option string) (d d' : db)
    (returned : list (gmap string value)) :
  get_history w user_id doc_id d = Ok (returned, d') ->
  match truthy_doc_id doc_id with
  | Some doc =>
      documents d' = documents d
      /\ Forall2 (message_healed (local_utcoffset w) user_id doc)
                 (messages d) (messages d')
  | None =>
      messages d' = messages d
      /\ Forall2 (document_healed (local_utcoffset w) user_id)
                 (documents d) (documents d')
  end.
Proof.
  unfold get_history. intros H.
  destruct (truthy_doc_id doc_id) as [doc|].
  - apply bind_Ok in H as ([[msgs' normalized] updated] & Hloop & H).
    injection H as _ <-. destruct updated; cbn [documents messages].
    + split; [reflexivity|eapply history_loop_healed, Hloop].
    + split; [reflexivity|apply Forall2_refl_on, message_healed_refl].
  - apply bind_Ok in H as ([[docs' out] updated] & Hloop & H).
    injection H as _ <-. destruct updated; cbn [documents messages].
    + split; [reflexivity|eapply documents_loop_healed, Hloop].
    + split; [reflexivity|apply Forall2_refl_on, document_healed_refl].
Qed.

Lemma read_writes_only_healed_fields_witness :
  get_history Scenario.world0 "u1" (Some "d1") Scenario.legacy_store
  = Ok ([Scenario.legacy_message_shaped], mk_db [] [Scenario.legacy_message_healed])
  /\ Forall2 (message_healed (local_utcoffset Scenario.world0) "u1" "d1")
             [Scenario.legacy_message] [Scenario.legacy_message_healed].
Proof.
  assert (E : get_history Scenario.world0 "u1" (Some "d1") Scenario.legacy_store
              = Ok ([Scenario.legacy_message_shaped],
                    mk_db [] [Scenario.legacy_message_healed]))
    by (vm_compute; reflexivity).
  split; [exact E|].
  exact (proj2 (read_writes_only_healed_fields Scenario.world0 "u1" (Some "d1")
                  Scenario.legacy_store _ _ E)).
Defined.

(** The claim as the specification words it fails: reading the conversation
    of a message stored without [content] writes that field back, although
    the timestamp of the message was in normal form and is left alone. *)
Lemma read_rewrites_content :
  get_history Scenario.world0 "u1" (Some "d1")
    (mk_db [] [Scenario.legacy_message])
  = Ok ([Scenario.legacy_message_shaped], mk_db [] [Scenario.legacy_message_healed])
  /\ Scenario.legacy_message_healed !! "timestamp"
     = Scenario.legacy_message !! "timestamp"
  /\ Scenario.legacy_message !! "content" = None
  /\ Scenario.legacy_message_healed !! "content" = Some (VStr "hi")
  /\ Scenario.legacy_message_healed !! "content" <> Scenario.legacy_message !! "content".
Proof.
  split; [vm_compute; reflexivity|]. split; [vm_compute; reflexivity|].
  split; [vm_compute; reflexivity|]. split; [vm_compute; reflexivity|].
  vm_compute. discriminate.
Qed.

End Frame.

(** ** Digits and characters *)

Section DigitFacts.
Import Py.
Local Open Scope Z_scope.

Lemma is_digit_range (c : ascii) :
  is_digit c = true <-> (48 <= N_of_ascii c <= 57)%N.
Proof.
  unfold is_digit. cbv zeta. rewrite andb_true_iff, !N.leb_le. reflexivity.
Qed.

Lemma digit_val_range (c : ascii) : is_digit c = true -> 0 <= digit_val c <= 9.
Proof. rewrite is_digit_range. unfold digit_val. lia. Qed.

Lemma digit_char_val (c : ascii) : is_digit c = true -> digit_char (digit_val c) = c.
Proof.
  rewrite is_digit_range. intros H. unfold digit_char, digit_val.
  replace (Z.to_N (Z.of_N (N_of_ascii c) - 48 + 48)) with (N_of_ascii c) by lia.
  apply ascii_N_embedding.
Qed.

Lemma N_of_digit_char (d : Z) : 0 <= d <= 9 -> N_of_ascii (digit_char d) = Z.to_N (d + 48).
Proof. intros H. unfold digit_char. apply N_ascii_embedding. lia. Qed.

Lemma is_digit_digit_char (d : Z) : 0 <= d <= 9 -> is_digit (digit_char d) = true.
Proof. intros H. apply is_digit_range. rewrite N_of_digit_char by exact H. lia. Qed.

Lemma digit_val_char (d : Z) : 0 <= d <= 9 -> digit_val (digit_char d) = d.
Proof. intros H. unfold digit_val. rewrite N_of_digit_char by exact H. lia. Qed.

Lemma digit_not_space (c : ascii) : is_digit c = true -> is_space c = false.
Proof.
  rewrite is_digit_range. intros H. unfold is_space. cbv zeta.
  apply orb_false_iff. split; apply andb_false_iff.
  - right. apply N.leb_gt. lia.
  - right. apply N.leb_gt. lia.
Qed.

Lemma digit_neq (c x : ascii) : is_digit c = true -> is_digit x = false -> Ascii.eqb x c = false.
Proof. intros Hc Hx. apply Ascii.eqb_neq. intros ->. congruence. Qed.

Lemma zfill_2 (n : Z) :
  zfill 2 n = String (digit_char (n / 10 mod 10)) (String (digit_char (n mod 10)) "").
Proof. reflexivity. Qed.

Lemma zfill_4 (n : Z) :
  zfill 4 n
  = String (digit_char (n / 10 / 10 / 10 mod 10))
      (String (digit_char (n / 10 / 10 mod 10))
         (String (digit_char (n / 10 mod 10))
            (String (digit_char (n mod 10)) ""))).
Proof. reflexivity. Qed.

Lemma num2_digits (n : Z) :
  0 <= n <= 99 -> Spec.num2 (digit_char (n / 10 mod 10)) (digit_char (n mod 10)) = n.
Proof.
  intros H. unfold Spec.num2. rewrite !digit_val_char; zlia.
Qed.

Lemma num4_digits (n : Z) :
  0 <= n <= 9999 ->
  Spec.num4 (digit_char (n / 10 / 10 / 10 mod 10)) (digit_char (n / 10 / 10 mod 10))
            (digit_char (n / 10 mod 10)) (digit_char (n mod 10)) = n.
Proof.
  intros H. unfold Spec.num4. rewrite !digit_val_char; zlia.
Qed.

Lemma digits_num2 (a b : ascii) :
  is_digit a = true -> is_digit b = true ->
  digit_char (Spec.num2 a b / 10 mod 10) = a /\ digit_char (Spec.num2 a b mod 10) = b.
Proof.
  intros Ha Hb. pose proof (digit_val_range a Ha). pose proof (digit_val_range b Hb).
  unfold Spec.num2.
  replace ((10 * digit_val a + digit_val b) / 10 mod 10) with (digit_val a) by zlia.
  replace ((10 * digit_val a + digit_val b) mod 10) with (digit_val b) by zlia.
  split; apply digit_char_val; assumption.
Qed.

Lemma digits_num4 (a b c d : ascii) :
  is_digit a = true -> is_digit b = true -> is_digit c = true -> is_digit d = true ->
  let n := Spec.num4 a b c d in
  digit_char (n / 10 / 10 / 10 mod 10) = a /\ digit_char (n / 10 / 10 mod 10) = b
  /\ digit_char (n / 10 mod 10) = c /\ digit_char (n mod 10) = d.
Proof.
  intros Ha Hb Hc Hd n. subst n.
  pose proof (digit_val_range a Ha). pose proof (digit_val_range b Hb).
  pose proof (digit_val_range c Hc). pose proof (digit_val_range d Hd).
  unfold Spec.num4.
  set (va := digit_val a) in *. set (vb := digit_val b) in *.
  set (vc := digit_val c) in *. set (vd := digit_val d) in *.
  replace ((10 * (10 * (10 * va + vb) + vc) + vd) / 10 / 10 / 10 mod 10) with va by zlia.
  replace ((10 * (10 * (10 * va + vb) + vc) + vd) / 10 / 10 mod 10) with vb by zlia.
  replace ((10 * (10 * (10 * va + vb) + vc) + vd) / 10 mod 10) with vc by zlia.
  replace ((10 * (10 * (10 * va + vb) + vc) + vd) mod 10) with vd by zlia.
  subst va vb vc vd. repeat split; apply digit_char_val; assumption.
Qed.

End DigitFacts.

(** ** The calendar *)

Section CalendarFacts.
Import Py Datetime.
Local Open Scope Z_scope.

Lemma is_leap_decomposed (a b c e : Z) :
  0 <= b <= 3 -> 0 <= c <= 24 -> 0 <= e <= 3 ->
  is_leap (a * 400 + 1 + b * 100 + c * 4 + e)
  = (e =? 3) && (negb (c =? 24) || (b =? 3)).
Proof.
  intros Hb Hc He. unfold is_leap.
  destruct (Z.eqb_spec e 3) as [->|He3].
  - replace ((a * 400 + 1 + b * 100 + c * 4 + 3) mod 4) with 0 by zlia.
    cbn [Z.eqb andb].
    destruct (Z.eqb_spec c 24) as [->|Hc24]; cbn [negb orb].
    + replace ((a * 400 + 1 + b * 100 + 24 * 4 + 3) mod 100) with 0 by zlia.
      cbn [Z.eqb negb orb].
      destruct (Z.eqb_spec b 3) as [->|Hb3].
      * replace ((a * 400 + 1 + 3 * 100 + 24 * 4 + 3) mod 400) with 0 by zlia.
        reflexivity.
      * destruct (Z.eqb_spec ((a * 400 + 1 + b * 100 + 24 * 4 + 3) mod 400) 0);
          [zlia|reflexivity].
    + destruct (Z.eqb_spec ((a * 400 + 1 + b * 100 + c * 4 + 3) mod 100) 0);
        [zlia|reflexivity].
  - destruct (Z.eqb_spec ((a * 400 + 1 + b * 100 + c * 4 + e) mod 4) 0);
      [zlia|reflexivity].
Qed.

Lemma month_cases (m : Z) :
  1 <= m <= 12 ->
  m = 1 \/ m = 2 \/ m = 3 \/ m = 4 \/ m = 5 \/ m = 6
  \/ m = 7 \/ m = 8 \/ m = 9 \/ m = 10 \/ m = 11 \/ m = 12.
Proof. lia. Qed.

(** The month and the day of the month that [ord2ymd] finds for day [n] of
    a year, counted from 0: on either side of its correction of the estimated
    month they exist. *)
Lemma month_day_valid (n : Z) (leapyear : bool) :
  0 <= n <= 364 ->
  let month := Z.shiftr (n + 50) 5 in
  let preceding :=
    DAYS_BEFORE_MONTH month + (if (2 <? month) && leapyear then 1 else 0) in
  let preceding' :=
    preceding
    - (DAYS_IN_MONTH (month - 1) + (if (month - 1 =? 2) && leapyear then 1 else 0)) in
  ((n <? preceding) = true ->
   1 <= (month - 1) <= 12
   /\ 1 <= (n - preceding' + 1)
        <= DAYS_IN_MONTH (month - 1) + (if (month - 1 =? 2) && leapyear then 1 else 0))
  /\ ((n <? preceding) = false ->
      1 <= month <= 12
      /\ 1 <= (n - preceding + 1)
           <= DAYS_IN_MONTH month + (if (month =? 2) && leapyear then 1 else 0)).
Proof.
  intros Hn. cbv zeta.
  rewrite Z.shiftr_div_pow2 by lia. change (2 ^ 5) with 32.
  set (month := (n + 50) / 32).
  assert (Hm : 1 <= month <= 12) by (subst month; zlia).
  assert (Hq : 32 * month <= n + 50 < 32 * month + 32) by (subst month; zlia).
  clearbody month.
  destruct (month_cases month Hm) as [->|[->|[->|[->|[->|[->|[->|[->|[->|[->|[->| ->]]]]]]]]]]];
    destruct leapyear;
    try match goal with
    | |- context [Z.pos ?p - 1] =>
        let v := eval compute in (Z.pos p - 1) in change (Z.pos p - 1) with v
    end; cbn; rewrite ?Z.ltb_lt, ?Z.ltb_ge; lia.
Qed.

Lemma days_in_month_eq (y m : Z) :
  days_in_month y m = DAYS_IN_MONTH m + (if (m =? 2) && is_leap y then 1 else 0).
Proof.
  unfold days_in_month. destruct (Z.eqb_spec m 2) as [->|_]; cbn [andb]; [|lia].
  destruct (is_leap y); reflexivity.
Qed.

Lemma valid_date_intro (y m d : Z) :
  1 <= y <= 9999 -> 1 <= m <= 12 -> 1 <= d <= days_in_month y m ->
  valid_date y m d = true.
Proof.
  intros Hy Hm Hd. unfold valid_date, MINYEAR, MAXYEAR.
  rewrite !andb_true_iff, !Z.leb_le. lia.
Qed.

Lemma ord2ymd_valid (n : Z) :
  1 <= n <= MAXORDINAL ->
  valid_date (ord2ymd n).1.1 (ord2ymd n).1.2 (ord2ymd n).2 = true.
Proof.
  intros Hn. unfold ord2ymd, MAXORDINAL, DI400Y, DI100Y, DI4Y in *. cbv zeta.
  set (n0 := n - 1).
  set (a := n0 / 146097). set (r400 := n0 mod 146097).
  set (b := r400 / 36524). set (r100 := r400 mod 36524).
  set (c := r100 / 1461). set (r4 := r100 mod 1461).
  set (e := r4 / 365). set (r1 := r4 mod 365).
  assert (Ha : 0 <= a <= 24) by (subst a n0; zlia).
  assert (H400 : n0 = 146097 * a + r400 /\ 0 <= r400 <= 146096) by (subst a r400; zlia).
  assert (Hb : 0 <= b <= 4) by (subst b; zlia).
  assert (H100 : r400 = 36524 * b + r100 /\ 0 <= r100 <= 36523) by (subst b r100; zlia).
  assert (Hc : 0 <= c <= 24) by (subst c; zlia).
  assert (H4 : r100 = 1461 * c + r4 /\ 0 <= r4 <= 1460) by (subst c r4; zlia).
  assert (He : 0 <= e <= 4) by (subst e; zlia).
  assert (H1 : r4 = 365 * e + r1 /\ 0 <= r1 <= 364) by (subst e r1; zlia).
  assert (Hn0 : 0 <= n0 <= 3652058) by (subst n0; lia).
  clearbody a r400 b r100 c r4 e r1 n0.
  destruct ((e =? 4) || (b =? 4)) eqn:Elast.
  - cbn [fst snd]. apply valid_date_intro; [|lia|rewrite days_in_month_eq; cbn; lia].
    apply orb_true_iff in Elast as [E|E]; apply Z.eqb_eq in E; lia.
  - apply orb_false_iff in Elast as [E1 E2]. apply Z.eqb_neq in E1, E2.
    set (leapyear := (e =? 3) && (negb (c =? 24) || (b =? 3))).
    assert (Hleap : is_leap (a * 400 + 1 + b * 100 + c * 4 + e) = leapyear)
      by (apply is_leap_decomposed; lia).
    destruct (month_day_valid r1 leapyear (proj2 H1)) as [Hlt Hge].
    cbv zeta in Hlt, Hge.
    destruct (r1 <? _) eqn:Ecmp; cbn [fst snd].
    + destruct (Hlt eq_refl) as [Hm Hd].
      apply valid_date_intro; [lia|exact Hm|].
      rewrite days_in_month_eq, Hleap. lia.
    + destruct (Hge eq_refl) as [Hm Hd].
      apply valid_date_intro; [lia|exact Hm|].
      rewrite days_in_month_eq, Hleap. lia.
Qed.

End CalendarFacts.

(** ** Datetimes that exist *)

Section DatetimeFacts.
Import Py Datetime.
Local Open Scope Z_scope.

Lemma of_epoch_us_well_formed (us : Z) (tz : option Z) :
  1 <= ordinal_of_epoch_us us <= MAXORDINAL ->
  well_formed (of_epoch_us us tz) = true /\ tzinfo (of_epoch_us us tz) = tz.
Proof.
  unfold ordinal_of_epoch_us, of_epoch_us. intros Hord.
  pose proof (ord2ymd_valid _ Hord) as Hdate.
  destruct (ord2ymd (us / MICRO / 86400 + EPOCH_ORDINAL)) as [[y m] d].
  cbn [fst snd] in Hdate. split; [|reflexivity].
  unfold well_formed. cbn [year month day hour minute second microsecond].
  rewrite Hdate. cbn [andb]. unfold valid_time, MICRO.
  rewrite !andb_true_iff, !Z.leb_le. zlia.
Qed.

Lemma utc_from_us_Ok (us : Z) (dt : datetime) :
  utc_from_us us = Ok dt -> well_formed dt = true /\ tzinfo dt = Some 0.
Proof.
  unfold utc_from_us. intros H.
  destruct (in_range TIME_T_MIN TIME_T_MAX (us / MICRO)); [|discriminate].
  destruct (in_range GMTIME_MIN GMTIME_MAX (us / MICRO)); [|discriminate].
  destruct (in_range EPOCH_MIN EPOCH_MAX (us / MICRO)) eqn:E; [|discriminate].
  cbn [negb] in H. injection H as <-.
  apply of_epoch_us_well_formed.
  unfold in_range, EPOCH_MIN, EPOCH_MAX in E.
  apply andb_true_iff in E as [E1 E2]. apply Z.leb_le in E1, E2.
  unfold ordinal_of_epoch_us, EPOCH_ORDINAL, MAXORDINAL. zlia.
Qed.

Lemma fromtimestamp_Ok (t : timestamp) (dt : datetime) :
  fromtimestamp t = Ok dt -> well_formed dt = true /\ tzinfo dt = Some 0.
Proof.
  destruct t as [n|[x|b|]]; cbn [fromtimestamp]; try discriminate;
    apply utc_from_us_Ok.
Qed.

Lemma shift_to_utc_Ok (dt dt' : datetime) (off : Z) :
  shift_to_utc dt off = Ok dt' -> well_formed dt' = true /\ tzinfo dt' = Some 0.
Proof.
  unfold shift_to_utc. generalize (to_epoch_us dt - off). intros us H.
  destruct (in_range 1 MAXORDINAL (ordinal_of_epoch_us us)) eqn:E; [|discriminate].
  injection H as <-.
  apply of_epoch_us_well_formed.
  unfold in_range in E. apply andb_true_iff in E as [E1 E2].
  apply Z.leb_le in E1, E2. split; assumption.
Qed.

Lemma new_datetime_Ok (y m d hh mm ss us : Z) (tz : option Z) (dt : datetime) :
  new_datetime y m d hh mm ss us tz = Ok dt ->
  dt = mk_datetime y m d hh mm ss us tz /\ well_formed dt = true.
Proof.
  unfold new_datetime. intros H.
  destruct (valid_tzinfo tz); [|discriminate].
  destruct (valid_date y m d) eqn:Ed; [|discriminate].
  destruct (valid_time hh mm ss us) eqn:Et; [|discriminate].
  cbn [negb] in H. injection H as <-. split; [reflexivity|].
  unfold well_formed. cbn. rewrite Ed, Et. reflexivity.
Qed.

Lemma fromisoformat_Ok (s : string) (dt : datetime) :
  fromisoformat s = Ok dt -> well_formed dt = true.
Proof.
  unfold fromisoformat. intros H.
  destruct (parse_isoformat s) as [[[[y m] d] [[[[hh mm] ss] us] tz]]|]; [|discriminate].
  apply new_datetime_Ok in H as [_ H]. exact H.
Qed.

Lemma astimezone_utc_Ok (local : datetime -> result Z) (dt dt' : datetime) :
  well_formed dt = true ->
  astimezone_utc local dt = Ok dt' ->
  well_formed dt' = true /\ tzinfo dt' = Some 0.
Proof.
  unfold astimezone_utc. intros Hwf H.
  destruct (tzinfo dt) as [off|] eqn:Etz.
  - destruct (Z.eqb_spec off 0) as [->|_].
    + injection H as <-. split; assumption.
    + exact (shift_to_utc_Ok _ _ _ H).
  - apply bind_Ok in H as (off & _ & H). exact (shift_to_utc_Ok _ _ _ H).
Qed.

End DatetimeFacts.

(** ** The canonical spelling *)

Section CanonicalFacts.
Import Py Datetime Spec.
Local Open Scope Z_scope.

Lemma all_chars_app (p : ascii -> bool) (a b : string) :
  all_chars p (a +:+ b) = all_chars p a && all_chars p b.
Proof.
  induction a as [|c a IH]; [reflexivity|].
  rewrite app_cons. cbn [all_chars]. rewrite IH, andb_assoc. reflexivity.
Qed.

Lemma all_chars_zfill (p : ascii -> bool) (k : nat) (n : Z) :
  (forall c, is_digit c = true -> p c = true) -> all_chars p (zfill k n) = true.
Proof.
  intros Hp. revert n. induction k as [|k IH]; intros n; [reflexivity|].
  cbn [zfill]. rewrite all_chars_app, IH. cbn [all_chars andb].
  rewrite Hp; [reflexivity|]. apply is_digit_digit_char. zlia.
Qed.

Lemma length_zfill (k : nat) (n : Z) : String.length (zfill k n) = k.
Proof.
  revert n. induction k as [|k IH]; intros n; [reflexivity|].
  cbn [zfill]. rewrite length_app_s, IH. cbn [String.length]. lia.
Qed.

Lemma replace_from_prefix (c0 : ascii) (old' new pre rest : string) :
  all_chars (fun c => negb (Ascii.eqb c0 c)) pre = true ->
  replace_from (String c0 old') new 0 (pre +:+ rest)
  = pre +:+ replace_from (String c0 old') new 0 rest.
Proof.
  induction pre as [|c pre IH]; intros H; [reflexivity|].
  cbn [all_chars] in H. apply andb_true_iff in H as [Hc Hpre].
  apply negb_true_iff, Ascii.eqb_neq in Hc.
  rewrite !app_cons. cbn [replace_from String.prefix].
  destruct (ascii_dec c0 c) as [E|_]; [contradiction|].
  rewrite IH by exact Hpre. reflexivity.
Qed.

Lemma strip_no_space (s : string) :
  all_chars (fun c => negb (is_space c)) s = true -> strip s = s.
Proof.
  intros H. unfold strip.
  assert (Hl : lstrip s = s).
  { destruct s as [|c s]; [reflexivity|]. cbn [all_chars] in H.
    apply andb_true_iff in H as [Hc _]. apply negb_true_iff in Hc.
    cbn [lstrip]. rewrite Hc. reflexivity. }
  rewrite Hl. clear Hl. induction s as [|c s IH]; [reflexivity|].
  cbn [all_chars] in H. apply andb_true_iff in H as [Hc Hs].
  apply negb_true_iff in Hc. cbn [rstrip]. rewrite (IH Hs), Hc.
  destruct s; reflexivity.
Qed.

(** The date and the time of day, without the zone. *)
Lemma canonical_string_split (y m d hh mm ss : Z) :
  exists pre,
    pre = zfill 4 y +:+ "-" +:+ zfill 2 m +:+ "-" +:+ zfill 2 d
          +:+ "T" +:+ zfill 2 hh +:+ ":" +:+ zfill 2 mm +:+ ":" +:+ zfill 2 ss
    /\ canonical_string y m d hh mm ss = pre +:+ "Z"
    /\ (forall p : ascii -> bool,
          (forall c, is_digit c = true -> p c = true) ->
          p "-"%char = true -> p "T"%char = true -> p ":"%char = true ->
          all_chars p pre = true).
Proof.
  eexists. split; [reflexivity|]. split.
  - unfold canonical_string. rewrite !app_assoc_s. reflexivity.
  - intros p Hd H1 H2 H3.
    rewrite !all_chars_app, !all_chars_zfill by exact Hd.
    cbn [all_chars]. rewrite H1, H2, H3. reflexivity.
Qed.

Lemma valid_date_bounds (y m d : Z) :
  valid_date y m d = true -> 1 <= y <= 9999 /\ 1 <= m <= 12 /\ 1 <= d <= 31.
Proof.
  unfold valid_date, MINYEAR, MAXYEAR. rewrite !andb_true_iff, !Z.leb_le.
  intros (((((Hy1 & Hy2) & Hm1) & Hm2) & Hd1) & Hd2).
  repeat split; try assumption.
  rewrite days_in_month_eq in Hd2.
  destruct (month_cases m (conj Hm1 Hm2))
    as [->|[->|[->|[->|[->|[->|[->|[->|[->|[->|[->| ->]]]]]]]]]]];
    cbn in Hd2; try lia.
  destruct (is_leap y); lia.
Qed.

Lemma valid_time_bounds (hh mm ss us : Z) :
  valid_time hh mm ss us = true ->
  0 <= hh <= 23 /\ 0 <= mm <= 59 /\ 0 <= ss <= 59 /\ 0 <= us <= 999999.
Proof. unfold valid_time. rewrite !andb_true_iff, !Z.leb_le. lia. Qed.

Lemma canonical_of_well_formed (dt : datetime) :
  tzinfo dt = Some 0 ->
  LocalStorage.canonical dt
  = canonical_string (year dt) (month dt) (day dt) (hour dt) (minute dt) (second dt).
Proof.
  intros Htz.
  destruct (canonical_string_split (year dt) (month dt) (day dt)
              (hour dt) (minute dt) (second dt)) as (pre & Hpre & -> & Hall).
  unfold LocalStorage.canonical, isoformat, replace_microsecond_0.
  cbn [year month day hour minute second microsecond tzinfo]. rewrite Htz.
  change (format_offset (Some 0)) with "+00:00".
  change (if 0 =? 0 then "" else "." +:+ zfill 6 0) with "".
  replace (zfill 4 (year dt) +:+ "-" +:+ zfill 2 (month dt) +:+ "-"
           +:+ zfill 2 (day dt) +:+ "T" +:+ zfill 2 (hour dt) +:+ ":"
           +:+ zfill 2 (minute dt) +:+ ":" +:+ zfill 2 (second dt) +:+ ""
           +:+ "+00:00")
    with (pre +:+ "+00:00")
    by (rewrite Hpre, !app_assoc_s; reflexivity).
  unfold replace. rewrite replace_from_prefix; [reflexivity|].
  apply Hall; [|reflexivity..].
  intros c Hc. apply negb_true_iff, digit_neq; [exact Hc|reflexivity].
Qed.

Lemma canonical_string_explicit (y m d hh mm ss : Z) :
  canonical_string y m d hh mm ss
  = String (digit_char (y / 10 / 10 / 10 mod 10)) (String (digit_char (y / 10 / 10 mod 10))
    (String (digit_char (y / 10 mod 10)) (String (digit_char (y mod 10)) (String "-"
    (String (digit_char (m / 10 mod 10)) (String (digit_char (m mod 10)) (String "-"
    (String (digit_char (d / 10 mod 10)) (String (digit_char (d mod 10)) (String "T"
    (String (digit_char (hh / 10 mod 10)) (String (digit_char (hh mod 10)) (String ":"
    (String (digit_char (mm / 10 mod 10)) (String (digit_char (mm mod 10)) (String ":"
    (String (digit_char (ss / 10 mod 10)) (String (digit_char (ss mod 10)) (String "Z"
    EmptyString))))))))))))))))))).
Proof. reflexivity. Qed.

Lemma canonical_string_is_canonical (y m d hh mm ss : Z) :
  valid_date y m d = true -> valid_time hh mm ss 0 = true ->
  canonical_timestamp (canonical_string y m d hh mm ss) = true.
Proof.
  intros Hd Ht.
  destruct (valid_date_bounds _ _ _ Hd) as (Hy & Hm & Hday).
  destruct (valid_time_bounds _ _ _ _ Ht) as (Hh & Hmi & Hs & _).
  rewrite canonical_string_explicit. cbn [canonical_timestamp forallb].
  rewrite !is_digit_digit_char by zlia.
  rewrite num4_digits, !num2_digits by lia.
  rewrite Hd, Ht. reflexivity.
Qed.

Lemma canonical_timestamp_inv (s : string) :
  canonical_timestamp s = true ->
  exists y m d hh mm ss,
    s = canonical_string y m d hh mm ss
    /\ valid_date y m d = true /\ valid_time hh mm ss 0 = true.
Proof.
  intros H.
  do 20 (destruct s as [|? s]; [discriminate H|]).
  destruct s; [|discriminate H].
  cbn [canonical_timestamp] in H.
  do 8 (apply andb_true_iff in H as [H ?]).
  cbn [forallb] in H.
  do 14 (let D := fresh "D" in apply andb_true_iff in H as [D H]).
  repeat match goal with
         | E : Ascii.eqb _ _ = true |- _ => apply Ascii.eqb_eq in E; subst
         end.
  eexists (num4 _ _ _ _), (num2 _ _), (num2 _ _), (num2 _ _), (num2 _ _), (num2 _ _).
  split; [|split; eassumption].
  rewrite canonical_string_explicit.
  repeat match goal with
         | |- context [digit_char (num4 ?a ?b ?c ?e / 10 / 10 / 10 mod 10)] =>
             destruct (digits_num4 a b c e) as (-> & -> & -> & ->); [assumption..|]
         | |- context [digit_char (num2 ?a ?b / 10 mod 10)] =>
             destruct (digits_num2 a b) as (-> & ->); [assumption..|]
         end.
  reflexivity.
Qed.

(** *** Reading the canonical spelling back *)

Lemma app_char (c : ascii) (rest : string) : String c "" +:+ rest = String c rest.
Proof. reflexivity. Qed.

Lemma digits_field_zfill2 (n : Z) (rest : string) :
  0 <= n <= 99 -> digits_field 2 (zfill 2 n +:+ rest) = Some (n, rest).
Proof.
  intros Hn. rewrite zfill_2, !app_cons, app_empty_l.
  unfold digits_field. cbn [take String.length Nat.eqb drop parse_digits digits_from].
  rewrite !is_digit_digit_char, !digit_val_char by zlia.
  cbn [mbind option_bind]. do 2 f_equal. zlia.
Qed.

Lemma digits_field_zfill2_end (n : Z) :
  0 <= n <= 99 -> digits_field 2 (zfill 2 n) = Some (n, "").
Proof.
  intros Hn. rewrite <- (app_empty_r (zfill 2 n)). apply digits_field_zfill2, Hn.
Qed.

Lemma digits_field_zfill4 (n : Z) (rest : string) :
  0 <= n <= 9999 -> digits_field 4 (zfill 4 n +:+ rest) = Some (n, rest).
Proof.
  intros Hn. rewrite zfill_4, !app_cons, app_empty_l.
  unfold digits_field. cbn [take String.length Nat.eqb drop parse_digits digits_from].
  rewrite !is_digit_digit_char, !digit_val_char by zlia.
  cbn [mbind option_bind]. do 2 f_equal. zlia.
Qed.

Lemma expect_char_app (c : ascii) (rest : string) :
  expect_char c (String c "" +:+ rest) = Some rest.
Proof. rewrite app_char. cbn [expect_char]. rewrite Ascii.eqb_refl. reflexivity. Qed.

Lemma find_char_none (c : ascii) (s : string) :
  all_chars (fun x => negb (Ascii.eqb c x)) s = true -> find_char c s = None.
Proof.
  induction s as [|x s IH]; [reflexivity|]. cbn [all_chars find_char].
  intros H. apply andb_true_iff in H as [Hx Hs]. apply negb_true_iff in Hx.
  rewrite Hx, (IH Hs). reflexivity.
Qed.

Lemma find_char_first (c : ascii) (pre rest : string) :
  all_chars (fun x => negb (Ascii.eqb c x)) pre = true ->
  find_char c (pre +:+ String c rest) = Some (String.length pre).
Proof.
  induction pre as [|x pre IH]; intros H.
  - rewrite app_empty_l. cbn [find_char]. rewrite Ascii.eqb_refl. reflexivity.
  - cbn [all_chars] in H. apply andb_true_iff in H as [Hx Hs].
    apply negb_true_iff in Hx. rewrite app_cons. cbn [find_char String.length].
    rewrite Hx, (IH Hs). reflexivity.
Qed.

Lemma take_length_app (pre rest : string) : take (String.length pre) (pre +:+ rest) = pre.
Proof.
  induction pre as [|x pre IH]; [destruct rest; reflexivity|].
  rewrite app_cons. cbn [String.length take]. rewrite IH. reflexivity.
Qed.

Lemma drop_length_app (pre rest : string) : drop (String.length pre) (pre +:+ rest) = rest.
Proof.
  induction pre as [|x pre IH]; [destruct rest; reflexivity|].
  rewrite app_cons. cbn [String.length drop]. exact IH.
Qed.

Lemma parse_time_of_day (hh mm ss : Z) :
  0 <= hh <= 99 -> 0 <= mm <= 99 -> 0 <= ss <= 99 ->
  parse_hh_mm_ss_ff (zfill 2 hh +:+ ":" +:+ zfill 2 mm +:+ ":" +:+ zfill 2 ss)
  = Some (hh, mm, ss, 0).
Proof.
  intros Hh Hm Hs. unfold parse_hh_mm_ss_ff.
  rewrite digits_field_zfill2 by exact Hh. cbn [mbind option_bind].
  rewrite app_char. cbn [Ascii.eqb Bool.eqb negb].
  rewrite digits_field_zfill2 by exact Hm. cbn [mbind option_bind].
  rewrite app_char. cbn [Ascii.eqb Bool.eqb negb].
  rewrite digits_field_zfill2_end by exact Hs. reflexivity.
Qed.

Lemma tz_split_utc (timestr : string) :
  all_chars (fun x => negb (Ascii.eqb "-" x)) timestr = true ->
  all_chars (fun x => negb (Ascii.eqb "+" x)) timestr = true ->
  tz_split (timestr +:+ "+00:00") = (timestr, Some (false, "00:00")).
Proof.
  intros Hminus Hplus. unfold tz_split.
  rewrite find_char_none
    by (rewrite all_chars_app, Hminus; reflexivity).
  change "+00:00" with (String "+" "00:00").
  rewrite (find_char_first _ _ _ Hplus), take_length_app.
  change (String "+" "00:00") with (String "+" "" +:+ "00:00").
  rewrite <- app_assoc_s.
  replace (S (String.length timestr)) with (String.length (timestr +:+ String "+" ""))
    by (rewrite length_app_s; cbn [String.length]; lia).
  rewrite drop_length_app. reflexivity.
Qed.

Lemma time_of_day_chars (p : ascii -> bool) (hh mm ss : Z) :
  (forall c, is_digit c = true -> p c = true) -> p ":"%char = true ->
  all_chars p (zfill 2 hh +:+ ":" +:+ zfill 2 mm +:+ ":" +:+ zfill 2 ss) = true.
Proof.
  intros Hd Hc. rewrite !all_chars_app, !all_chars_zfill by exact Hd.
  cbn [all_chars]. rewrite Hc. reflexivity.
Qed.

Lemma parse_isoformat_time_utc (hh mm ss : Z) :
  0 <= hh <= 99 -> 0 <= mm <= 99 -> 0 <= ss <= 99 ->
  parse_isoformat_time
    (zfill 2 hh +:+ ":" +:+ zfill 2 mm +:+ ":" +:+ zfill 2 ss +:+ "+00:00")
  = Some (hh, mm, ss, 0, Some 0).
Proof.
  intros Hh Hm Hs. unfold parse_isoformat_time.
  replace (zfill 2 hh +:+ ":" +:+ zfill 2 mm +:+ ":" +:+ zfill 2 ss +:+ "+00:00")
    with ((zfill 2 hh +:+ ":" +:+ zfill 2 mm +:+ ":" +:+ zfill 2 ss) +:+ "+00:00")
    by (rewrite !app_assoc_s; reflexivity).
  rewrite length_app_s, !length_app_s, !length_zfill. cbn [String.length Nat.add Nat.ltb Nat.leb].
  rewrite tz_split_utc.
  - rewrite parse_time_of_day by assumption. reflexivity.
  - apply time_of_day_chars; [|reflexivity].
    intros c Hc. apply negb_true_iff, digit_neq; [exact Hc|reflexivity].
  - apply time_of_day_chars; [|reflexivity].
    intros c Hc. apply negb_true_iff, digit_neq; [exact Hc|reflexivity].
Qed.

Lemma fromisoformat_canonical (y m d hh mm ss : Z) :
  valid_date y m d = true -> valid_time hh mm ss 0 = true ->
  fromisoformat
    (zfill 4 y +:+ "-" +:+ zfill 2 m +:+ "-" +:+ zfill 2 d
     +:+ "T" +:+ zfill 2 hh +:+ ":" +:+ zfill 2 mm +:+ ":" +:+ zfill 2 ss +:+ "+00:00")
  = Ok (mk_datetime y m d hh mm ss 0 (Some 0)).
Proof.
  intros Hd Ht.
  destruct (valid_date_bounds _ _ _ Hd) as (Hy & Hm & Hday).
  destruct (valid_time_bounds _ _ _ _ Ht) as (Hh & Hmi & Hs & _).
  unfold fromisoformat, parse_isoformat, parse_isoformat_date.
  rewrite digits_field_zfill4 by lia. cbn [mbind option_bind].
  rewrite expect_char_app. cbn [mbind option_bind].
  rewrite digits_field_zfill2 by lia. cbn [mbind option_bind].
  rewrite expect_char_app. cbn [mbind option_bind].
  rewrite digits_field_zfill2 by lia. cbn [mbind option_bind].
  rewrite app_char, parse_isoformat_time_utc by lia. cbn [mbind option_bind].
  unfold new_datetime. rewrite Hd, Ht. reflexivity.
Qed.

End CanonicalFacts.

(** ** The timestamp normaliser *)

Section NormalizerFacts.
Import Py Datetime LocalStorage Spec.
Local Open Scope Z_scope.

Lemma canonical_is_canonical (dt : datetime) :
  well_formed dt = true -> tzinfo dt = Some 0 ->
  canonical_timestamp (canonical dt) = true.
Proof.
  intros Hwf Htz. rewrite (canonical_of_well_formed dt Htz).
  unfold well_formed in Hwf. apply andb_true_iff in Hwf as [Hd Ht].
  apply canonical_string_is_canonical; [exact Hd|].
  destruct (valid_time_bounds _ _ _ _ Ht) as (Hh & Hm & Hs & _).
  unfold valid_time. rewrite !andb_true_iff, !Z.leb_le. lia.
Qed.

Lemma utc_now_Ok (now : Z) (s : string) :
  _utc_now now = Ok s -> canonical_timestamp s = true.
Proof.
  unfold _utc_now. intros H. apply bind_Ok in H as (dt & Hdt & H).
  injection H as <-. apply utc_from_us_Ok in Hdt as [Hwf Htz].
  apply canonical_is_canonical; assumption.
Qed.

Lemma fromtimestamp_canonical (t : timestamp) (s : string) :
  bind (fromtimestamp t) (fun dt => Ok (canonical dt)) = Ok s ->
  canonical_timestamp s = true.
Proof.
  intros H. apply bind_Ok in H as (dt & Hdt & H). injection H as <-.
  apply fromtimestamp_Ok in Hdt as [Hwf Htz].
  apply canonical_is_canonical; assumption.
Qed.

Lemma except_ValueError_Ok {A : Type} (body handler : result A) (a : A) :
  except_ValueError body handler = Ok a -> body = Ok a \/ handler = Ok a.
Proof.
  destruct body as [b|[]]; cbn [except_ValueError]; intros H;
    first [left; exact H | right; exact H | discriminate H].
Qed.

(** Whatever the normaliser returns is a canonical timestamp. *)
Lemma normalize_returns_canonical (tz : datetime -> result Z) (now : Z)
    (v : value) (s : string) :
  _normalize_timestamp tz now v = Ok s -> canonical_timestamp s = true.
Proof.
  unfold _normalize_timestamp. intros H.
  destruct (py_eq v VNone || py_eq v (VStr "")); [eapply utc_now_Ok, H|].
  destruct v as [|b|n|x|t].
  - eapply utc_now_Ok, H.
  - eapply fromtimestamp_canonical, H.
  - eapply fromtimestamp_canonical, H.
  - eapply fromtimestamp_canonical, H.
  - destruct (String.eqb (strip t) ""); [eapply utc_now_Ok, H|].
    apply except_ValueError_Ok in H as [H|H].
    + apply bind_Ok in H as (parsed & Hp & H).
      apply bind_Ok in H as (dt & Hdt & H). injection H as <-.
      apply fromisoformat_Ok in Hp.
      destruct (astimezone_utc_Ok _ _ _ Hp Hdt) as [Hwf Htz].
      apply canonical_is_canonical; assumption.
    + apply except_ValueError_Ok in H as [H|H]; [|eapply utc_now_Ok, H].
      apply bind_Ok in H as (f & _ & H). eapply fromtimestamp_canonical, H.
Qed.

(** A canonical timestamp is returned as it is, whatever the clock and the
    local time zone. *)
Lemma normalize_canonical_fixed (tz : datetime -> result Z) (now : Z) (s : string) :
  canonical_timestamp s = true -> _normalize_timestamp tz now (VStr s) = Ok s.
Proof.
  intros H.
  apply canonical_timestamp_inv in H as (y & m & d & hh & mm & ss & -> & Hd & Ht).
  destruct (canonical_string_split y m d hh mm ss) as (pre & Hpre & Hs & Hall).
  assert (Hstrip : strip (canonical_string y m d hh mm ss) = canonical_string y m d hh mm ss).
  { apply strip_no_space. rewrite Hs, all_chars_app, Hall; try reflexivity.
    intros c Hc. rewrite (digit_not_space c Hc). reflexivity. }
  assert (Hne : String.eqb (canonical_string y m d hh mm ss) "" = false)
    by (rewrite canonical_string_explicit; reflexivity).
  unfold _normalize_timestamp.
  cbn [py_eq as_number orb]. rewrite Hne, Hstrip, Hne.
  assert (Hrep : replace "Z" "+00:00" (canonical_string y m d hh mm ss)
                 = pre +:+ "+00:00").
  { rewrite Hs. unfold replace. rewrite replace_from_prefix; [reflexivity|].
    apply Hall; [|reflexivity..].
    intros c Hc. apply negb_true_iff, digit_neq; [exact Hc|reflexivity]. }
  rewrite Hrep, Hpre, !app_assoc_s.
  rewrite (fromisoformat_canonical y m d hh mm ss Hd Ht).
  cbn [bind astimezone_utc tzinfo Z.eqb except_ValueError].
  rewrite canonical_of_well_formed by reflexivity.
  reflexivity.
Qed.

(** C4.  The normaliser is idempotent: feeding it what it returned gives the
    same string again, at whatever time and in whatever time zone the second
    call is made, and where the first call raises there is nothing to feed;
    a string already in the canonical format (UTC, whole seconds, [Z]
    suffix) is returned unchanged. *)
Theorem normalize_idempotent :
  (forall (tz tz' : datetime -> result Z) (now now' : Z) (v : value),
      bind (_normalize_timestamp tz now v)
           (fun s => _normalize_timestamp tz' now' (VStr s))
      = _normalize_timestamp tz now v)
  /\ (forall (tz : datetime -> result Z) (now : Z) (s : string),
        canonical_timestamp s = true -> _normalize_timestamp tz now (VStr s) = Ok s).
Proof.
  split.
  - intros tz tz' now now' v.
    destruct (_normalize_timestamp tz now v) as [s|e] eqn:E; [|reflexivity].
    cbn [bind]. apply normalize_canonical_fixed.
    eapply normalize_returns_canonical, E.
  - intros tz now s. apply normalize_canonical_fixed.
Qed.

Lemma utc_from_us_out_of_range (us : Z) :
  ~ (EPOCH_MIN <= us / MICRO <= EPOCH_MAX) -> exists e, utc_from_us us = Raise e.
Proof.
  intros Hout. unfold utc_from_us.
  destruct (in_range TIME_T_MIN TIME_T_MAX (us / MICRO)); [|eauto].
  destruct (in_range GMTIME_MIN GMTIME_MAX (us / MICRO)); [|eauto].
  destruct (in_range EPOCH_MIN EPOCH_MAX (us / MICRO)) eqn:E; [|eauto].
  exfalso. apply Hout. unfold in_range in E.
  apply andb_true_iff in E as [E1 E2]. apply Z.leb_le in E1, E2. split; assumption.
Qed.

Lemma utc_from_us_in_range (us : Z) :
  EPOCH_MIN <= us / MICRO <= EPOCH_MAX -> exists dt, utc_from_us us = Ok dt.
Proof.
  intros Hin. unfold utc_from_us, in_range.
  unfold EPOCH_MIN, EPOCH_MAX, TIME_T_MIN, TIME_T_MAX, GMTIME_MIN, GMTIME_MAX in *.
  generalize dependent (us / MICRO). intros secs Hin.
  replace ((- 2 ^ 63 <=? secs) && (secs <=? 2 ^ 63 - 1)) with true
    by (symmetry; apply andb_true_iff; rewrite !Z.leb_le; lia).
  replace ((-67768040609740800 <=? secs) && (secs <=? 67768036191676799)) with true
    by (symmetry; apply andb_true_iff; rewrite !Z.leb_le; lia).
  replace ((-62135596800 <=? secs) && (secs <=? 253402300799)) with true
    by (symmetry; apply andb_true_iff; rewrite !Z.leb_le; lia).
  eexists. reflexivity.
Qed.


(** C3, at the input on which it fails.  An integer timestamp outside the
    years 1 to 9999, such as the epoch in milliseconds 1762190700000, makes
    [datetime.fromtimestamp] raise, and the branch for numbers has no
    handler: the normaliser raises.  The branch for strings catches the same
    error and falls back to the current time, so the same digits as a string
    are normalised. *)
Theorem normalize_raises_on_large_epoch :
  (forall (tz : datetime -> result Z) (now : Z),
      _normalize_timestamp tz now (VInt 1762190700000)
      = Raise (ValueError "year is out of range"))
  /\ (forall (tz : datetime -> result Z) (now : Z),
        _normalize_timestamp tz now (VStr "1762190700000") = _utc_now now)
  /\ (forall (tz : datetime -> result Z) (now n : Z),
        ~ (EPOCH_MIN <= n <= EPOCH_MAX) ->
        exists e, _normalize_timestamp tz now (VInt n) = Raise e).
Proof.
  split; [|split].
  - intros tz now. reflexivity.
  - intros tz now. reflexivity.
  - intros tz now n Hout. unfold _normalize_timestamp.
    cbn [py_eq as_number orb fromtimestamp].
    destruct (utc_from_us_out_of_range (n * MICRO)) as [e ->]; [|eauto].
    unfold MICRO. rewrite Z.div_mul by discriminate. exact Hout.
Qed.

End NormalizerFacts.

(** ** Sorting by timestamp *)

Section SortFacts.
Import Py LocalStorage Spec.

Context {A : Type} (key : A -> string).

Lemma leb_trans (s1 s2 s3 : string) :
  String.leb s1 s2 = true -> String.leb s2 s3 = true -> String.leb s1 s3 = true.
Proof.
  intros H1 H2. apply Is_true_true.
  apply Is_true_true in H1, H2.
  exact (transitivity (R := String.le) H1 H2).
Qed.

Lemma not_ltb_leb (s1 s2 : string) : String.ltb s1 s2 = false -> String.leb s2 s1 = true.
Proof.
  unfold String.ltb, String.leb. rewrite (String.compare_antisym s1 s2).
  destruct (String.compare s2 s1); cbn; congruence.
Qed.

Lemma ltb_leb (s1 s2 : string) : String.ltb s1 s2 = true -> String.leb s1 s2 = true.
Proof. unfold String.ltb, String.leb. destruct (String.compare s1 s2); congruence. Qed.

Lemma ltb_not_leb (s1 s2 : string) : String.ltb s1 s2 = true -> String.leb s2 s1 = false.
Proof.
  unfold String.ltb, String.leb. rewrite (String.compare_antisym s1 s2).
  destruct (String.compare s2 s1); cbn; congruence.
Qed.

Lemma insert_by_Permutation (x : A) (l : list A) : Permutation (insert_by key x l) (x :: l).
Proof.
  induction l as [|y l IH]; [reflexivity|]. cbn [insert_by].
  destruct (String.ltb (key y) (key x)); [|reflexivity].
  rewrite IH. apply perm_swap.
Qed.

Lemma sort_by_Permutation (l : list A) : Permutation (sort_by key l) l.
Proof.
  induction l as [|x l IH]; [reflexivity|]. unfold sort_by in *. cbn [foldr].
  rewrite insert_by_Permutation, IH. reflexivity.
Qed.

Lemma insert_by_sorted (x : A) (l : list A) :
  StronglySorted (le_key key) l -> StronglySorted (le_key key) (insert_by key x l).
Proof.
  induction 1 as [|y l Hsorted IH Hall]; [repeat constructor|].
  cbn [insert_by]. destruct (String.ltb (key y) (key x)) eqn:E.
  - constructor; [exact IH|].
    rewrite insert_by_Permutation. constructor; [apply ltb_leb, E|exact Hall].
  - apply not_ltb_leb in E. constructor; [constructor; assumption|].
    constructor; [exact E|].
    eapply Forall_impl; [exact Hall|]. intros z Hz. eapply leb_trans; eassumption.
Qed.

Lemma sort_by_sorted (l : list A) : StronglySorted (le_key key) (sort_by key l).
Proof.
  induction l as [|x l IH]; [constructor|]. unfold sort_by in *. cbn [foldr].
  apply insert_by_sorted, IH.
Qed.

(** In a sorted list an element with a strictly smaller key stands before
    one with a larger key. *)
Lemma sorted_earlier_first (l : list A) (i j : nat) (a b : A) :
  StronglySorted (le_key key) l ->
  l !! i = Some a -> l !! j = Some b ->
  String.ltb (key a) (key b) = true -> i < j.
Proof.
  intros Hsorted. revert i j. induction Hsorted as [|y l Hs IH Hall]; intros i j Ha Hb Hlt.
  - rewrite lookup_nil in Ha. discriminate.
  - destruct i as [|i], j as [|j]; cbn in Ha, Hb.
    + injection Ha as ->. injection Hb as ->.
      apply ltb_not_leb in Hlt.
      assert (Hrefl : String.leb (key b) (key b) = true)
        by (apply Is_true_true; exact (reflexivity (R := String.le) _)).
      congruence.
    + lia.
    + injection Hb as ->. apply list_elem_of_lookup_2 in Ha.
      rewrite Forall_forall in Hall. specialize (Hall a Ha).
      apply ltb_not_leb in Hlt. unfold le_key in Hall. congruence.
    + specialize (IH i j Ha Hb Hlt). lia.
Qed.

End SortFacts.

(** ** Reading a conversation *)

Section Conversation.
Import Py LocalStorage Spec.

Lemma getitem_Ok (d : gmap string value) (k : string) (v : value) :
  getitem d k = Ok v -> d !! k = Some v.
Proof. unfold getitem. destruct (d !! k); [intros [= ->]; reflexivity|discriminate]. Qed.

Lemma truthy_number (v : value) (q : Q) :
  as_number v = Some q -> truthy v = negb (Qeq_bool q 0).
Proof.
  destruct v as [|b|n|x|t]; cbn [as_number truthy]; intros [= <-]; try reflexivity.
  - destruct b; reflexivity.
  - unfold Qeq_bool, inject_Z. cbn. rewrite Z.mul_1_r. reflexivity.
Qed.

Lemma py_eq_truthy (a b : value) : py_eq a b = true -> truthy a = truthy b.
Proof.
  intros H.
  destruct (as_number a) as [x|] eqn:Ea, (as_number b) as [y|] eqn:Eb.
  - assert (Hxy : Qeq_bool x y = true).
    { destruct a, b; cbn [py_eq as_number] in *; try discriminate;
        rewrite ?Ea, ?Eb in H; injection Ea as <-; injection Eb as <-; exact H. }
    rewrite (truthy_number _ _ Ea), (truthy_number _ _ Eb). f_equal.
    apply Qeq_bool_iff in Hxy.
    destruct (Qeq_bool x 0) eqn:Ex, (Qeq_bool y 0) eqn:Ey; try reflexivity.
    + apply Qeq_bool_iff in Ex. apply Qeq_bool_neq in Ey. exfalso. apply Ey.
      rewrite <- Hxy. exact Ex.
    + apply Qeq_bool_iff in Ey. apply Qeq_bool_neq in Ex. exfalso. apply Ex.
      rewrite Hxy. exact Ey.
  - destruct a, b; cbn [py_eq as_number] in *; discriminate.
  - destruct a, b; cbn [py_eq as_number] in *; discriminate.
  - destruct a, b; cbn [py_eq as_number] in *; try discriminate; try reflexivity.
    apply String.eqb_eq in H. subst. reflexivity.
Qed.

Lemma content_kept (c m : value) :
  py_eq c (py_or (py_or c m) (VStr "")) = true -> c = py_or (py_or c m) (VStr "").
Proof.
  intros H. destruct (truthy c) eqn:Tc.
  - unfold py_or. rewrite !Tc. reflexivity.
  - rewrite (py_or_falsy c m Tc) in *.
    destruct (truthy m) eqn:Tm.
    + apply py_eq_truthy in H. unfold py_or in H. rewrite Tm in H. congruence.
    + rewrite (py_or_falsy m _ Tm) in *. apply py_eq_VStr in H. exact H.
Qed.

Lemma heal_message_shaped w i r r' shaped u :
  heal_message w i r = Ok (r', shaped, u) ->
  shaped_from (local_utcoffset w) r shaped.
Proof.
  unfold heal_message. intros H.
  match type of H with
  | context [match ?x with (a, b) => _ end] => destruct x as [e1 u1] eqn:E1
  end.
  match type of H with
  | context [match ?x with (a, b) => _ end] => destruct x as [e2 u2] eqn:E2
  end.
  destruct (_normalize_timestamp _ _ _) as [ts|] eqn:Ets; [|discriminate].
  cbn [bind] in H.
  match type of H with
  | context [match ?x with (a, b) => _ end] => destruct x as [e3 u3] eqn:E3
  end.
  apply bind_Ok in H as (v_id & G_id & H). apply bind_Ok in H as (v_type & G_type & H).
  apply bind_Ok in H as (v_user & G_user & H). apply bind_Ok in H as (v_doc & G_doc & H).
  apply bind_Ok in H as (v_role & G_role & H).
  apply bind_Ok in H as (v_content & G_content & H).
  apply bind_Ok in H as (v_ts & G_ts & H).
  apply getitem_Ok in G_user, G_doc, G_role, G_content, G_ts.
  injection H as _ <- _.
  destruct (setdefault_frame e3 "type" (VStr "message")) as [P4 _].
  rewrite P4 in G_user, G_doc, G_role, G_content, G_ts by discriminate.
  assert (P1 : forall k, k <> "id" -> e1 !! k = r !! k).
  { destruct (r !! "id") as [v|] eqn:E;
      [destruct (negb (truthy v)) eqn:T|]; rewrite ?E, ?T in E1; injection E1 as <- _;
      intros k Hk; rewrite ?lookup_insert_ne by congruence; reflexivity. }
  assert (G1 : forall k, k <> "id" -> get e1 k = get r k)
    by (intros k Hk; unfold get; rewrite P1 by exact Hk; reflexivity).
  rewrite !G1 in E2 by discriminate.
  assert (Q2 : forall k, k <> "content" -> k <> "id" -> e2 !! k = r !! k).
  { destruct (negb (py_eq _ _)) eqn:T in E2; injection E2 as <- _; intros k Hk Hk';
      rewrite ?lookup_insert_ne by congruence; apply P1, Hk'. }
  assert (Q3 : forall k, k <> "timestamp" -> e3 !! k = e2 !! k).
  { destruct (negb (py_eq _ _)) eqn:T in E3; injection E3 as <- _; intros k Hk;
      rewrite ?lookup_insert_ne by congruence; reflexivity. }
  rewrite Q3 in G_user, G_doc, G_role, G_content by discriminate.
  rewrite Q2 in G_user, G_doc, G_role by discriminate.
  unfold shaped_from. repeat apply conj.
  - rewrite G_user. reflexivity.
  - rewrite G_doc. reflexivity.
  - rewrite G_role. reflexivity.
  - transitivity (Some v_content); [reflexivity|]. f_equal.
    destruct (negb (py_eq _ _)) eqn:T in E2; injection E2 as <- _.
    + rewrite lookup_insert_eq in G_content. injection G_content as <-. reflexivity.
    + apply negb_false_iff, content_kept in T. rewrite <- T.
      unfold get. rewrite <- (P1 "content") by discriminate. rewrite G_content.
      reflexivity.
  - exists (clock w i), ts. split.
    + unfold get in *. rewrite <- (Q2 "timestamp") by discriminate. exact Ets.
    + transitivity (Some v_ts); [reflexivity|]. rewrite <- G_ts.
      destruct (negb (py_eq _ _)) eqn:T in E3; injection E3 as <- _.
      * rewrite lookup_insert_eq. reflexivity.
      * apply negb_false_iff, py_eq_get in T. exact T.
Qed.

Lemma history_loop_shaped w user_id doc_id i entries entries' normalized u :
  history_loop w user_id doc_id i entries = Ok (entries', normalized, u) ->
  Forall2 (shaped_from (local_utcoffset w))
          (List.filter (in_conversationb user_id doc_id) entries) normalized.
Proof.
  revert i entries' normalized u.
  induction entries as [|r rest IH]; intros i entries' normalized u H.
  - injection H as _ <- _. constructor.
  - cbn [history_loop List.filter] in *. unfold in_conversationb at 1.
    destruct (py_eq (get r "user_id") (VStr user_id)),
             (py_eq (get r "doc_id") (VStr doc_id)); cbn [negb orb andb] in *.
    + apply bind_Ok in H as ([[r' sh] u0] & Hheal & H).
      apply bind_Ok in H as ([[rest' n'] u'] & Hrest & H). injection H as _ <- _.
      constructor; [eapply heal_message_shaped, Hheal|eapply IH, Hrest].
    + apply bind_Ok in H as ([[rest' n'] u'] & Hrest & H). injection H as _ <- _.
      eapply IH, Hrest.
    + apply bind_Ok in H as ([[rest' n'] u'] & Hrest & H). injection H as _ <- _.
      eapply IH, Hrest.
    + apply bind_Ok in H as ([[rest' n'] u'] & Hrest & H). injection H as _ <- _.
      eapply IH, Hrest.
Qed.

Lemma getitem_Some (d : gmap string value) (k : string) (v : value) :
  d !! k = Some v -> getitem d k = Ok v.
Proof. unfold getitem. intros ->. reflexivity. Qed.

(** The body of the loop returns for a message of the conversation that has
    a role and a timestamp the normaliser accepts. *)
Lemma heal_message_returns w i user_id doc_id r ts :
  in_conversation user_id doc_id r ->
  is_Some (r !! "role") ->
  _normalize_timestamp (local_utcoffset w) (clock w i) (get r "timestamp") = Ok ts ->
  exists out, heal_message w i r = Ok out.
Proof.
  intros [Huser Hdoc] [role Hrole] Hts. unfold heal_message.
  destruct (match r !! "id" with
            | Some v =>
                if negb (truthy v)
                then (<["id" := VStr (uuid4 w i)]> r, true) else (r, false)
            | None => (<["id" := VStr (uuid4 w i)]> r, true)
            end) as [e1 u1] eqn:E1.
  assert (P1 : (forall k, k <> "id" -> e1 !! k = r !! k) /\ is_Some (e1 !! "id")).
  { destruct (r !! "id") as [v|] eqn:E;
      [destruct (negb (truthy v)) eqn:T|]; injection E1 as <- _;
      (split; [intros k Hk; rewrite ?lookup_insert_ne by congruence; reflexivity|]);
      rewrite ?lookup_insert_eq, ?E; eauto. }
  destruct P1 as [P1 [v_id I1]].
  assert (G1 : forall k, k <> "id" -> get e1 k = get r k)
    by (intros k Hk; unfold get; rewrite P1 by exact Hk; reflexivity).
  rewrite !G1 by discriminate.
  set (content := py_or (py_or (get r "content") (get r "message")) (VStr "")).
  destruct (if negb (py_eq (get r "content") content)
            then (<["content" := content]> e1, true) else (e1, false))
    as [e2 u2] eqn:E2.
  assert (P2 : (forall k, k <> "content" -> e2 !! k = e1 !! k)
               /\ e2 !! "content" = Some content).
  { destruct (negb (py_eq (get r "content") content)) eqn:T; injection E2 as <- _.
    - split; [intros k Hk; apply lookup_insert_ne; congruence|apply lookup_insert_eq].
    - split; [reflexivity|]. apply negb_false_iff, content_kept in T.
      rewrite P1 by discriminate. subst content. unfold get in T |- *.
      destruct (r !! "content") as [c|] eqn:Ec; cbn [default from_option id] in T |- *.
      + f_equal. exact T.
      + exfalso. unfold py_or in T. cbn [truthy] in T.
        destruct (truthy (default VNone (r !! "message"))) eqn:Tm.
        * rewrite <- T in Tm. discriminate.
        * discriminate. }
  destruct P2 as [P2 I2].
  assert (G2 : get e2 "timestamp" = get r "timestamp")
    by (unfold get; rewrite P2, P1 by discriminate; reflexivity).
  rewrite G2, Hts. cbn [bind].
  destruct (if negb (py_eq (get r "timestamp") (VStr ts))
            then (<["timestamp" := VStr ts]> e2, true) else (e2, false))
    as [e3 u3] eqn:E3.
  assert (P3 : (forall k, k <> "timestamp" -> e3 !! k = e2 !! k)
               /\ e3 !! "timestamp" = Some (VStr ts)).
  { destruct (negb (py_eq (get r "timestamp") (VStr ts))) eqn:T; injection E3 as <- _.
    - split; [intros k Hk; apply lookup_insert_ne; congruence|apply lookup_insert_eq].
    - split; [reflexivity|]. apply negb_false_iff, py_eq_get in T.
      rewrite P2, P1 by discriminate. exact T. }
  destruct P3 as [P3 I3].
  destruct (setdefault_frame e3 "type" (VStr "message")) as [P4 _].
  assert (I4 : is_Some (setdefault e3 "type" (VStr "message") !! "type")).
  { unfold setdefault. destruct (e3 !! "type") eqn:E; [rewrite E; eauto|].
    rewrite lookup_insert_eq. eauto. }
  destruct I4 as [v_type I4].
  rewrite (getitem_Some _ "id" v_id)
    by (rewrite P4, P3, P2 by discriminate; exact I1).
  rewrite (getitem_Some _ "type" v_type) by exact I4.
  rewrite (getitem_Some _ "user_id" (VStr user_id))
    by (rewrite P4, P3, P2, P1 by discriminate; exact Huser).
  rewrite (getitem_Some _ "doc_id" (VStr doc_id))
    by (rewrite P4, P3, P2, P1 by discriminate; exact Hdoc).
  rewrite (getitem_Some _ "role" role)
    by (rewrite P4, P3, P2, P1 by discriminate; exact Hrole).
  rewrite (getitem_Some _ "content" content)
    by (rewrite P4, P3 by discriminate; exact I2).
  rewrite (getitem_Some _ "timestamp" (VStr ts))
    by (rewrite P4 by discriminate; exact I3).
  cbn [bind]. eexists. reflexivity.
Qed.

Lemma history_loop_returns w user_id doc_id base entries :
  (forall i r, entries !! i = Some r -> in_conversation user_id doc_id r ->
     is_Some (r !! "role")
     /\ exists ts, _normalize_timestamp (local_utcoffset w) (clock w (base + i))
                     (get r "timestamp") = Ok ts) ->
  exists out, history_loop w user_id doc_id base entries = Ok out.
Proof.
  revert base. induction entries as [|r rest IH]; intros base Hok; [eexists; reflexivity|].
  destruct (IH (S base)) as [[[rest' normalized] updated] Hrest].
  { intros i r' Hi Hconv. specialize (Hok (S i) r' Hi Hconv).
    replace (S base + i) with (base + S i) by lia. exact Hok. }
  cbn [history_loop]. rewrite Hrest. cbn [bind].
  destruct (negb (py_eq (get r "user_id") (VStr user_id))
            || negb (py_eq (get r "doc_id") (VStr doc_id))) eqn:Ef;
    [eexists; reflexivity|].
  apply in_conversationb_spec in Ef.
  destruct (Hok 0 r eq_refl Ef) as [Hrole [ts Hts]].
  rewrite Nat.add_0_r in Hts.
  destruct (heal_message_returns w base user_id doc_id r ts Ef Hrole Hts)
    as [[[r' shaped] u] ->].
  cbn [bind]. eexists. reflexivity.
Qed.

(** X2. When every stored message of the conversation has a role and a
    timestamp that the normaliser accepts, [get_history] returns; what it
    returns is a rearrangement of the shaped copies of exactly the stored
    messages whose user and document both match, ascending in the normal form
    of their timestamps, so that a message stands before every message whose
    normal form is strictly greater, whatever the order in which they were
    saved. *)
Lemma conversation_sorted_by_timestamp w user_id doc_id d :
  doc_id <> "" ->
  (forall i r, messages d !! i = Some r -> in_conversation user_id doc_id r ->
     is_Some (r !! "role")
     /\ exists ts, _normalize_timestamp (local_utcoffset w) (clock w i)
                     (get r "timestamp") = Ok ts) ->
  exists returned d' normalized,
    get_history w user_id (Some doc_id) d = Ok (returned, d')
    /\ Forall2 (shaped_from (local_utcoffset w))
               (List.filter (in_conversationb user_id doc_id) (messages d)) normalized
    /\ Permutation returned normalized
    /\ StronglySorted (le_key timestamp_key) returned
    /\ (forall i j a b,
          returned !! i = Some a -> returned !! j = Some b ->
          String.ltb (timestamp_key a) (timestamp_key b) = true -> i < j).
Proof.
  intros Hdoc Hok.
  destruct (history_loop_returns w user_id doc_id 0 (messages d) Hok)
    as [[[msgs' normalized] updated] Hloop].
  unfold get_history, truthy_doc_id.
  destruct (String.eqb_spec doc_id "") as [E|_]; [contradiction|].
  rewrite Hloop. cbn [bind].
  eexists _, _, normalized. split; [reflexivity|].
  split; [eapply history_loop_shaped, Hloop|].
  split; [apply sort_by_Permutation|].
  split; [apply sort_by_sorted|].
  intros i j a b. apply sorted_earlier_first, sort_by_sorted.
Qed.

(** The scenario of the specification: "hi" saved first with the later
    timestamp, "yo" saved second with the earlier one; the assistant's
    message is returned first. *)
Example conversation_scenario :
  match get_history Scenario.world0 "u1" (Some "d1") Scenario.two_messages with
  | Ok (returned, _) => map (fun entry => get entry "role") returned
  | Raise _ => []
  end = [VStr "assistant"; VStr "user"].
Proof. vm_compute. reflexivity. Qed.

(** C2, at the input on which it fails.  One stored message of the
    conversation carries its timestamp as the number 1762190700000 (an epoch
    in milliseconds): the normaliser raises on it, and so [get_history]
    raises instead of returning the messages of the conversation. *)
Theorem history_raises_on_large_epoch :
  get_history Scenario.world0 "u1" (Some "d1") Scenario.millis_store
  = Raise (ValueError "year is out of range").
Proof. vm_compute. reflexivity. Qed.

End Conversation.

(** ** White space *)

Section StripFacts.
Import Py.

Lemma rstrip_cons (c : ascii) (s : string) :
  is_space c = false -> rstrip (String c s) = String c (rstrip s).
Proof. intros H. cbn [rstrip]. rewrite H. destruct (rstrip s); reflexivity. Qed.

Lemma rstrip_idempotent (s : string) : rstrip (rstrip s) = rstrip s.
Proof.
  induction s as [|c s IH]; [reflexivity|].
  cbn [rstrip]. destruct (rstrip s) as [|d r] eqn:E.
  - destruct (is_space c) eqn:Ec; [reflexivity|].
    cbn [rstrip]. rewrite Ec. reflexivity.
  - cbn [rstrip] in IH |- *. cbn [rstrip]. rewrite IH. reflexivity.
Qed.

Lemma lstrip_head (s : string) :
  lstrip s = "" \/ exists c t, lstrip s = String c t /\ is_space c = false.
Proof.
  induction s as [|c s IH]; [left; reflexivity|].
  cbn [lstrip]. destruct (is_space c) eqn:Ec; [exact IH|].
  right. exists c, s. split; [reflexivity|exact Ec].
Qed.

Lemma strip_idempotent (s : string) : strip (strip s) = strip s.
Proof.
  unfold strip. destruct (lstrip_head s) as [->|(c & t & -> & Hc)]; [reflexivity|].
  rewrite (rstrip_cons c t Hc). cbn [lstrip]. rewrite Hc.
  rewrite (rstrip_cons c _ Hc), rstrip_idempotent. reflexivity.
Qed.




End StripFacts.

(** ** The generation client: attempts, waits and errors *)

Section GeminiAttempts.
Import Py Gemini GeminiSpec.

Lemma rate_limit_sent svc st : sent (rate_limit svc st) = sent st.
Proof.
  unfold rate_limit.
  destruct (Qlt_le_dec (now st - _last_request_time st) _min_request_interval); reflexivity.
Qed.

Lemma rate_limit_idle svc st :
  (_min_request_interval <= now st - _last_request_time st)%Q ->
  slept (rate_limit svc st) = slept st.
Proof.
  intros H. unfold rate_limit.
  destruct (Qlt_le_dec (now st - _last_request_time st) _min_request_interval) as [Hlt|_];
    [|reflexivity].
  exfalso. apply (Qlt_not_le _ _ Hlt H).
Qed.

(** The loop, attempt by attempt: [j] attempts fail, then either a response
    comes or the third failure ends the call. *)
Lemma retry_loop_cases svc prompt st0 :
  let k := length (sent st0) in
  let out := retry_loop svc prompt (seq 0 max_retries) st0 in
  exists j : nat,
    (forall i, (i < j)%nat -> exists error_msg,
        generate_content svc (k + i) prompt = Failure error_msg)
    /\ sent (snd out) = sent st0 ++ repeat prompt (Nat.min (S j) 3)
    /\ slept (snd out) = slept st0 ++ map backoff (seq 0 (Nat.min j 2))
    /\ ((j < 3)%nat
        /\ (exists text, generate_content svc (k + j) prompt = Response text
                         /\ fst out = Ok (strip (default "" text)))
        \/ j = 3%nat
           /\ exists error_msg, generate_content svc (k + 2) prompt = Failure error_msg
                                /\ fst out = Raise (final_error error_msg)).
Proof.
  intros k out. subst out. unfold final_error.
  cbn [seq max_retries retry_loop invoke].
  destruct (generate_content svc (length (sent st0)) prompt) as [t0|m0] eqn:E0.
  { exists 0%nat. rewrite Nat.add_0_r. cbn [fst snd sent slept Nat.min repeat seq map].
    rewrite app_nil_r. split; [intros i Hi; lia|]. split; [reflexivity|].
    split; [reflexivity|]. left. split; [lia|]. exists t0. split; [exact E0|reflexivity]. }
  set (st1 := sleep svc (backoff 0)
                (mk_state (now st0 + latency svc (length (sent st0)))
                   (_last_request_time st0) (slept st0) (sent st0 ++ [prompt]))).
  assert (Hs0 : forall b : bool,
            (if b then retry_loop svc prompt [1%nat; 2%nat] st1
             else retry_loop svc prompt [1%nat; 2%nat] st1)
            = retry_loop svc prompt [1%nat; 2%nat] st1)
    by (intros []; reflexivity).
  cbn [Nat.ltb Nat.leb Nat.sub max_retries]. rewrite Hs0. clear Hs0. subst st1.
  cbn [retry_loop invoke sleep sent slept now _last_request_time max_retries].
  rewrite length_app. cbn [length].
  destruct (generate_content svc (length (sent st0) + 1) prompt) as [t1|m1] eqn:E1.
  { exists 1%nat. cbn [fst snd sent slept Nat.min repeat seq map].
    rewrite <- app_assoc. cbn [app].
    split; [intros i Hi; assert (i = 0)%nat as -> by lia; rewrite Nat.add_0_r; eauto|].
    split; [reflexivity|]. split; [reflexivity|].
    left. split; [lia|]. exists t1. split; [exact E1|reflexivity]. }
  cbn [Nat.ltb Nat.leb Nat.sub max_retries].
  match goal with
  | |- context [if is_quota_error m1 then ?a else ?b] =>
      replace (if is_quota_error m1 then a else b) with a
        by (destruct (is_quota_error m1); reflexivity)
  end.
  cbn [retry_loop invoke sleep sent slept now _last_request_time max_retries].
  rewrite !length_app. cbn [length].
  replace (length (sent st0) + 1 + 1)%nat with (length (sent st0) + 2)%nat by lia.
  destruct (generate_content svc (length (sent st0) + 2) prompt) as [t2|m2] eqn:E2.
  { exists 2%nat. cbn [fst snd sent slept Nat.min repeat seq map].
    rewrite <- !app_assoc. cbn [app].
    split.
    { intros i Hi. destruct i as [|[|i]]; [rewrite Nat.add_0_r; eauto|eauto|lia]. }
    split; [reflexivity|]. split; [reflexivity|].
    left. split; [lia|]. exists t2. split; [exact E2|reflexivity]. }
  exists 3%nat. cbn [Nat.ltb Nat.leb Nat.sub max_retries].
  split.
  { intros i Hi. destruct i as [|[|[|i]]]; [rewrite Nat.add_0_r; eauto|eauto|eauto|lia]. }
  destruct (is_quota_error m2) eqn:Eq; cbn [fst snd sent slept Nat.min repeat seq map];
    rewrite <- !app_assoc; cbn [app];
    (split; [reflexivity|]); (split; [reflexivity|]);
    right; (split; [reflexivity|]); exists m2; rewrite Eq; (split; [exact E2|reflexivity]).
Qed.

Lemma get_gemini_response_asked svc document_text question st :
  strip question <> "" ->
  get_gemini_response svc document_text question st
  = retry_loop svc (build_prompt document_text question) (seq 0 max_retries)
      (rate_limit svc st).
Proof.
  intros Hq. unfold get_gemini_response.
  destruct (String.eqb_spec (strip question) "") as [E|_]; [contradiction|reflexivity].
Qed.



(** X4. A call that raises with a non-blank question has made its three
    attempts and seen each of them fail: it never gives up early, and the
    error it raises is the one the third failure decides, never the "after all
    retries" error that follows the loop in the source. *)
Theorem failure_after_three_attempts
    (svc : service) (document_text question : string) (st : state) (e : exn) :
  strip question <> "" ->
  fst (get_gemini_response svc document_text question st) = Raise e ->
  let prompt := build_prompt document_text question in
  (forall i, (i < 3)%nat -> exists error_msg,
      generate_content svc (length (sent st) + i) prompt = Failure error_msg)
  /\ (exists last_msg,
        generate_content svc (length (sent st) + 2) prompt = Failure last_msg
        /\ e = final_error last_msg)
  /\ sent (snd (get_gemini_response svc document_text question st))
     = sent st ++ [prompt; prompt; prompt]
  /\ e <> RuntimeError "Failed to get response from AI service after all retries".
Proof.
  intros Hq Hraise prompt.
  rewrite (get_gemini_response_asked _ _ _ _ Hq) in *. fold prompt in Hraise |- *.
  destruct (retry_loop_cases svc prompt (rate_limit svc st))
    as (j & Hj & Hsent & Hslept & [(Hlt & text & Hresp & Hout)|(-> & msg & Hmsg & Hout)]);
    rewrite rate_limit_sent in *.
  - rewrite Hout in Hraise. discriminate.
  - rewrite Hout in Hraise. injection Hraise as <-.
    split; [exact Hj|]. split; [exists msg; split; [exact Hmsg|reflexivity]|].
    split; [exact Hsent|].
    unfold final_error. destruct (is_quota_error msg).
    + unfold QUOTA_MESSAGE. cbv [String.append]. discriminate.
    + unfold GENERIC_PREFIX. cbv [String.append]. discriminate.
Qed.

Lemma failure_after_three_attempts_witness :
  sent (snd (get_gemini_response Scenario.throttled "some text" "why?" Scenario.idle))
  = [build_prompt "some text" "why?"; build_prompt "some text" "why?";
     build_prompt "some text" "why?"].
Proof.
  assert (Hq : strip "why?" <> "") by (vm_compute; discriminate).
  exact (proj1 (proj2 (proj2
    (failure_after_three_attempts Scenario.throttled "some text" "why?" Scenario.idle
       (RuntimeError QUOTA_MESSAGE) Hq eq_refl)))).
Defined.

(** X5. The first response ends the call. When the first [j] attempts fail,
    [j] being 0, 1 or 2, and the next one is answered, the call returns the
    text of that answer with the white space at its ends removed (the empty
    string when the response carries no text), after [j + 1] requests with the
    same prompt and the backoff sleeps 3 * 2^i for i < j; a call made at least
    two seconds after the previous one sleeps for nothing else. *)
Theorem answer_after_failures
    (svc : service) (document_text question : string) (st : state)
    (j : nat) (text : option string) :
  strip question <> "" ->
  (j < 3)%nat ->
  let prompt := build_prompt document_text question in
  (forall i, (i < j)%nat -> exists error_msg,
      generate_content svc (length (sent st) + i) prompt = Failure error_msg) ->
  generate_content svc (length (sent st) + j) prompt = Response text ->
  let out := get_gemini_response svc document_text question st in
  fst out = Ok (strip (default "" text))
  /\ sent (snd out) = sent st ++ repeat prompt (S j)
  /\ slept (snd out) = slept (rate_limit svc st) ++ map backoff (seq 0 j)
  /\ ((_min_request_interval <= now st - _last_request_time st)%Q ->
      slept (snd out) = slept st ++ map backoff (seq 0 j)).
Proof.
  intros Hq Hlt prompt Hfail Hresp out. subst out.
  rewrite (get_gemini_response_asked _ _ _ _ Hq). fold prompt.
  destruct (retry_loop_cases svc prompt (rate_limit svc st))
    as (j' & Hj & Hsent & Hslept & Hcase); rewrite rate_limit_sent in *.
  assert (j' = j) as ->.
  { destruct Hcase as [(Hlt' & text' & Hresp' & _)|(-> & msg & Hmsg & _)].
    - destruct (Nat.lt_trichotomy j' j) as [H|[H|H]]; [|exact H|].
      + destruct (Hfail j' H) as [m Hm]. congruence.
      + destruct (Hj j H) as [m Hm]. congruence.
    - destruct (Hj j Hlt) as [m Hm]. congruence. }
  destruct Hcase as [(_ & text' & Hresp' & Hout)|(-> & _)]; [|lia].
  assert (text' = text) as -> by congruence.
  replace (Nat.min (S j) 3) with (S j) in Hsent by lia.
  replace (Nat.min j 2) with j in Hslept by lia.
  split; [exact Hout|]. split; [exact Hsent|]. split; [exact Hslept|].
  intros Hidle. rewrite Hslept, (rate_limit_idle _ _ Hidle). reflexivity.
Qed.

Lemma answer_after_failures_witness :
  get_gemini_response GeminiScenario.flaky "some text" "why?" Scenario.idle
  = (Ok "It is on page 2.",
     snd (get_gemini_response GeminiScenario.flaky "some text" "why?" Scenario.idle))
  /\ slept (snd (get_gemini_response GeminiScenario.flaky "some text" "why?" Scenario.idle))
     = [3%Q].
Proof.
  assert (Hq : strip "why?" <> "") by (vm_compute; discriminate).
  assert (Hlt : (1 < 3)%nat) by lia.
  assert (Hfail : forall i, (i < 1)%nat -> exists error_msg,
             generate_content GeminiScenario.flaky (length (sent Scenario.idle) + i)
               (build_prompt "some text" "why?") = Failure error_msg).
  { intros i Hi. exists "500 INTERNAL". destruct i; [reflexivity|lia]. }
  destruct (answer_after_failures GeminiScenario.flaky "some text" "why?" Scenario.idle 1
              (Some "  It is on page 2. ") Hq Hlt Hfail eq_refl)
    as (Hr & _ & _ & Hs).
  split.
  - rewrite (surjective_pairing (get_gemini_response _ _ _ _)). rewrite Hr. reflexivity.
  - apply Hs. vm_compute. discriminate.
Defined.




Lemma rate_limit_slept svc st :
  slept (rate_limit svc st) = slept st
  \/ (now st - _last_request_time st < _min_request_interval)%Q
     /\ slept (rate_limit svc st)
        = slept st ++ [(_min_request_interval - (now st - _last_request_time st))%Q].
Proof.
  unfold rate_limit.
  destruct (Qlt_le_dec (now st - _last_request_time st) _min_request_interval) as [Hlt|Hle];
    [right; split; [exact Hlt|reflexivity]|left; reflexivity].
Qed.


(** X8. While the clock has not gone back behind the time of the last request,
    a call sleeps for at most 11 seconds in all: at most 2 for the throttle,
    and 3 and 6 between the attempts. *)
Theorem total_wait_bounded
    (svc : service) (document_text question : string) (st : state) :
  (_last_request_time st <= now st)%Q ->
  exists later : list Q,
    slept (snd (get_gemini_response svc document_text question st)) = slept st ++ later
    /\ (total later <= 11)%Q.
Proof.
  intros Hclock.
  destruct (String.eqb_spec (strip question) "") as [E|Hq].
  - exists []. unfold get_gemini_response. rewrite E. cbn [String.eqb snd].
    rewrite app_nil_r. split; [reflexivity|]. cbn. lra.
  - rewrite (get_gemini_response_asked _ _ _ _ Hq).
    destruct (retry_loop_cases svc (build_prompt document_text question) (rate_limit svc st))
      as (j & _ & _ & Hslept & Hcase).
    assert (Hj : (j <= 3)%nat) by (destruct Hcase as [[H _]|[-> _]]; lia).
    assert (Hback : (total (map backoff (seq 0 (Nat.min j 2))) <= 9)%Q).
    { assert (Hmin : Nat.min j 2 = 0%nat \/ Nat.min j 2 = 1%nat \/ Nat.min j 2 = 2%nat) by lia.
      destruct Hmin as [->|[->| ->]]; cbn [seq map total fold_right].
      - lra.
      - change (backoff 0) with 3%Q. lra.
      - change (backoff 0) with 3%Q. change (backoff 1) with 6%Q. lra. }
    destruct (rate_limit_slept svc st) as [Hr|[_ Hr]]; rewrite Hr in Hslept.
    + eexists. split; [exact Hslept|]. lra.
    + eexists. split; [rewrite Hslept, <- app_assoc; reflexivity|].
      cbn [app total fold_right]. fold (total (map backoff (seq 0 (Nat.min j 2)))).
      unfold _min_request_interval. lra.
Qed.

Lemma total_wait_bounded_witness :
  exists later : list Q,
    slept (snd (get_gemini_response Scenario.throttled "some text" "why?" Scenario.idle))
    = slept Scenario.idle ++ later
    /\ (total later <= 11)%Q.
Proof.
  apply (total_wait_bounded Scenario.throttled "some text" "why?" Scenario.idle).
  vm_compute. discriminate.
Defined.




End GeminiAttempts.

(** A closed equation between a computation and its value, by evaluation. *)
Ltac by_evaluation :=
  lazymatch goal with
  | |- ?l = ?r => exact (@eq_refl _ r <: l = r)
  end.

(** ** Saving and finding documents *)

Section DocumentStore.
Import Py Datetime LocalStorage Spec StoreSpec.
Local Open Scope Z_scope.

Lemma find_document_text_app (user_id doc_id : string) (l1 l2 : list (gmap string value)) :
  find_document_text user_id doc_id (l1 ++ l2)
  = match find_document_text user_id doc_id l1 with
    | Raise (ValueError _) => find_document_text user_id doc_id l2
    | r => r
    end.
Proof.
  induction l1 as [|doc rest IH]; [reflexivity|].
  cbn [app find_document_text]. unfold getitem.
  destruct (doc !! "user_id") as [u|]; [|reflexivity]. cbn [bind].
  destruct (py_eq u (VStr user_id)); [|exact IH].
  destruct (doc !! "id") as [i|]; [|reflexivity]. cbn [bind].
  destruct (py_eq i (VStr doc_id)); [|exact IH].
  destruct (doc !! "document_text"); reflexivity.
Qed.

Lemma find_document_text_not_found (user_id doc_id : string)
    (docs : list (gmap string value)) (msg : string) :
  find_document_text user_id doc_id docs = Raise (ValueError msg) ->
  msg = "Document not found.".
Proof.
  induction docs as [|doc rest IH]; [intros [= <-]; reflexivity|].
  cbn [find_document_text]. unfold getitem.
  destruct (doc !! "user_id") as [u|]; [|discriminate]. cbn [bind].
  destruct (py_eq u (VStr user_id)); [|exact IH].
  destruct (doc !! "id") as [i|]; [|discriminate]. cbn [bind].
  destruct (py_eq i (VStr doc_id)); [|exact IH].
  destruct (doc !! "document_text"); discriminate.
Qed.

Lemma find_document_text_entry
    (u i doc_id user_id file_name blob_name blob_url document_text created_at : string) :
  find_document_text u i
    [document_entry doc_id user_id file_name blob_name blob_url document_text created_at]
  = if String.eqb user_id u && String.eqb doc_id i then Ok (VStr document_text)
    else Raise (ValueError "Document not found.").
Proof.
  cbn [find_document_text]. unfold getitem, document_entry.
  rewrite lookup_insert_ne, lookup_insert_eq by discriminate. cbn [bind py_eq].
  destruct (String.eqb user_id u); [|reflexivity].
  rewrite lookup_insert_eq. cbn [bind py_eq andb].
  destruct (String.eqb doc_id i); [|reflexivity].
  do 5 rewrite lookup_insert_ne by discriminate. rewrite lookup_insert_eq. reflexivity.
Qed.

Lemma save_document_Ok (now : Z)
    (doc_id user_id file_name blob_name blob_url document_text : string) (d d' : db) :
  save_document now doc_id user_id file_name blob_name blob_url document_text d = Ok d' ->
  exists created_at,
    _utc_now now = Ok created_at
    /\ d' = mk_db (documents d ++
                   [document_entry doc_id user_id file_name blob_name blob_url
                      document_text created_at])
                  (messages d).
Proof.
  unfold save_document. intros H. apply bind_Ok in H as (ts & Hts & H).
  injection H as <-. exists ts. split; [exact Hts|reflexivity].
Qed.

Lemma utc_now_returns (now : Z) :
  EPOCH_MIN <= now / MICRO <= EPOCH_MAX ->
  exists s, _utc_now now = Ok s /\ canonical_timestamp s = true.
Proof.
  intros H. unfold _utc_now. destruct (utc_from_us_in_range now H) as [dt Hdt].
  rewrite Hdt. cbn [bind]. eexists. split; [reflexivity|].
  apply utc_from_us_Ok in Hdt as [Hwf Htz]. apply canonical_is_canonical; assumption.
Qed.

Lemma local_save_then_get_document_text (now : Z)
    (doc_id user_id file_name blob_name blob_url document_text : string) (d : db) :
  EPOCH_MIN <= now / MICRO <= EPOCH_MAX ->
  get_document_text user_id doc_id d = Raise (ValueError "Document not found.") ->
  exists d' record,
    save_document now doc_id user_id file_name blob_name blob_url document_text d = Ok d'
    /\ documents d' = documents d ++ [record]
    /\ messages d' = messages d
    /\ get_document_text user_id doc_id d' = Ok (VStr document_text).
Proof.
  intros Hnow Hmissing. destruct (utc_now_returns now Hnow) as (ts & Hts & _).
  unfold save_document. rewrite Hts. cbn [bind].
  eexists _, _. split; [reflexivity|]. cbn [documents messages].
  split; [reflexivity|]. split; [reflexivity|].
  unfold get_document_text in *. cbn [documents].
  rewrite find_document_text_app, Hmissing.
  fold (document_entry doc_id user_id file_name blob_name blob_url document_text ts).
  rewrite find_document_text_entry, !String.eqb_refl. reflexivity.
Qed.

Lemma local_save_document_keeps_lookups (now : Z)
    (doc_id user_id file_name blob_name blob_url document_text : string) (d d' : db)
    (u i : string) :
  save_document now doc_id user_id file_name blob_name blob_url document_text d = Ok d' ->
  (u, i) <> (user_id, doc_id)
  \/ get_document_text u i d <> Raise (ValueError "Document not found.") ->
  get_document_text u i d' = get_document_text u i d.
Proof.
  intros Hsave Hother. apply save_document_Ok in Hsave as (ts & _ & ->).
  unfold get_document_text in *. cbn [documents].
  rewrite find_document_text_app.
  destruct (find_document_text u i (documents d)) as [t|e] eqn:E; [reflexivity|].
  destruct e as [msg| | | |]; try reflexivity.
  apply find_document_text_not_found in E as Hmsg. subst msg.
  destruct Hother as [Hne|Hne]; [|contradiction].
  rewrite find_document_text_entry.
  destruct (String.eqb_spec user_id u) as [->|_]; [|reflexivity].
  destruct (String.eqb_spec doc_id i) as [->|_]; [|reflexivity].
  contradiction.
Qed.

End DocumentStore.

(** ** Listing documents, and reading twice *)

Section ReadAgain.
Import Py Datetime LocalStorage Spec StoreSpec.

Lemma py_eq_refl (v : value) : py_eq v v = true.
Proof.
  destruct v as [|b|n|x|s]; cbn [py_eq as_number];
    rewrite ?Qeq_bool_refl, ?String.eqb_refl; reflexivity.
Qed.

Lemma heal_document_inv w i r r' s u :
  heal_document w i r = Ok (r', s, u) ->
  exists ts v_id v_user,
    _normalize_timestamp (local_utcoffset w) (clock w i) (get r "created_at") = Ok ts
    /\ (forall k, k <> "created_at" -> r' !! k = r !! k)
    /\ r' !! "created_at" = Some (VStr ts)
    /\ r' !! "id" = Some v_id
    /\ r' !! "user_id" = Some v_user
    /\ s = <["id" := v_id]>
           (<["type" := get_default r' "type" (VStr "document")]>
           (<["user_id" := v_user]>
           (<["file_name" := get_default r' "file_name" (VStr "")]>
           (<["blob_name" := get r' "blob_name"]>
           (<["blob_url" := get r' "blob_url"]>
           (<["created_at" := VStr ts]> ∅))))))
    /\ (u = false -> r' = r).
Proof.
  unfold heal_document. intros H. apply bind_Ok in H as (ts & Ets & H).
  match type of H with
  | context [match ?x with (a, b) => _ end] => destruct x as [e1 u1] eqn:E1
  end.
  apply bind_Ok in H as (v_id & G_id & H). apply bind_Ok in H as (v_user & G_user & H).
  injection H as <- <- <-. apply getitem_Ok in G_id, G_user.
  exists ts, v_id, v_user.
  destruct (negb (py_eq (get r "created_at") (VStr ts))) eqn:T; injection E1 as <- <-.
  - split; [exact Ets|]. split; [intros k Hk; apply lookup_insert_ne; congruence|].
    split; [apply lookup_insert_eq|]. split; [exact G_id|]. split; [exact G_user|].
    split; [reflexivity|discriminate].
  - apply negb_false_iff, py_eq_get in T.
    split; [exact Ets|]. split; [reflexivity|]. split; [exact T|].
    split; [exact G_id|]. split; [exact G_user|]. split; reflexivity.
Qed.

Lemma heal_document_again w i r r' s u w' j :
  heal_document w i r = Ok (r', s, u) ->
  heal_document w' j r' = Ok (r', s, false).
Proof.
  intros H. apply heal_document_inv in H
    as (ts & v_id & v_user & Ets & _ & Hts & Hid & Huser & -> & _).
  apply normalize_returns_canonical in Ets.
  unfold heal_document, get at 1 2. rewrite Hts. cbn [default from_option id].
  rewrite (normalize_canonical_fixed _ _ _ Ets). cbn [bind].
  rewrite py_eq_refl. cbn [negb].
  rewrite (getitem_Some _ _ _ Hid), (getitem_Some _ _ _ Huser). reflexivity.
Qed.

Lemma documents_loop_again w user_id i docs docs' out u w' j :
  documents_loop w user_id i docs = Ok (docs', out, u) ->
  documents_loop w' user_id j docs' = Ok (docs', out, false)
  /\ (u = false -> docs' = docs).
Proof.
  revert i j docs' out u. induction docs as [|r rest IH]; intros i j docs' out u H.
  - injection H as <- <- <-. split; reflexivity.
  - cbn [documents_loop] in H.
    destruct (negb (py_eq (get r "user_id") (VStr user_id))) eqn:Ef.
    + apply bind_Ok in H as ([[rest' o] b] & Hrest & H). injection H as <- <- <-.
      destruct (IH _ (S j) _ _ _ Hrest) as [IH1 IH2].
      cbn [documents_loop]. rewrite Ef, IH1. cbn [bind].
      split; [reflexivity|]. intros Hu. rewrite (IH2 Hu). reflexivity.
    + apply bind_Ok in H as ([[r' sm] b0] & Hheal & H).
      apply bind_Ok in H as ([[rest' o] b] & Hrest & H). injection H as <- <- <-.
      destruct (IH _ (S j) _ _ _ Hrest) as [IH1 IH2].
      pose proof (heal_document_again _ _ _ _ _ _ w' j Hheal) as Hagain.
      apply heal_document_inv in Hheal
        as (ts & v_id & v_user & _ & Hframe & _ & _ & _ & _ & Hsame).
      cbn [documents_loop]. unfold get at 1. rewrite Hframe by discriminate.
      fold (get r "user_id"). rewrite Ef, Hagain. cbn [bind]. rewrite IH1. cbn [bind orb].
      split; [reflexivity|]. intros Hu. apply orb_false_iff in Hu as [Hb0 Hb].
      rewrite (Hsame Hb0), (IH2 Hb). reflexivity.
Qed.

Lemma heal_document_summary_of w i user_id r r' s u :
  r !! "user_id" = Some (VStr user_id) ->
  heal_document w i r = Ok (r', s, u) ->
  summary_of user_id r s.
Proof.
  intros Hown H. apply heal_document_inv in H
    as (ts & v_id & v_user & Ets & Hframe & Hts & Hid & Huser & -> & _).
  apply normalize_returns_canonical in Ets.
  rewrite Hframe in Hid, Huser by discriminate.
  assert (v_user = VStr user_id) as -> by congruence.
  unfold summary_of, get_default, get. rewrite !Hframe by discriminate.
  split; [reflexivity|]. split; [rewrite Hid; reflexivity|].
  split; [reflexivity|]. split; [reflexivity|]. split; [reflexivity|].
  split; [reflexivity|]. split; [exists ts; split; [reflexivity|exact Ets]|reflexivity].
Qed.

Lemma documents_loop_summary_of w user_id i docs docs' out u :
  documents_loop w user_id i docs = Ok (docs', out, u) ->
  Forall2 (summary_of user_id) (List.filter (owned user_id) docs) out.
Proof.
  revert i docs' out u. induction docs as [|r rest IH]; intros i docs' out u H.
  - injection H as _ <- _. constructor.
  - cbn [documents_loop List.filter] in *. unfold owned at 1.
    destruct (py_eq (get r "user_id") (VStr user_id)) eqn:Ef; cbn [negb] in H.
    + apply bind_Ok in H as ([[r' sm] b0] & Hheal & H).
      apply bind_Ok in H as ([[rest' o] b] & Hrest & H). injection H as _ <- _.
      apply py_eq_get in Ef.
      constructor; [eapply heal_document_summary_of; eassumption|eapply IH, Hrest].
    + apply bind_Ok in H as ([[rest' o] b] & Hrest & H). injection H as _ <- _.
      eapply IH, Hrest.
Qed.

(** X10. Listing the documents of a user (a read with no document identifier,
    or with an empty one) returns one summary for each stored document of that
    user, in the order of the store and for no document of anybody else. A
    summary names the user, the identifier, the file and the blob of its
    document, gives its creation time in normal form, and has no field for the
    text of the document. *)
Theorem document_listing
    (w : world) (user_id : string) (doc_id : option string) (d d' : db)
    (returned : list (gmap string value)) :
  truthy_doc_id doc_id = None ->
  get_history w user_id doc_id d = Ok (returned, d') ->
  Forall2 (summary_of user_id) (List.filter (owned user_id) (documents d)) returned.
Proof.
  unfold get_history. intros -> H.
  apply bind_Ok in H as ([[docs' out] updated] & Hloop & H). injection H as <- _.
  eapply documents_loop_summary_of, Hloop.
Qed.

Lemma document_listing_witness :
  get_history Scenario.world0 "u1" (Some "") Scenario.one_document
  = Ok ([StoreScenario.one_document_summary], Scenario.one_document)
  /\ Forall2 (summary_of "u1")
             (List.filter (owned "u1") (documents Scenario.one_document))
             [StoreScenario.one_document_summary].
Proof.
  assert (E : get_history Scenario.world0 "u1" (Some "") Scenario.one_document
              = Ok ([StoreScenario.one_document_summary], Scenario.one_document))
    by by_evaluation.
  split; [exact E|].
  exact (document_listing Scenario.world0 "u1" (Some "") Scenario.one_document _ _
           eq_refl E).
Defined.

Lemma py_or_truthy (a b : value) : truthy a = true -> py_or a b = a.
Proof. unfold py_or. intros ->. reflexivity. Qed.

(** The text resolved for a message is resolved to itself. *)
Lemma content_fixed (c m : value) :
  let content := py_or (py_or c m) (VStr "") in
  py_or (py_or content m) (VStr "") = content.
Proof.
  intros content. subst content.
  destruct (truthy c) eqn:Tc.
  - rewrite (py_or_truthy c m Tc), (py_or_truthy c _ Tc), (py_or_truthy c m Tc).
    apply py_or_truthy, Tc.
  - rewrite (py_or_falsy c m Tc). destruct (truthy m) eqn:Tm.
    + rewrite (py_or_truthy m _ Tm), (py_or_truthy m m Tm). apply py_or_truthy, Tm.
    + rewrite (py_or_falsy m _ Tm). cbn [py_or truthy String.eqb negb].
      apply py_or_falsy, Tm.
Qed.

Lemma heal_message_settled w i r s :
  settled (setdefault r "type" (VStr "message")) s ->
  heal_message w i r = Ok (setdefault r "type" (VStr "message"), s, false).
Proof.
  intros (v_id & v_type & v_user & v_doc & v_role & content & ts
          & Hid & Tid & Htype & Huser & Hdoc & Hrole & Hcontent & Hfix & Hts & Hcanon & ->).
  destruct (setdefault_frame r "type" (VStr "message")) as [P _].
  assert (Gm : get (setdefault r "type" (VStr "message")) "message" = get r "message")
    by (unfold get; rewrite P by discriminate; reflexivity).
  rewrite Gm in Hfix.
  pose proof Hid as Hid'. pose proof Hcontent as Hcontent'. pose proof Hts as Hts'.
  rewrite P in Hid', Hcontent', Hts' by discriminate.
  unfold heal_message. rewrite Hid', Tid. cbn [negb].
  assert (Gc : get r "content" = content) by (unfold get; rewrite Hcontent'; reflexivity).
  rewrite Gc, Hfix, py_eq_refl. cbn [negb].
  assert (Gt : get r "timestamp" = VStr ts) by (unfold get; rewrite Hts'; reflexivity).
  rewrite Gt, (normalize_canonical_fixed _ _ _ Hcanon). cbn [bind].
  rewrite py_eq_refl. cbn [negb].
  rewrite (getitem_Some _ _ _ Hid), (getitem_Some _ _ _ Htype), (getitem_Some _ _ _ Huser),
    (getitem_Some _ _ _ Hdoc), (getitem_Some _ _ _ Hrole), (getitem_Some _ _ _ Hcontent),
    (getitem_Some _ _ _ Hts).
  reflexivity.
Qed.

Lemma settled_has_type r s :
  settled r s -> setdefault r "type" (VStr "message") = r.
Proof.
  intros (v_id & v_type & v_user & v_doc & v_role & content & ts & _ & _ & Htype & _).
  unfold setdefault. rewrite Htype. reflexivity.
Qed.

Lemma heal_message_settles w i r r' s u :
  uuid4 w i <> "" ->
  heal_message w i r = Ok (r', s, u) ->
  settled r' s
  /\ (forall k, k <> "id" -> k <> "content" -> k <> "timestamp" -> k <> "type" ->
                r' !! k = r !! k)
  /\ (u = false -> r' = setdefault r "type" (VStr "message")).
Proof.
  intros Huuid H. unfold heal_message in H.
  destruct (match r !! "id" with
            | Some v =>
                if negb (truthy v)
                then (<["id" := VStr (uuid4 w i)]> r, true) else (r, false)
            | None => (<["id" := VStr (uuid4 w i)]> r, true)
            end) as [e1 u1] eqn:E1.
  assert (P1 : (forall k, k <> "id" -> e1 !! k = r !! k)
               /\ (exists v_id, e1 !! "id" = Some v_id /\ truthy v_id = true)
               /\ (u1 = false -> e1 = r)).
  { assert (Tu : truthy (VStr (uuid4 w i)) = true).
    { cbn [truthy]. destruct (String.eqb_spec (uuid4 w i) ""); [contradiction|reflexivity]. }
    destruct (r !! "id") as [v|] eqn:E;
      [destruct (negb (truthy v)) eqn:T|]; injection E1 as <- <-;
      (split; [intros k Hk; rewrite ?lookup_insert_ne by congruence; reflexivity|]);
      (split; [|first [discriminate|reflexivity]]).
    - exists (VStr (uuid4 w i)). split; [apply lookup_insert_eq|exact Tu].
    - exists v. split; [exact E|]. apply negb_false_iff in T. exact T.
    - exists (VStr (uuid4 w i)). split; [apply lookup_insert_eq|exact Tu]. }
  destruct P1 as (P1 & (v_id & I1 & T1) & S1).
  assert (G1 : forall k, k <> "id" -> get e1 k = get r k)
    by (intros k Hk; unfold get; rewrite P1 by exact Hk; reflexivity).
  rewrite !G1 in H by discriminate.
  set (content := py_or (py_or (get r "content") (get r "message")) (VStr "")) in *.
  destruct (if negb (py_eq (get r "content") content)
            then (<["content" := content]> e1, true) else (e1, false))
    as [e2 u2] eqn:E2.
  assert (P2 : (forall k, k <> "content" -> e2 !! k = e1 !! k)
               /\ e2 !! "content" = Some content
               /\ (u2 = false -> e2 = e1)).
  { destruct (negb (py_eq (get r "content") content)) eqn:T; injection E2 as <- <-.
    - split; [intros k Hk; apply lookup_insert_ne; congruence|].
      split; [apply lookup_insert_eq|discriminate].
    - split; [reflexivity|]. split; [|reflexivity].
      apply negb_false_iff, content_kept in T.
      rewrite P1 by discriminate. subst content. unfold get in T |- *.
      destruct (r !! "content") as [c|] eqn:Ec; cbn [default from_option id] in T |- *.
      + f_equal. exact T.
      + exfalso. unfold py_or in T. cbn [truthy] in T.
        destruct (truthy (default VNone (r !! "message"))) eqn:Tm.
        * rewrite <- T in Tm. discriminate.
        * discriminate. }
  destruct P2 as (P2 & I2 & S2).
  assert (G2 : get e2 "timestamp" = get r "timestamp")
    by (unfold get; rewrite P2, P1 by discriminate; reflexivity).
  rewrite G2 in H. apply bind_Ok in H as (ts & Ets & H).
  destruct (if negb (py_eq (get r "timestamp") (VStr ts))
            then (<["timestamp" := VStr ts]> e2, true) else (e2, false))
    as [e3 u3] eqn:E3.
  assert (P3 : (forall k, k <> "timestamp" -> e3 !! k = e2 !! k)
               /\ e3 !! "timestamp" = Some (VStr ts)
               /\ (u3 = false -> e3 = e2)).
  { destruct (negb (py_eq (get r "timestamp") (VStr ts))) eqn:T; injection E3 as <- <-.
    - split; [intros k Hk; apply lookup_insert_ne; congruence|].
      split; [apply lookup_insert_eq|discriminate].
    - split; [reflexivity|]. split; [|reflexivity]. apply negb_false_iff, py_eq_get in T.
      rewrite P2, P1 by discriminate. exact T. }
  destruct P3 as (P3 & I3 & S3).
  destruct (setdefault_frame e3 "type" (VStr "message")) as [P4 _].
  apply bind_Ok in H as (w_id & G_id & H). apply bind_Ok in H as (w_type & G_type & H).
  apply bind_Ok in H as (w_user & G_user & H). apply bind_Ok in H as (w_doc & G_doc & H).
  apply bind_Ok in H as (w_role & G_role & H).
  apply bind_Ok in H as (w_content & G_content & H).
  apply bind_Ok in H as (w_ts & G_ts & H).
  apply getitem_Ok in G_id, G_type, G_user, G_doc, G_role, G_content, G_ts.
  injection H as <- <- <-.
  assert (w_id = v_id) as ->
    by (rewrite P4, P3, P2 in G_id by discriminate; congruence).
  assert (w_content = content) as ->
    by (rewrite P4, P3 in G_content by discriminate; congruence).
  assert (w_ts = VStr ts) as ->
    by (rewrite P4 in G_ts by discriminate; congruence).
  split; [|split].
  - exists v_id, w_type, w_user, w_doc, w_role, content, ts.
    split; [exact G_id|]. split; [exact T1|]. split; [exact G_type|].
    split; [exact G_user|]. split; [exact G_doc|]. split; [exact G_role|].
    split; [exact G_content|]. split.
    { assert (Gm : get (setdefault e3 "type" (VStr "message")) "message" = get r "message")
        by (unfold get; rewrite P4, P3, P2, P1 by discriminate; reflexivity).
      rewrite Gm. apply content_fixed. }
    split; [exact G_ts|]. split; [eapply normalize_returns_canonical, Ets|reflexivity].
  - intros k ? ? ? ?. rewrite P4, P3, P2, P1 by assumption. reflexivity.
  - intros Hu. apply orb_false_iff in Hu as [Hu Hu3].
    apply orb_false_iff in Hu as [Hu1 Hu2].
    rewrite (S3 Hu3), (S2 Hu2), (S1 Hu1). reflexivity.
Qed.

Lemma heal_message_again w i r r' s u w' j :
  uuid4 w i <> "" ->
  heal_message w i r = Ok (r', s, u) ->
  heal_message w' j r' = Ok (r', s, false)
  /\ (u = false -> heal_message w' j r = Ok (r', s, false))
  /\ get r' "user_id" = get r "user_id"
  /\ get r' "doc_id" = get r "doc_id".
Proof.
  intros Huuid H. apply (heal_message_settles _ _ _ _ _ _ Huuid) in H as (Hs & Hframe & Hu).
  split; [|split; [|split]].
  - pose proof (heal_message_settled w' j r' s) as Hagain.
    rewrite (settled_has_type _ _ Hs) in Hagain. apply Hagain, Hs.
  - intros E. specialize (Hu E). subst r'. apply heal_message_settled, Hs.
  - unfold get. rewrite Hframe by discriminate. reflexivity.
  - unfold get. rewrite Hframe by discriminate. reflexivity.
Qed.

Lemma history_loop_again w user_id doc_id i entries entries' normalized u w' j :
  (forall k, uuid4 w k <> "") ->
  history_loop w user_id doc_id i entries = Ok (entries', normalized, u) ->
  history_loop w' user_id doc_id j entries' = Ok (entries', normalized, false)
  /\ (u = false ->
      history_loop w' user_id doc_id j entries = Ok (entries', normalized, false)).
Proof.
  intros Huuid. revert i j entries' normalized u.
  induction entries as [|r rest IH]; intros i j entries' normalized u H.
  - injection H as <- <- <-. split; reflexivity.
  - cbn [history_loop] in H.
    destruct (negb (py_eq (get r "user_id") (VStr user_id))
              || negb (py_eq (get r "doc_id") (VStr doc_id))) eqn:Ef.
    + apply bind_Ok in H as ([[rest' n'] b] & Hrest & H). injection H as <- <- <-.
      destruct (IH _ (S j) _ _ _ Hrest) as [IH1 IH2].
      cbn [history_loop]. rewrite Ef, IH1. cbn [bind].
      split; [reflexivity|]. intros Hu. rewrite (IH2 Hu). reflexivity.
    + apply bind_Ok in H as ([[r' sh] b0] & Hheal & H).
      apply bind_Ok in H as ([[rest' n'] b] & Hrest & H). injection H as <- <- <-.
      destruct (IH _ (S j) _ _ _ Hrest) as [IH1 IH2].
      destruct (heal_message_again _ _ _ _ _ _ w' j (Huuid i) Hheal)
        as (Hagain & Hsame & Guser & Gdoc).
      cbn [history_loop]. rewrite Guser, Gdoc, Ef, Hagain. cbn [bind].
      rewrite IH1. cbn [bind orb].
      split; [reflexivity|]. intros Hu. apply orb_false_iff in Hu as [Hb0 Hb].
      rewrite (Hsame Hb0). cbn [bind]. rewrite (IH2 Hb). reflexivity.
Qed.

(** X11. Reading twice. What a read returned, every later read of the store it
    left returns again, at whatever time and in whatever time zone it is made,
    and that later read writes nothing: the store is left as the first read
    left it. The fresh identifiers drawn are supposed not to be empty. *)
Theorem read_is_idempotent
    (w w' : world) (user_id : string) (doc_id : option string) (d d' : db)
    (returned : list (gmap string value)) :
  (forall k, uuid4 w k <> "") ->
  get_history w user_id doc_id d = Ok (returned, d') ->
  get_history w' user_id doc_id d' = Ok (returned, d').
Proof.
  intros Huuid H. unfold get_history in *.
  destruct (truthy_doc_id doc_id) as [doc|].
  - apply bind_Ok in H as ([[msgs' normalized] updated] & Hloop & H).
    injection H as <- <-.
    destruct (history_loop_again _ _ _ _ _ _ _ _ w' 0 Huuid Hloop) as [H1 H2].
    destruct updated; cbn [messages documents].
    + rewrite H1. reflexivity.
    + rewrite (H2 eq_refl). reflexivity.
  - apply bind_Ok in H as ([[docs' out] updated] & Hloop & H).
    injection H as <- <-.
    destruct (documents_loop_again _ _ _ _ _ _ _ w' 0 Hloop) as [H1 H2].
    destruct updated; cbn [messages documents].
    + rewrite H1. reflexivity.
    + rewrite <- (H2 eq_refl) at 1. rewrite H1, (H2 eq_refl). reflexivity.
Qed.

Lemma read_is_idempotent_witness :
  get_history Scenario.world0 "u1" (Some "d1") Scenario.legacy_store
  = Ok ([Scenario.legacy_message_shaped], mk_db [] [Scenario.legacy_message_healed])
  /\ get_history Scenario.world0 "u1" (Some "d1") (mk_db [] [Scenario.legacy_message_healed])
     = Ok ([Scenario.legacy_message_shaped], mk_db [] [Scenario.legacy_message_healed]).
Proof.
  assert (E : get_history Scenario.world0 "u1" (Some "d1") Scenario.legacy_store
              = Ok ([Scenario.legacy_message_shaped],
                    mk_db [] [Scenario.legacy_message_healed]))
    by by_evaluation.
  split; [exact E|].
  apply (read_is_idempotent Scenario.world0 Scenario.world0 "u1" (Some "d1")
           Scenario.legacy_store _ _); [|exact E].
  intros k. discriminate.
Defined.

End ReadAgain.

(** ** Saving messages and reading them back *)

Section MessageStore.
Import Py Datetime LocalStorage Spec StoreSpec.
Local Open Scope Z_scope.

Lemma history_loop_app w user_id doc_id i (l1 l2 : list (gmap string value)) :
  history_loop w user_id doc_id i (l1 ++ l2)
  = bind (history_loop w user_id doc_id i l1) (fun '(a1, n1, u1) =>
    bind (history_loop w user_id doc_id (i + length l1) l2) (fun '(a2, n2, u2) =>
    Ok (a1 ++ a2, n1 ++ n2, u1 || u2))).
Proof.
  revert i. induction l1 as [|r rest IH]; intros i.
  - cbn [app history_loop bind length]. rewrite Nat.add_0_r.
    destruct (history_loop w user_id doc_id i l2) as [[[a2 n2] u2]|e]; reflexivity.
  - cbn [app history_loop length]. rewrite IH.
    replace (S i + length rest)%nat with (i + S (length rest))%nat by lia.
    destruct (negb (py_eq (get r "user_id") (VStr user_id))
              || negb (py_eq (get r "doc_id") (VStr doc_id))).
    + destruct (history_loop w user_id doc_id (S i) rest) as [[[a1 n1] u1]|e];
        [|reflexivity]. cbn [bind].
      destruct (history_loop w user_id doc_id (i + S (length rest)) l2)
        as [[[a2 n2] u2]|e]; reflexivity.
    + destruct (heal_message w i r) as [[[r' sh] u0]|e]; [|reflexivity]. cbn [bind].
      destruct (history_loop w user_id doc_id (S i) rest) as [[[a1 n1] u1]|e];
        [|reflexivity]. cbn [bind].
      destruct (history_loop w user_id doc_id (i + S (length rest)) l2)
        as [[[a2 n2] u2]|e]; [|reflexivity].
      cbn [bind app]. rewrite orb_assoc. reflexivity.
Qed.

Lemma message_entry_settled (id user_id doc_id role content ts : string) :
  id <> "" -> canonical_timestamp ts = true ->
  settled (message_entry id user_id doc_id role content ts)
          (message_entry id user_id doc_id role content ts).
Proof.
  intros Hid Hts.
  exists (VStr id), (VStr "message"), (VStr user_id), (VStr doc_id), (VStr role),
         (VStr content), ts.
  split; [reflexivity|].
  split; [cbn [truthy]; destruct (String.eqb_spec id ""); [contradiction|reflexivity]|].
  split; [reflexivity|]. split; [reflexivity|]. split; [reflexivity|].
  split; [reflexivity|]. split; [reflexivity|]. split.
  { change (get (message_entry id user_id doc_id role content ts) "message") with VNone.
    unfold py_or. cbn [truthy].
    destruct (String.eqb_spec content "") as [->|Hne]; cbn [negb truthy].
    - reflexivity.
    - destruct (String.eqb_spec content ""); [contradiction|reflexivity]. }
  split; [reflexivity|]. split; [exact Hts|reflexivity].
Qed.

Lemma sort_by_sorted_key (l : list (gmap string value)) :
  StronglySorted (le_key timestamp_key) (sort_by timestamp_key l).
Proof. apply sort_by_sorted. Qed.

Lemma local_save_message_then_history
    (w : world) (now : Z) (fresh_id user_id doc_id role message : string) (d d1 : db)
    (returned : list (gmap string value)) :
  doc_id <> "" -> fresh_id <> "" ->
  EPOCH_MIN <= now / MICRO <= EPOCH_MAX ->
  get_history w user_id (Some doc_id) d = Ok (returned, d1) ->
  exists d' ts entry returned' d2,
    save_message now fresh_id user_id doc_id role message d = Ok d'
    /\ entry = message_entry fresh_id user_id doc_id role message ts
    /\ _utc_now now = Ok ts
    /\ documents d' = documents d
    /\ messages d' = messages d ++ [entry]
    /\ get_history w user_id (Some doc_id) d' = Ok (returned', d2)
    /\ Permutation returned' (returned ++ [entry])
    /\ StronglySorted (le_key timestamp_key) returned'.
Proof.
  intros Hdoc Hid Hnow Hread.
  destruct (utc_now_returns now Hnow) as (ts & Hts & Hcanon).
  unfold save_message. rewrite Hts. cbn [bind].
  fold (message_entry fresh_id user_id doc_id role message ts).
  set (entry := message_entry fresh_id user_id doc_id role message ts).
  pose proof (message_entry_settled fresh_id user_id doc_id role message ts Hid Hcanon)
    as Hsettled. fold entry in Hsettled.
  pose proof (heal_message_settled w (0 + length (messages d)) entry entry) as Hheal.
  rewrite (settled_has_type _ _ Hsettled) in Hheal. specialize (Hheal Hsettled).
  assert (Hconv : negb (py_eq (get entry "user_id") (VStr user_id))
                  || negb (py_eq (get entry "doc_id") (VStr doc_id)) = false).
  { change (get entry "user_id") with (VStr user_id).
    change (get entry "doc_id") with (VStr doc_id).
    cbn [py_eq]. rewrite !String.eqb_refl. reflexivity. }
  unfold get_history, truthy_doc_id in Hread.
  destruct (String.eqb_spec doc_id "") as [E|_]; [contradiction|].
  apply bind_Ok in Hread as ([[msgs' normalized] updated] & Hloop & Hread).
  injection Hread as <- <-.
  assert (Hafter : get_history w user_id (Some doc_id)
                     (mk_db (documents d) (messages d ++ [entry]))
                   = Ok (sort_by timestamp_key (normalized ++ [entry]),
                         if updated
                         then mk_db (documents d) (msgs' ++ [entry])
                         else mk_db (documents d) (messages d ++ [entry]))).
  { unfold get_history, truthy_doc_id.
    destruct (String.eqb_spec doc_id "") as [E|_]; [contradiction|].
    cbn [messages documents]. rewrite history_loop_app, Hloop. cbn [bind history_loop].
    rewrite Hconv, Hheal. cbn [bind orb]. rewrite orb_false_r. reflexivity. }
  eexists _, ts, entry, _, _. split; [reflexivity|]. split; [reflexivity|].
  split; [reflexivity|]. split; [reflexivity|]. split; [reflexivity|].
  split; [exact Hafter|]. split; [|apply sort_by_sorted_key].
  etransitivity; [apply sort_by_Permutation|].
  apply Permutation_app_tail. symmetry. apply sort_by_Permutation.
Qed.

Lemma heal_message_needs w i r out :
  heal_message w i r = Ok out ->
  is_Some (r !! "role")
  /\ exists ts, _normalize_timestamp (local_utcoffset w) (clock w i) (get r "timestamp")
                = Ok ts.
Proof.
  unfold heal_message. intros H.
  destruct (match r !! "id" with
            | Some v =>
                if negb (truthy v)
                then (<["id" := VStr (uuid4 w i)]> r, true) else (r, false)
            | None => (<["id" := VStr (uuid4 w i)]> r, true)
            end) as [e1 u1] eqn:E1.
  assert (P1 : forall k, k <> "id" -> e1 !! k = r !! k).
  { destruct (r !! "id") as [v|] eqn:E;
      [destruct (negb (truthy v)) eqn:T|]; injection E1 as <- _;
      intros k Hk; rewrite ?lookup_insert_ne by congruence; reflexivity. }
  match type of H with
  | context [match ?x with (a, b) => _ end] => destruct x as [e2 u2] eqn:E2
  end.
  assert (P2 : forall k, k <> "content" -> e2 !! k = e1 !! k).
  { destruct (negb (py_eq _ _)) eqn:T in E2; injection E2 as <- _; intros k Hk;
      rewrite ?lookup_insert_ne by congruence; reflexivity. }
  apply bind_Ok in H as (ts & Ets & H).
  match type of H with
  | context [match ?x with (a, b) => _ end] => destruct x as [e3 u3] eqn:E3
  end.
  assert (P3 : forall k, k <> "timestamp" -> e3 !! k = e2 !! k).
  { destruct (negb (py_eq _ _)) eqn:T in E3; injection E3 as <- _; intros k Hk;
      rewrite ?lookup_insert_ne by congruence; reflexivity. }
  destruct (setdefault_frame e3 "type" (VStr "message")) as [P4 _].
  apply bind_Ok in H as (w_id & _ & H). apply bind_Ok in H as (w_type & _ & H).
  apply bind_Ok in H as (w_user & _ & H). apply bind_Ok in H as (w_doc & _ & H).
  apply bind_Ok in H as (w_role & G_role & _).
  apply getitem_Ok in G_role. rewrite P4, P3, P2, P1 in G_role by discriminate.
  split; [eauto|]. exists ts.
  unfold get in *. rewrite P2, P1 in Ets by discriminate. exact Ets.
Qed.

Lemma history_loop_needs w user_id doc_id base entries out i r :
  history_loop w user_id doc_id base entries = Ok out ->
  entries !! i = Some r ->
  in_conversation user_id doc_id r ->
  is_Some (r !! "role")
  /\ exists ts, _normalize_timestamp (local_utcoffset w) (clock w (base + i))
                  (get r "timestamp") = Ok ts.
Proof.
  revert base out i. induction entries as [|r0 rest IH]; intros base out i H Hi Hconv;
    [discriminate|].
  cbn [history_loop] in H.
  destruct (negb (py_eq (get r0 "user_id") (VStr user_id))
            || negb (py_eq (get r0 "doc_id") (VStr doc_id))) eqn:Ef.
  - apply bind_Ok in H as (out' & Hrest & _).
    destruct i as [|i]; cbn in Hi.
    + injection Hi as ->. apply in_conversationb_spec in Hconv. congruence.
    + replace (base + S i)%nat with (S base + i)%nat by lia. eapply IH; eassumption.
  - apply bind_Ok in H as ([[r0' sh] u0] & Hheal & H).
    apply bind_Ok in H as (out' & Hrest & _).
    destruct i as [|i]; cbn in Hi.
    + injection Hi as ->. rewrite Nat.add_0_r. eapply heal_message_needs, Hheal.
    + replace (base + S i)%nat with (S base + i)%nat by lia. eapply IH; eassumption.
Qed.

Lemma history_raises_for_one_message
    (w : world) (user_id doc_id : string) (d : db) (i : nat) (r : gmap string value) :
  doc_id <> "" ->
  messages d !! i = Some r ->
  in_conversation user_id doc_id r ->
  r !! "role" = None
  \/ (exists e, _normalize_timestamp (local_utcoffset w) (clock w i) (get r "timestamp")
                = Raise e) ->
  exists e, get_history w user_id (Some doc_id) d = Raise e.
Proof.
  intros Hdoc Hi Hconv Hbad. unfold get_history, truthy_doc_id.
  destruct (String.eqb_spec doc_id "") as [E|_]; [contradiction|].
  destruct (history_loop w user_id doc_id 0 (messages d)) as [out|e] eqn:Hloop;
    [|exists e; reflexivity].
  exfalso.
  destruct (history_loop_needs _ _ _ _ _ _ _ _ Hloop Hi Hconv) as [[role Hrole] [ts Hts]].
  destruct Hbad as [Hnone|[e He]]; [congruence|].
  cbn [Nat.add] in Hts. congruence.
Qed.

End MessageStore.

Lemma conversation_sorted_by_timestamp_witness :
  exists returned d' normalized,
    LocalStorage.get_history Scenario.world0 "u1" (Some "d1") Scenario.two_messages
    = Py.Ok (returned, d')
    /\ Forall2 (Spec.shaped_from (LocalStorage.local_utcoffset Scenario.world0))
               (List.filter (Spec.in_conversationb "u1" "d1")
                  (LocalStorage.messages Scenario.two_messages)) normalized
    /\ Permutation returned normalized
    /\ StronglySorted (Spec.le_key LocalStorage.timestamp_key) returned
    /\ (forall i j a b,
          returned !! i = Some a -> returned !! j = Some b ->
          String.ltb (LocalStorage.timestamp_key a) (LocalStorage.timestamp_key b) = true ->
          i < j).
Proof.
  apply (conversation_sorted_by_timestamp Scenario.world0 "u1" "d1" Scenario.two_messages).
  - discriminate.
  - intros i r Hi _. destruct i as [|[|i]]; [| |discriminate Hi]; injection Hi as <-.
    + split; [eexists; reflexivity|]. exists "2025-01-01T00:00:05Z". by_evaluation.
    + split; [eexists; reflexivity|]. exists "2025-01-01T00:00:01Z". by_evaluation.
Defined.


(** ** The remote backend *)

Section Remote.
Import Py Datetime LocalStorage Spec StoreSpec RemoteSpec.
Local Open Scope Z_scope.

Lemma shape_messages_shaped w i results shaped :
  Cosmos.shape_messages w i results = Ok shaped ->
  Forall2 (remote_shaped (local_utcoffset w)) results shaped.
Proof.
  revert i shaped. induction results as [|r rest IH]; intros i shaped H.
  - injection H as <-. constructor.
  - cbn [Cosmos.shape_messages] in H.
    apply bind_Ok in H as (ts & Ets & H). apply bind_Ok in H as (l & Hrest & H).
    injection H as <-. constructor; [|eapply IH, Hrest].
    exists (clock w i), ts. split; [exact Ets|reflexivity].
Qed.

Lemma shape_messages_returns w base results :
  (forall i r, results !! i = Some r ->
     exists ts, _normalize_timestamp (local_utcoffset w) (clock w (base + i))
                  (get r "timestamp") = Ok ts) ->
  exists shaped, Cosmos.shape_messages w base results = Ok shaped.
Proof.
  revert base. induction results as [|r rest IH]; intros base Hok; [eexists; reflexivity|].
  destruct (Hok 0%nat r eq_refl) as [ts Hts]. rewrite Nat.add_0_r in Hts.
  destruct (IH (S base)) as [shaped Hrest].
  { intros i r' Hi. specialize (Hok (S i) r' Hi).
    replace (S base + i)%nat with (base + S i)%nat by lia. exact Hok. }
  cbn [Cosmos.shape_messages]. unfold Cosmos._normalize_timestamp.
  rewrite Hts. cbn [bind]. rewrite Hrest. cbn [bind]. eexists. reflexivity.
Qed.

(** X12. A remote read of a conversation never fails for a missing field. When
    the timestamp of every selected item is one the normaliser accepts, the
    read returns, whatever else the items lack; it returns one entry for each
    item of the container that matches the user, the document and the type
    [message], each field read with [get], in ascending order of the
    normalised timestamps; and it leaves the local file alone. *)
Theorem remote_history_sorted
    (w : world) (user_id doc_id : string) (local : db)
    (container : list (gmap string value)) :
  doc_id <> "" ->
  (forall i r, List.filter (selected user_id doc_id) container !! i = Some r ->
     exists ts, _normalize_timestamp (local_utcoffset w) (clock w i)
                  (get r "timestamp") = Ok ts) ->
  exists returned normalized,
    Cosmos.get_history false w user_id (Some doc_id) local container
    = Ok (returned, local)
    /\ Forall2 (remote_shaped (local_utcoffset w))
               (List.filter (selected user_id doc_id) container) normalized
    /\ Permutation returned normalized
    /\ StronglySorted (le_key timestamp_key) returned.
Proof.
  intros Hdoc Hok.
  destruct (shape_messages_returns w 0 _ Hok) as [shaped Hshaped].
  unfold Cosmos.get_history, truthy_doc_id.
  destruct (String.eqb_spec doc_id "") as [E|_]; [contradiction|].
  unfold Cosmos.query_items. fold (selected user_id doc_id).
  change (fun c => Cosmos.prop_is c "user_id" user_id && Cosmos.prop_is c "doc_id" doc_id
                   && Cosmos.prop_is c "type" "message") with (selected user_id doc_id).
  rewrite Hshaped. cbn [bind].
  eexists _, shaped. split; [reflexivity|].
  split; [eapply shape_messages_shaped, Hshaped|].
  split; [apply sort_by_Permutation|apply sort_by_sorted].
Qed.

Lemma remote_document_item_selected
    (u i doc_id user_id file_name blob_name blob_url document_text created_at : string) :
  let item := document_entry doc_id user_id file_name blob_name blob_url document_text
                created_at in
  Cosmos.prop_is item "id" i && Cosmos.prop_is item "user_id" u
  && Cosmos.prop_is item "type" "document"
  = String.eqb doc_id i && String.eqb user_id u.
Proof.
  intros item. unfold Cosmos.prop_is.
  change (get item "id") with (VStr doc_id).
  change (get item "user_id") with (VStr user_id).
  change (get item "type") with (VStr "document").
  cbn [py_eq]. rewrite andb_true_r. reflexivity.
Qed.

Lemma remote_save_document_Ok refuse now
    doc_id user_id file_name blob_name blob_url document_text local container local'
    container' :
  CosmosWrites.save_document false refuse now doc_id user_id file_name blob_name blob_url
    document_text local container = Ok (local', container') ->
  exists created_at,
    local' = local
    /\ container' = container ++ [document_entry doc_id user_id file_name blob_name blob_url
                                    document_text created_at].
Proof.
  cbn [CosmosWrites.save_document]. intros H. apply bind_Ok in H as (ts & _ & H).
  apply bind_Ok in H as (c' & Hc & H). injection H as <- <-.
  unfold CosmosWrites.create_item in Hc. destruct (refuse _); [discriminate|].
  injection Hc as <-. exists ts. split; reflexivity.
Qed.

Lemma save_then_get_either
    (USE_LOCAL_MODE : bool) (refuse : gmap string value -> option exn) (now : Z)
    (doc_id user_id file_name blob_name blob_url document_text : string)
    (local : db) (container : list (gmap string value)) :
  EPOCH_MIN <= now / MICRO <= EPOCH_MAX ->
  (USE_LOCAL_MODE = false -> forall item, refuse item = None) ->
  Cosmos.get_document_text USE_LOCAL_MODE user_id doc_id local container
  = Raise (ValueError "Document not found.") ->
  exists local' container',
    CosmosWrites.save_document USE_LOCAL_MODE refuse now doc_id user_id file_name blob_name
      blob_url document_text local container = Ok (local', container')
    /\ Cosmos.get_document_text USE_LOCAL_MODE user_id doc_id local' container'
       = Ok (VStr document_text)
    /\ messages local' = messages local.
Proof.
  intros Hnow Haccept Hmissing. destruct USE_LOCAL_MODE.
  - cbn [Cosmos.get_document_text CosmosWrites.save_document] in *.
    destruct (local_save_then_get_document_text now doc_id user_id file_name blob_name
                blob_url document_text local Hnow Hmissing)
      as (d' & record & -> & _ & Hmsgs & Hget).
    cbn [bind]. exists d', container. split; [reflexivity|]. split; assumption.
  - destruct (utc_now_returns now Hnow) as (ts & Hts & _).
    cbn [CosmosWrites.save_document]. rewrite Hts. cbn [bind]. unfold CosmosWrites.create_item.
    rewrite (Haccept eq_refl). cbn [bind].
    eexists _, _. split; [reflexivity|]. split; [|reflexivity].
    cbn [Cosmos.get_document_text] in *. unfold Cosmos.query_items in *.
    rewrite List.filter_app.
    destruct (List.filter _ container) as [|first rest] eqn:Ef.
    + cbn [app List.filter].
      fold (document_entry doc_id user_id file_name blob_name blob_url document_text ts).
      rewrite remote_document_item_selected, !String.eqb_refl. reflexivity.
    + exfalso. unfold getitem in Hmissing. destruct (first !! "document_text"); discriminate.
Qed.

(** X13. Saving a document and asking for its text gives the text back, on
    either backend. With the clock within the years 1 to 9999, and the remote
    service accepting the item when the remote backend is active,
    [save_document] returns; when no document was stored for the user under
    the identifier, [get_document_text] then returns the text that was saved.
    The messages of the local file are left alone. *)
Theorem save_then_get_document_text
    (USE_LOCAL_MODE : bool) (refuse : gmap string value -> option exn) (now : Z)
    (doc_id user_id file_name blob_name blob_url document_text : string)
    (local : db) (container : list (gmap string value)) :
  EPOCH_MIN <= now / MICRO <= EPOCH_MAX ->
  (USE_LOCAL_MODE = false -> forall item, refuse item = None) ->
  Cosmos.get_document_text USE_LOCAL_MODE user_id doc_id local container
  = Raise (ValueError "Document not found.") ->
  exists local' container',
    CosmosWrites.save_document USE_LOCAL_MODE refuse now doc_id user_id file_name blob_name
      blob_url document_text local container = Ok (local', container')
    /\ Cosmos.get_document_text USE_LOCAL_MODE user_id doc_id local' container'
       = Ok (VStr document_text)
    /\ messages local' = messages local.
Proof.
  exact (save_then_get_either USE_LOCAL_MODE refuse now doc_id user_id file_name
           blob_name blob_url document_text local container).
Qed.

Lemma save_then_get_document_text_witness :
  exists local' container',
    CosmosWrites.save_document false accepting 1762190700000000 "d1" "u1" "notes.pdf"
      "u1/d1/notes.pdf" "https://blobs.example/u1/d1/notes.pdf" "hello world"
      empty_db [] = Ok (local', container')
    /\ Cosmos.get_document_text false "u1" "d1" local' container' = Ok (VStr "hello world")
    /\ messages local' = messages empty_db.
Proof.
  apply save_then_get_document_text.
  - vm_compute. split; discriminate.
  - intros _ item. reflexivity.
  - reflexivity.
Defined.

(** X14. Saving a document changes no other answer of [get_document_text], on
    either backend. After [save_document] for [user_id] and [doc_id], a lookup
    for another user or another identifier gives what it gave before, error or
    text; and a lookup that already found a text keeps finding that text, so a
    document saved a second time under the same user and identifier does not
    replace the first. *)
Theorem save_document_keeps_lookups
    (USE_LOCAL_MODE : bool) (refuse : gmap string value -> option exn) (now : Z)
    (doc_id user_id file_name blob_name blob_url document_text : string)
    (local local' : db) (container container' : list (gmap string value))
    (u i : string) :
  CosmosWrites.save_document USE_LOCAL_MODE refuse now doc_id user_id file_name blob_name
    blob_url document_text local container = Ok (local', container') ->
  (u, i) <> (user_id, doc_id)
  \/ Cosmos.get_document_text USE_LOCAL_MODE u i local container
     <> Raise (ValueError "Document not found.") ->
  Cosmos.get_document_text USE_LOCAL_MODE u i local' container'
  = Cosmos.get_document_text USE_LOCAL_MODE u i local container.
Proof.
  intros Hsave Hother. destruct USE_LOCAL_MODE.
  - cbn [CosmosWrites.save_document Cosmos.get_document_text] in *.
    apply bind_Ok in Hsave as (d' & Hsave & H). injection H as <- <-.
    eapply local_save_document_keeps_lookups; eassumption.
  - apply remote_save_document_Ok in Hsave as (ts & -> & ->).
    cbn [Cosmos.get_document_text] in *. unfold Cosmos.query_items in *.
    rewrite List.filter_app.
    destruct (List.filter _ container) as [|first rest] eqn:Ef; [|reflexivity].
    cbn [app List.filter]. rewrite remote_document_item_selected.
    destruct (String.eqb_spec doc_id i) as [->|_]; [|reflexivity].
    destruct (String.eqb_spec user_id u) as [->|_]; [|reflexivity].
    destruct Hother as [Hne|Hne]; contradiction.
Qed.

Lemma save_document_keeps_lookups_witness :
  save_document 1762190700000000 "d1" "u1" "again.pdf" "u1/again.pdf"
    "file:///tmp/u1/again.pdf" "other words" Scenario.one_document
  = Ok StoreScenario.saved_twice
  /\ get_document_text "u1" "d1" StoreScenario.saved_twice = Ok (VStr "hello world").
Proof.
  assert (Hsave : CosmosWrites.save_document true accepting 1762190700000000 "d1" "u1"
                    "again.pdf" "u1/again.pdf" "file:///tmp/u1/again.pdf" "other words"
                    Scenario.one_document []
                  = Ok (StoreScenario.saved_twice, [])) by by_evaluation.
  split; [by_evaluation|].
  change (Cosmos.get_document_text true "u1" "d1" StoreScenario.saved_twice []
          = Ok (VStr "hello world")).
  rewrite (save_document_keeps_lookups _ _ _ _ _ _ _ _ _ _ _ _ _ "u1" "d1" Hsave).
  - by_evaluation.
  - right. vm_compute. discriminate.
Defined.

Lemma shape_messages_app w i (l1 l2 : list (gmap string value)) :
  Cosmos.shape_messages w i (l1 ++ l2)
  = bind (Cosmos.shape_messages w i l1) (fun s1 =>
    bind (Cosmos.shape_messages w (i + length l1) l2) (fun s2 => Ok (s1 ++ s2))).
Proof.
  revert i. induction l1 as [|r rest IH]; intros i.
  - cbn [app Cosmos.shape_messages bind length]. rewrite Nat.add_0_r.
    destruct (Cosmos.shape_messages w i l2); reflexivity.
  - cbn [app Cosmos.shape_messages length].
    destruct (Cosmos._normalize_timestamp _ _ _) as [ts|e]; [|reflexivity]. cbn [bind].
    rewrite IH. replace (S i + length rest)%nat with (i + S (length rest))%nat by lia.
    destruct (Cosmos.shape_messages w (S i) rest) as [s1|e]; [|reflexivity]. cbn [bind].
    destruct (Cosmos.shape_messages w (i + S (length rest)) l2); reflexivity.
Qed.

Lemma content_of_saved (message : string) :
  py_or (py_or (VStr message) (VStr message)) (VStr "") = VStr message.
Proof.
  unfold py_or. cbn [truthy].
  destruct (String.eqb_spec message "") as [->|Hne]; cbn [negb truthy].
  - reflexivity.
  - destruct (String.eqb_spec message ""); [contradiction|reflexivity].
Qed.

Lemma save_message_history_either
    (USE_LOCAL_MODE : bool) (refuse : gmap string value -> option exn)
    (w : world) (now : Z) (fresh_id random_hex user_id doc_id role message : string)
    (local local1 : db) (container : list (gmap string value))
    (returned : list (gmap string value)) :
  doc_id <> "" ->
  (USE_LOCAL_MODE = true -> fresh_id <> "") ->
  EPOCH_MIN <= now / MICRO <= EPOCH_MAX ->
  (USE_LOCAL_MODE = false -> forall item, refuse item = None) ->
  Cosmos.get_history USE_LOCAL_MODE w user_id (Some doc_id) local container
  = Ok (returned, local1) ->
  exists local' container' ts returned' local2,
    CosmosWrites.save_message USE_LOCAL_MODE refuse now fresh_id random_hex user_id doc_id
      role message local container = Ok (local', container')
    /\ _utc_now now = Ok ts
    /\ Cosmos.get_history USE_LOCAL_MODE w user_id (Some doc_id) local' container'
       = Ok (returned', local2)
    /\ Permutation returned'
         (returned
          ++ [message_entry
                (if USE_LOCAL_MODE then fresh_id
                 else doc_id +:+ "-" +:+ role +:+ "-" +:+ random_hex)
                user_id doc_id role message ts])
    /\ StronglySorted (le_key timestamp_key) returned'.
Proof.
  intros Hdoc Hid Hnow Haccept Hread. destruct USE_LOCAL_MODE.
  - cbn [Cosmos.get_history CosmosWrites.save_message] in *.
    destruct (local_save_message_then_history w now fresh_id user_id doc_id role message
                local local1 returned Hdoc (Hid eq_refl) Hnow Hread)
      as (d' & ts & entry & returned' & d2 & -> & -> & Hts & _ & _ & Hget & Hperm & Hsort).
    cbn [bind]. exists d', container, ts, returned', d2.
    split; [reflexivity|]. split; [exact Hts|]. split; [exact Hget|].
    split; [exact Hperm|exact Hsort].
  - destruct (utc_now_returns now Hnow) as (ts & Hts & Hcanon).
    cbn [CosmosWrites.save_message]. rewrite Hts. cbn [bind]. unfold CosmosWrites.create_item.
    rewrite (Haccept eq_refl). cbn [bind].
    set (item := <["id" := VStr (doc_id +:+ "-" +:+ role +:+ "-" +:+ random_hex)]> _).
    cbn [Cosmos.get_history] in Hread. unfold truthy_doc_id in Hread.
    destruct (String.eqb_spec doc_id "") as [E|_]; [contradiction|].
    unfold Cosmos.query_items in Hread.
    apply bind_Ok in Hread as (shaped & Hshaped & Hread). injection Hread as <- <-.
    assert (Hsel : Cosmos.prop_is item "user_id" user_id && Cosmos.prop_is item "doc_id" doc_id
                   && Cosmos.prop_is item "type" "message" = true).
    { unfold Cosmos.prop_is.
      change (get item "user_id") with (VStr user_id).
      change (get item "doc_id") with (VStr doc_id).
      change (get item "type") with (VStr "message").
      cbn [py_eq]. rewrite !String.eqb_refl. reflexivity. }
    assert (Hafter : Cosmos.get_history false w user_id (Some doc_id) local
                       (container ++ [item])
                     = Ok (sort_by timestamp_key
                             (shaped
                              ++ [message_entry
                                    (doc_id +:+ "-" +:+ role +:+ "-" +:+ random_hex)
                                    user_id doc_id role message ts]),
                           local)).
    { cbn [Cosmos.get_history]. unfold truthy_doc_id.
      destruct (String.eqb_spec doc_id "") as [E|_]; [contradiction|].
      unfold Cosmos.query_items.
      rewrite List.filter_app, shape_messages_app, Hshaped. cbn [bind].
      cbn [List.filter]. rewrite Hsel. cbn [Cosmos.shape_messages].
      change (get item "timestamp") with (VStr ts).
      unfold Cosmos._normalize_timestamp. rewrite (normalize_canonical_fixed _ _ _ Hcanon).
      cbn [bind].
      change (get item "content") with (VStr message).
      change (get item "message") with (VStr message).
      rewrite content_of_saved. reflexivity. }
    eexists _, _, ts, _, _. split; [reflexivity|]. split; [reflexivity|].
    split; [exact Hafter|]. split; [|apply sort_by_sorted].
    etransitivity; [apply sort_by_Permutation|].
    apply Permutation_app_tail. symmetry. apply sort_by_Permutation.
Qed.

(** X15. A message that was saved is read back, on either backend. With the
    clock within the years 1 to 9999, and the remote service accepting the
    item when the remote backend is active, [save_message] returns. If the
    conversation could be read before, it can be read afterwards, and what is
    returned is what was returned before together with one entry for the
    message just saved, carrying its user, document, role and text and the
    time of saving in normal form, in ascending order of the timestamps. The
    entry is identified by the fresh identifier on the local backend and by
    document, role and eight random hexadecimal digits on the remote one. *)
Theorem save_message_then_history
    (USE_LOCAL_MODE : bool) (refuse : gmap string value -> option exn)
    (w : world) (now : Z) (fresh_id random_hex user_id doc_id role message : string)
    (local local1 : db) (container : list (gmap string value))
    (returned : list (gmap string value)) :
  doc_id <> "" ->
  (USE_LOCAL_MODE = true -> fresh_id <> "") ->
  EPOCH_MIN <= now / MICRO <= EPOCH_MAX ->
  (USE_LOCAL_MODE = false -> forall item, refuse item = None) ->
  Cosmos.get_history USE_LOCAL_MODE w user_id (Some doc_id) local container
  = Ok (returned, local1) ->
  exists local' container' ts returned' local2,
    CosmosWrites.save_message USE_LOCAL_MODE refuse now fresh_id random_hex user_id doc_id
      role message local container = Ok (local', container')
    /\ _utc_now now = Ok ts
    /\ Cosmos.get_history USE_LOCAL_MODE w user_id (Some doc_id) local' container'
       = Ok (returned', local2)
    /\ Permutation returned'
         (returned
          ++ [message_entry
                (if USE_LOCAL_MODE then fresh_id
                 else doc_id +:+ "-" +:+ role +:+ "-" +:+ random_hex)
                user_id doc_id role message ts])
    /\ StronglySorted (le_key timestamp_key) returned'.
Proof.
  exact (save_message_history_either USE_LOCAL_MODE refuse w now fresh_id random_hex
           user_id doc_id role message local local1 container returned).
Qed.

End Remote.

Lemma save_message_then_history_witness :
  exists local' container' ts returned' local2,
    CosmosWrites.save_message true RemoteSpec.accepting 1762190700000000 "m9" "0a1b2c3d"
      "u1" "d1" "user" "and then?" Scenario.two_messages [] = Py.Ok (local', container')
    /\ LocalStorage._utc_now 1762190700000000 = Py.Ok ts
    /\ Cosmos.get_history true Scenario.world0 "u1" (Some "d1") local' container'
       = Py.Ok (returned', local2)
    /\ Permutation returned'
         ([Scenario.said "assistant" "yo" "2025-01-01T00:00:01Z";
           Scenario.said "user" "hi" "2025-01-01T00:00:05Z"]
          ++ [StoreSpec.message_entry "m9" "u1" "d1" "user" "and then?" ts])
    /\ StronglySorted (Spec.le_key LocalStorage.timestamp_key) returned'.
Proof.
  apply (save_message_then_history true RemoteSpec.accepting Scenario.world0
           1762190700000000 "m9" "0a1b2c3d" "u1" "d1" "user" "and then?"
           Scenario.two_messages Scenario.two_messages []).
  - discriminate.
  - intros _. discriminate.
  - vm_compute. split; discriminate.
  - intros _ item. reflexivity.
  - by_evaluation.
Defined.

Lemma remote_history_sorted_witness :
  exists returned normalized,
    Cosmos.get_history false Scenario.world0 "u1" (Some "d1") LocalStorage.empty_db
      (LocalStorage.messages Scenario.two_messages)
    = Py.Ok (returned, LocalStorage.empty_db)
    /\ Forall2 (RemoteSpec.remote_shaped (LocalStorage.local_utcoffset Scenario.world0))
               (List.filter (RemoteSpec.selected "u1" "d1")
                  (LocalStorage.messages Scenario.two_messages)) normalized
    /\ Permutation returned normalized
    /\ StronglySorted (Spec.le_key LocalStorage.timestamp_key) returned.
Proof.
  apply (remote_history_sorted Scenario.world0 "u1" "d1" LocalStorage.empty_db
           (LocalStorage.messages Scenario.two_messages)).
  - discriminate.
  - change (List.filter (RemoteSpec.selected "u1" "d1")
              (LocalStorage.messages Scenario.two_messages))
      with [Scenario.said "user" "hi" "2025-01-01T00:00:05Z";
            Scenario.said "assistant" "yo" "2025-01-01T00:00:01Z"].
    intros i r Hi. destruct i as [|[|i]]; [| |discriminate Hi]; injection Hi as <-.
    + exists "2025-01-01T00:00:05Z". by_evaluation.
    + exists "2025-01-01T00:00:01Z". by_evaluation.
Defined.

(** ** File names *)

Section FileNames.
Import Py Pathlib Storage ApiSpec.

Lemma split_nonempty (sep : ascii) (s : string) : split sep s <> [].
Proof.
  destruct s as [|c s]; cbn [split]; [discriminate|].
  destruct (Ascii.eqb c sep); [discriminate|]. destruct (split sep s); discriminate.
Qed.

Lemma split_plain (s x : string) : In x (split "/" s) -> plain x = true.
Proof.
  revert x. induction s as [|c s IH]; intros x Hx; cbn [split] in Hx.
  - destruct Hx as [<-|[]]. reflexivity.
  - destruct (Ascii.eqb c "/") eqn:Ec.
    + destruct Hx as [<-|Hx]; [reflexivity|apply IH, Hx].
    + destruct (split "/" s) as [|y ys] eqn:Es; [destruct (split_nonempty _ _ Es)|].
      destruct Hx as [<-|Hx].
      * unfold plain. cbn [all_chars]. rewrite Ec. cbn [negb andb].
        apply (IH y). left. reflexivity.
      * apply IH. right. exact Hx.
Qed.

Lemma split_of_plain (s : string) : plain s = true -> split "/" s = [s].
Proof.
  induction s as [|c s IH]; [reflexivity|].
  unfold plain. cbn [all_chars split]. intros H. apply andb_true_iff in H as [Hc Hs].
  apply negb_true_iff in Hc. rewrite Hc, (IH Hs). reflexivity.
Qed.

Lemma plain_not_contains (s : string) : plain s = true -> contains "/" s = false.
Proof.
  induction s as [|c s IH]; [reflexivity|].
  unfold plain. cbn [all_chars contains String.prefix]. intros H.
  apply andb_true_iff in H as [Hc Hs]. apply negb_true_iff, Ascii.eqb_neq in Hc.
  destruct (ascii_dec "/" c) as [E|_]; [congruence|]. cbn [orb]. apply IH, Hs.
Qed.

Lemma contains_not_plain (s : string) : contains "/" s = false -> plain s = true.
Proof.
  induction s as [|c s IH]; [reflexivity|].
  unfold plain. cbn [all_chars contains String.prefix]. intros H.
  destruct (ascii_dec "/" c) as [E|Hne].
  - destruct s; discriminate.
  - cbn [orb] in H. apply andb_true_iff. split; [|apply IH, H].
    apply negb_true_iff, Ascii.eqb_neq. congruence.
Qed.

Lemma last_filter_In {A : Type} (p : A -> bool) (l : list A) (d : A) :
  List.last (List.filter p l) d = d
  \/ (In (List.last (List.filter p l) d) l /\ p (List.last (List.filter p l) d) = true).
Proof.
  destruct (List.filter p l) as [|x xs] eqn:E; [left; reflexivity|].
  right. assert (Hin : In (List.last (x :: xs) d) (List.filter p l)).
  { rewrite E. clear E. revert x. induction xs as [|y ys IH]; intros x.
    - left. reflexivity.
    - right. apply IH. }
  apply List.filter_In in Hin. exact Hin.
Qed.

(** [Path(filename).name] is empty or a component of the file name that is
    neither empty nor a dot. *)
Lemma name_component (filename : string) :
  name (Path filename) = ""
  \/ (In (name (Path filename)) (split "/" filename)
      /\ is_part (name (Path filename)) = true).
Proof. unfold name, Path. cbn [parts]. apply last_filter_In. Qed.

Lemma name_of_plain (x : string) :
  plain x = true -> is_part x = true -> name (Path x) = x.
Proof.
  intros Hp Hx. unfold name, Path. cbn [parts].
  rewrite (split_of_plain _ Hp). cbn [List.filter]. rewrite Hx. reflexivity.
Qed.

Lemma sanitize_cases (filename fallback : string) :
  _sanitize_filename filename fallback = fallback
  \/ (In (_sanitize_filename filename fallback) (split "/" filename)
      /\ is_part (_sanitize_filename filename fallback) = true).
Proof.
  unfold _sanitize_filename.
  destruct (String.eqb_spec filename "") as [->|Hf]; cbn [negb].
  - left. destruct (String.eqb fallback ""); reflexivity.
  - destruct (String.eqb_spec (name (Path filename)) "") as [E|Hn]; cbn [negb];
      [left; reflexivity|].
    destruct (name_component filename) as [E|H]; [contradiction|right; exact H].
Qed.

(** X16. The name under which an upload is stored is safe to use as one path
    component. With a fallback that is not empty and has no slash in it, the
    sanitised name is not empty and has no slash in it, whatever the client
    sent; it is the fallback, or else one of the components of the name the
    client sent, and then neither empty nor a single dot. *)
Theorem sanitized_name_is_safe (filename fallback : string) :
  fallback <> "" ->
  contains "/" fallback = false ->
  let stored_name := _sanitize_filename filename fallback in
  stored_name <> ""
  /\ contains "/" stored_name = false
  /\ (stored_name = fallback
      \/ In stored_name (split "/" filename) /\ stored_name <> ".").
Proof.
  intros Hne Hplain stored_name. subst stored_name.
  destruct (sanitize_cases filename fallback) as [->|[Hin Hpart]].
  - split; [exact Hne|]. split; [exact Hplain|left; reflexivity].
  - unfold is_part in Hpart. apply andb_true_iff in Hpart as [H1 H2].
    apply negb_true_iff in H1, H2. apply String.eqb_neq in H1, H2.
    split; [exact H1|]. split; [apply plain_not_contains, (split_plain filename), Hin|].
    right. split; [exact Hin|exact H2].
Qed.

Lemma sanitized_name_is_safe_witness :
  _sanitize_filename "../../etc/passwd" "d1.pdf" <> ""
  /\ contains "/" (_sanitize_filename "../../etc/passwd" "d1.pdf") = false
  /\ (_sanitize_filename "../../etc/passwd" "d1.pdf" = "d1.pdf"
      \/ In (_sanitize_filename "../../etc/passwd" "d1.pdf") (split "/" "../../etc/passwd")
         /\ _sanitize_filename "../../etc/passwd" "d1.pdf" <> ".").
Proof.
  apply (sanitized_name_is_safe "../../etc/passwd" "d1.pdf"); [discriminate|reflexivity].
Defined.

(** X17. Sanitising is idempotent, and a plain name is kept. With a fallback
    that has no slash in it, sanitising the sanitised name gives it again; and
    a name that has no slash in it and is neither empty nor a single dot is
    stored as it is. *)
Theorem sanitize_idempotent (filename fallback : string) :
  contains "/" fallback = false ->
  _sanitize_filename (_sanitize_filename filename fallback) fallback
  = _sanitize_filename filename fallback
  /\ (contains "/" filename = false -> filename <> "" -> filename <> "." ->
      _sanitize_filename filename fallback = filename).
Proof.
  intros Hplain.
  assert (Hkeep : forall x, plain x = true -> is_part x = true ->
                            _sanitize_filename x fallback = x).
  { intros x Hp Hx. unfold _sanitize_filename.
    pose proof Hx as Hx'. unfold is_part in Hx'. apply andb_true_iff in Hx' as [H1 _].
    rewrite H1, (name_of_plain x Hp Hx), H1. reflexivity. }
  split.
  - destruct (sanitize_cases filename fallback) as [->|[Hin Hpart]].
    + destruct (is_part fallback) eqn:Hfb.
      * apply Hkeep; [apply contains_not_plain, Hplain|exact Hfb].
      * unfold _sanitize_filename.
        destruct (String.eqb_spec fallback "") as [->|Hne]; cbn [negb]; [reflexivity|].
        assert (fallback = ".") as ->.
        { unfold is_part in Hfb. apply andb_false_iff in Hfb as [H|H];
            apply negb_false_iff, String.eqb_eq in H; [contradiction|exact H]. }
        reflexivity.
    + apply Hkeep; [apply (split_plain filename), Hin|exact Hpart].
  - intros Hp H1 H2. apply Hkeep; [apply contains_not_plain, Hp|].
    unfold is_part. apply andb_true_iff.
    split; apply negb_true_iff, String.eqb_neq; assumption.
Qed.

Lemma sanitize_idempotent_witness :
  _sanitize_filename (_sanitize_filename "reports/2024/q3.pdf" "d1.pdf") "d1.pdf"
  = _sanitize_filename "reports/2024/q3.pdf" "d1.pdf"
  /\ (contains "/" "reports/2024/q3.pdf" = false -> "reports/2024/q3.pdf" <> "" ->
      "reports/2024/q3.pdf" <> "." ->
      _sanitize_filename "reports/2024/q3.pdf" "d1.pdf" = "reports/2024/q3.pdf").
Proof.
  apply (sanitize_idempotent "reports/2024/q3.pdf" "d1.pdf"). reflexivity.
Defined.

End FileNames.

(** ** Text extraction *)

Section Extraction.
Import Py Pathlib Upload Fastapi Pdf ApiSpec.

Lemma stripped_head (a : string) :
  strip a = a -> a <> "" -> exists c t, a = String c t /\ is_space c = false.
Proof.
  intros Ha Hne. unfold strip in Ha.
  destruct (lstrip_head a) as [E|(c & t & E & Hc)].
  - rewrite E in Ha. cbn in Ha. congruence.
  - rewrite E, (rstrip_cons c t Hc) in Ha. exists c, (rstrip t). split; [congruence|exact Hc].
Qed.

Lemma rstrip_of_stripped (a : string) : strip a = a -> rstrip a = a.
Proof.
  intros Ha. destruct a as [|c t]; [reflexivity|].
  destruct (stripped_head _ Ha) as (c' & t' & E & Hc); [discriminate|].
  injection E as <- <-. unfold strip in Ha. cbn [lstrip] in Ha. rewrite Hc in Ha. exact Ha.
Qed.

Lemma rstrip_app (a b : string) : rstrip b <> "" -> rstrip (a +:+ b) = a +:+ rstrip b.
Proof.
  intros Hb. induction a as [|c a IH]; [reflexivity|].
  rewrite !app_cons. cbn [rstrip]. rewrite IH.
  destruct (a +:+ rstrip b) as [|d r] eqn:E; [|reflexivity].
  destruct a; [cbn in E; contradiction|discriminate].
Qed.

Lemma strip_app (a b : string) :
  strip a = a -> a <> "" -> strip b = b -> b <> "" ->
  forall sep, strip (a +:+ sep +:+ b) = a +:+ sep +:+ b.
Proof.
  intros Ha Hane Hb Hbne sep.
  destruct (stripped_head a Ha Hane) as (c & t & -> & Hc).
  unfold strip. rewrite app_cons. cbn [lstrip]. rewrite Hc. rewrite <- app_cons.
  rewrite <- app_assoc_s, rstrip_app; rewrite (rstrip_of_stripped b Hb);
    [reflexivity|exact Hbne].
Qed.

Lemma join_cons (sep x : string) (l : list string) :
  l <> [] -> join sep (x :: l) = x +:+ sep +:+ join sep l.
Proof. destruct l; [contradiction|reflexivity]. Qed.

Lemma app_not_empty (a b : string) : a <> "" -> a +:+ b <> "".
Proof. destruct a; [contradiction|discriminate]. Qed.

Lemma join_stripped (l : list string) :
  Forall (fun x => strip x = x /\ x <> "") l -> l <> [] ->
  strip (join newline l) = join newline l /\ join newline l <> "".
Proof.
  induction 1 as [|x l [Hx Hne] Hl IH]; intros Hnil; [contradiction|].
  destruct l as [|y l]; [cbn [join]; split; assumption|].
  destruct IH as [IH1 IH2]; [discriminate|].
  rewrite join_cons by discriminate. split.
  - apply strip_app; assumption.
  - apply app_not_empty, Hne.
Qed.

Lemma pages_stripped (text_chunks : list string) :
  Forall (fun x => strip x = x /\ x <> "")
    (map strip (List.filter has_text text_chunks)).
Proof.
  apply Forall_forall. intros x Hx. apply list_elem_of_In, in_map_iff in Hx as (c & <- & Hc).
  apply List.filter_In in Hc as [_ Hc]. unfold has_text in Hc.
  apply negb_true_iff, String.eqb_neq in Hc.
  split; [apply strip_idempotent|exact Hc].
Qed.




End Extraction.

(** ** The upload route *)

Section UploadRoute.
Import Py Pathlib Upload Fastapi LocalStorage Api ApiSpec.
Local Open Scope Z_scope.

Lemma read_whole (file : UploadFile) :
  position file = 0%nat -> read_error file = None ->
  read file = (Ok (content file),
               mk_UploadFile (filename file) (content_type file) (content file)
                 (length (content file)) None).
Proof. unfold read. intros -> ->. reflexivity. Qed.

Lemma upload_to_blob_accepted (e : env) (file : UploadFile) (doc_id user_id : string)
    (st : Storage.stored) :
  position file = 0%nat -> read_error file = None -> storage_accepts e ->
  exists blob_url blob_name st',
    Storage.upload_to_blob (storage_USE_LOCAL_MODE e) (dsk e) (TMP_DIR e) (blob e)
      file doc_id user_id st
    = (Ok (blob_url,
           Storage._sanitize_filename (default "" (filename file)) (doc_id +:+ ".pdf"),
           blob_name),
       mk_UploadFile (filename file) (content_type file) (content file) 0 None, st')
    /\ stored_at e st' blob_url (content file).
Proof.
  intros Hpos Hread (Hmk & Hwr & Hup). unfold Storage.upload_to_blob, stored_at.
  rewrite (read_whole file Hpos Hread). unfold seek_0. cbn [filename content_type content
    position read_error].
  destruct (storage_USE_LOCAL_MODE e).
  - unfold LocalFiles.save_pdf. rewrite Hmk, Hwr.
    eexists _, _, _. split; [reflexivity|]. cbn [Storage.files].
    eexists. split; [reflexivity|]. apply lookup_insert_eq.
  - rewrite Hup. eexists _, _, _. split; [reflexivity|]. cbn [Storage.blobs].
    eexists _, _. split; [reflexivity|]. apply lookup_insert_eq.
Qed.

Lemma extract_pages (get_text : bytes -> option (list string)) (file : UploadFile)
    (text_chunks : list string) :
  position file = 0%nat -> read_error file = None ->
  get_text (content file) = Some text_chunks ->
  Pdf.extract_text_from_pdf get_text file
  = (let final_text := join newline (map strip (List.filter has_text text_chunks)) in
     if String.eqb final_text ""
     then HTTPException 400 "No extractable text found in the PDF."
     else Return final_text,
     mk_UploadFile (filename file) (content_type file) (content file) 0 None).
Proof.
  intros Hpos Hread Hpages. unfold Pdf.extract_text_from_pdf.
  rewrite (read_whole file Hpos Hread). unfold seek_0.
  cbn [filename content_type content position read_error]. rewrite Hpages.
  fold newline. fold has_text. cbv zeta.
  destruct (String.eqb _ ""); reflexivity.
Qed.

(** X20. An upload that goes through. For a user given by a name that is not
    blank and a file sent as PDF, readable from its start, with the disk or
    the blob service and the database accepting what they are asked, the clock
    within the years 1 to 9999, a document PyMuPDF opens with text on some
    page, and a fresh identifier under which the user has no document yet:
    [upload_pdf] returns the identifier drawn, the sanitised file name and a
    URL; the URL names the bytes of the file as they are now stored; and
    [get_document_text] for the user and that identifier now returns the
    stripped texts of the pages that have text, joined by newlines. No message
    is added. *)
Theorem upload_stores_document
    (e : env) (d : draw) (user_id : string) (file : UploadFile) (a : app)
    (text_chunks : list string) :
  strip user_id <> "" ->
  is_pdf (content_type file) = true ->
  position file = 0%nat ->
  read_error file = None ->
  storage_accepts e ->
  (forall item, refuse e item = None) ->
  Datetime.EPOCH_MIN <= clock d / Datetime.MICRO <= Datetime.EPOCH_MAX ->
  get_text e (content file) = Some text_chunks ->
  Exists (fun chunk => strip chunk <> "") text_chunks ->
  Cosmos.get_document_text (cosmos_USE_LOCAL_MODE e) user_id (uuid4 d) (local a)
    (container a) = Raise (ValueError "Document not found.") ->
  exists response file' a',
    upload_pdf e d user_id file a = (Return response, file', a')
    /\ doc_id response = uuid4 d
    /\ file_name response
       = Storage._sanitize_filename (default "" (filename file)) (uuid4 d +:+ ".pdf")
    /\ stored_at e (uploads a') (blob_url response) (content file)
    /\ Cosmos.get_document_text (cosmos_USE_LOCAL_MODE e) user_id (doc_id response)
         (local a') (container a')
       = Ok (VStr (join newline (map strip (List.filter has_text text_chunks))))
    /\ messages (local a') = messages (local a)
    /\ client a' = client a.
Proof.
  intros Huser Hpdf Hpos Hread Hstore Hdb Hnow Hpages Hsome Hfresh.
  unfold upload_pdf.
  destruct (String.eqb_spec (strip user_id) "") as [E|_]; [contradiction|].
  rewrite Hpdf. cbn [negb].
  destruct (upload_to_blob_accepted e file (uuid4 d) user_id (uploads a) Hpos Hread Hstore)
    as (url & blob_name & st' & -> & Hat).
  rewrite (extract_pages (get_text e) _ text_chunks) by (try reflexivity; exact Hpages).
  cbv zeta.
  assert (Hne : join newline (map strip (List.filter has_text text_chunks)) <> "").
  { apply join_stripped; [apply pages_stripped|].
    apply Exists_exists in Hsome as (c & Hin & Hc). apply list_elem_of_In in Hin.
    assert (Hf : In c (List.filter has_text text_chunks)).
    { apply List.filter_In. split; [exact Hin|].
      unfold has_text. apply negb_true_iff, String.eqb_neq, Hc. }
    destruct (List.filter has_text text_chunks); [contradiction|discriminate]. }
  destruct (String.eqb_spec (join newline (map strip (List.filter has_text text_chunks))) "")
    as [E|_]; [contradiction|].
  destruct (save_then_get_either (cosmos_USE_LOCAL_MODE e) (refuse e) (clock d) (uuid4 d)
              user_id
              (Storage._sanitize_filename (default "" (filename file)) (uuid4 d +:+ ".pdf"))
              blob_name url
              (join newline (map strip (List.filter has_text text_chunks)))
              (local a) (container a) Hnow (fun _ => Hdb) Hfresh)
    as (local' & container' & -> & Hget & Hmsgs).
  eexists _, _, _. split; [reflexivity|].
  cbn [doc_id file_name blob_url uploads local container client].
  split; [reflexivity|]. split; [reflexivity|]. split; [exact Hat|].
  split; [exact Hget|]. split; [exact Hmsgs|reflexivity].
Qed.



End UploadRoute.

(** ** The question route and the history route *)

Section AskRoute.
Import Py Fastapi LocalStorage Spec StoreSpec Api ApiSpec.
Local Open Scope Z_scope.



Lemma asked_response (svc : Gemini.service) (text question : string) (st : Gemini.state) :
  strip question <> "" ->
  (exists answer,
      fst (Gemini.get_gemini_response svc text (strip question) st) = Ok answer)
  \/ (exists msg,
        fst (Gemini.get_gemini_response svc text (strip question) st)
        = Raise (RuntimeError msg)
        /\ Gemini.sent (snd (Gemini.get_gemini_response svc text (strip question) st))
           = Gemini.sent st ++ repeat (Gemini.build_prompt text (strip question)) 3).
Proof.
  intros Hq.
  assert (Hq' : strip (strip question) <> "") by (rewrite strip_idempotent; exact Hq).
  rewrite (get_gemini_response_asked _ _ _ _ Hq').
  destruct (retry_loop_cases svc (Gemini.build_prompt text (strip question))
              (Gemini.rate_limit svc st))
    as (j & _ & Hsent & _ & [(_ & t & _ & Hout)|(-> & msg & _ & Hout)]).
  - left. eexists. exact Hout.
  - right. unfold GeminiSpec.final_error in Hout. eexists. split; [exact Hout|].
    rewrite Hsent, rate_limit_sent. reflexivity.
Qed.

(** X24. A question that is answered is in the history with its answer. For a
    question that is not blank, about a stored text, with both saves possible
    and a generation call that returns an answer: [ask_question] returns that
    answer; and if the conversation could be read before, it can be read
    afterwards and then holds, besides what it held, one entry for the
    question as stripped, with role [user], and one for the answer, with role
    [assistant], in ascending order of the timestamps. The uploads are not
    touched. *)
Theorem answered_question_is_recorded
    (e : env) (w : world) (d1 d2 : draw) (request : AskRequest) (a : app)
    (text answer : string) (returned : list (gmap string value)) (local0 : db) :
  strip (question request) <> "" ->
  ask_doc_id request <> "" ->
  can_save e d1 -> can_save e d2 ->
  Cosmos.get_document_text (cosmos_USE_LOCAL_MODE e) (user_id request)
    (ask_doc_id request) (local a) (container a) = Ok (VStr text) ->
  fst (Gemini.get_gemini_response (generation e) text (strip (question request))
         (client a)) = Ok answer ->
  Cosmos.get_history (cosmos_USE_LOCAL_MODE e) w (user_id request)
    (Some (ask_doc_id request)) (local a) (container a) = Ok (returned, local0) ->
  exists a' ts1 ts2 returned' local2,
    ask_question e d1 d2 request a = (Return answer, a')
    /\ Cosmos.get_history (cosmos_USE_LOCAL_MODE e) w (user_id request)
         (Some (ask_doc_id request)) (local a') (container a') = Ok (returned', local2)
    /\ Permutation returned'
         (returned
          ++ [message_entry (message_id e d1 (ask_doc_id request) "user")
                (user_id request) (ask_doc_id request) "user"
                (strip (question request)) ts1;
              message_entry (message_id e d2 (ask_doc_id request) "assistant")
                (user_id request) (ask_doc_id request) "assistant" answer ts2])
    /\ StronglySorted (le_key timestamp_key) returned'
    /\ uploads a' = uploads a
    /\ client a'
       = snd (Gemini.get_gemini_response (generation e) text (strip (question request))
                (client a)).
Proof.
  intros Hq Hdoc (Hnow1 & Hid1 & Hacc1) (Hnow2 & Hid2 & Hacc2) Htext Hgen Hread.
  destruct (save_message_history_either (cosmos_USE_LOCAL_MODE e) (refuse e) w (clock d1)
              (uuid4 d1) (urandom_hex d1) (user_id request) (ask_doc_id request) "user"
              (strip (question request)) (local a) local0 (container a) returned
              Hdoc (fun _ => Hid1) Hnow1 (fun _ => Hacc1) Hread)
    as (l1 & c1 & ts1 & returned1 & local1 & Hsave1 & _ & Hread1 & Hperm1 & _).
  destruct (save_message_history_either (cosmos_USE_LOCAL_MODE e) (refuse e) w (clock d2)
              (uuid4 d2) (urandom_hex d2) (user_id request) (ask_doc_id request) "assistant"
              answer l1 local1 c1 returned1
              Hdoc (fun _ => Hid2) Hnow2 (fun _ => Hacc2) Hread1)
    as (l2 & c2 & ts2 & returned2 & local2 & Hsave2 & _ & Hread2 & Hperm2 & Hsort2).
  unfold ask_question.
  destruct (String.eqb_spec (strip (question request)) "") as [E|_]; [contradiction|].
  rewrite Htext, Hsave1.
  destruct (Gemini.get_gemini_response (generation e) text (strip (question request))
              (client a)) as [r client'] eqn:Eg.
  cbn [fst snd] in *. subst r. rewrite Hsave2.
  eexists _, ts1, ts2, returned2, local2. split; [reflexivity|].
  cbn [local container uploads client]. split; [exact Hread2|].
  split; [|split; [exact Hsort2|split; reflexivity]].
  etransitivity; [exact Hperm2|].
  unfold message_id.
  change (returned ++ [?x; ?y]) with (returned ++ [x] ++ [y]).
  rewrite app_assoc. apply Permutation_app_tail. exact Hperm1.
Qed.

(** X25. A question that cannot be answered stays in the history without an
    answer. For a question that is not blank, about a stored text, with the
    save possible and a generation call that raises: the exception is a
    [RuntimeError], three requests have been sent, and [ask_question] answers
    with status 503 and the message of that error, never with 502; and if the
    conversation could be read before, it can be read afterwards and then
    holds, besides what it held, one entry for the question, with role [user],
    and none for an answer. *)
Theorem unanswered_question_is_recorded
    (e : env) (w : world) (d1 d2 : draw) (request : AskRequest) (a : app)
    (text : string) (exc : exn) (returned : list (gmap string value)) (local0 : db) :
  strip (question request) <> "" ->
  ask_doc_id request <> "" ->
  can_save e d1 ->
  Cosmos.get_document_text (cosmos_USE_LOCAL_MODE e) (user_id request)
    (ask_doc_id request) (local a) (container a) = Ok (VStr text) ->
  fst (Gemini.get_gemini_response (generation e) text (strip (question request))
         (client a)) = Raise exc ->
  Cosmos.get_history (cosmos_USE_LOCAL_MODE e) w (user_id request)
    (Some (ask_doc_id request)) (local a) (container a) = Ok (returned, local0) ->
  exists msg a' ts1 returned' local1,
    exc = RuntimeError msg
    /\ ask_question e d1 d2 request a = (HTTPException 503 msg, a')
    /\ Gemini.sent (client a')
       = Gemini.sent (client a)
         ++ repeat (Gemini.build_prompt text (strip (question request))) 3
    /\ Cosmos.get_history (cosmos_USE_LOCAL_MODE e) w (user_id request)
         (Some (ask_doc_id request)) (local a') (container a') = Ok (returned', local1)
    /\ Permutation returned'
         (returned
          ++ [message_entry (message_id e d1 (ask_doc_id request) "user")
                (user_id request) (ask_doc_id request) "user"
                (strip (question request)) ts1])
    /\ StronglySorted (le_key timestamp_key) returned'.
Proof.
  intros Hq Hdoc (Hnow1 & Hid1 & Hacc1) Htext Hgen Hread.
  destruct (save_message_history_either (cosmos_USE_LOCAL_MODE e) (refuse e) w (clock d1)
              (uuid4 d1) (urandom_hex d1) (user_id request) (ask_doc_id request) "user"
              (strip (question request)) (local a) local0 (container a) returned
              Hdoc (fun _ => Hid1) Hnow1 (fun _ => Hacc1) Hread)
    as (l1 & c1 & ts1 & returned1 & local1 & Hsave1 & _ & Hread1 & Hperm1 & Hsort1).
  destruct (asked_response (generation e) text (question request) (client a) Hq)
    as [[answer Hans]|(msg & Hmsg & Hsent)]; [congruence|].
  assert (exc = RuntimeError msg) as -> by congruence.
  unfold ask_question.
  destruct (String.eqb_spec (strip (question request)) "") as [E|_]; [contradiction|].
  rewrite Htext, Hsave1.
  destruct (Gemini.get_gemini_response (generation e) text (strip (question request))
              (client a)) as [r client'] eqn:Eg.
  cbn [fst snd] in *. subst r.
  eexists msg, _, ts1, returned1, local1. split; [reflexivity|]. split; [reflexivity|].
  cbn [local container uploads client]. split; [exact Hsent|].
  split; [exact Hread1|]. split; [exact Hperm1|exact Hsort1].
Qed.

(** X26. One record can make a conversation unreadable. If a stored message of
    the conversation has no [role], or carries a timestamp on which the
    normaliser raises, then on the local backend [get_history] raises,
    whatever the other messages are, and the route answers with status 500 and
    "Failed to fetch history."; nothing is returned and nothing is written. *)
Theorem history_blocked_by_one_message
    (e : env) (w : world) (user_id doc_id : string) (a : app)
    (i : nat) (r : gmap string value) :
  cosmos_USE_LOCAL_MODE e = true ->
  doc_id <> "" ->
  messages (local a) !! i = Some r ->
  in_conversation user_id doc_id r ->
  r !! "role" = None
  \/ (exists exc, _normalize_timestamp (local_utcoffset w) (LocalStorage.clock w i)
                    (get r "timestamp") = Raise exc) ->
  (exists exc, get_history w user_id (Some doc_id) (local a) = Raise exc)
  /\ get_chat_history e w user_id (Some doc_id) a
     = (HTTPException 500 "Failed to fetch history.", a).
Proof.
  intros Hmode Hdoc Hi Hconv Hbad.
  destruct (history_raises_for_one_message w user_id doc_id (local a) i r Hdoc Hi Hconv Hbad)
    as [exc Hexc].
  split; [exists exc; exact Hexc|].
  unfold get_chat_history. rewrite Hmode. cbn [Cosmos.get_history]. rewrite Hexc.
  reflexivity.
Qed.

End AskRoute.



Lemma upload_stores_document_witness :
  exists response file' a',
    Api.upload_pdf (ApiScenario.local_env ApiScenario.helpful) ApiScenario.draw3 "u1"
      ApiScenario.upload ApiScenario.app0 = (Fastapi.Return response, file', a')
    /\ Api.doc_id response = "d2"
    /\ Api.file_name response
       = Storage._sanitize_filename "reports/2024/q3.pdf" ("d2" +:+ ".pdf")
    /\ ApiSpec.stored_at (ApiScenario.local_env ApiScenario.helpful) (Api.uploads a')
         (Api.blob_url response) [Byte.x25; Byte.x50; Byte.x44; Byte.x46]
    /\ Cosmos.get_document_text true "u1" (Api.doc_id response) (Api.local a')
         (Api.container a')
       = Py.Ok (Py.VStr (Pathlib.join ApiSpec.newline
                           (map Py.strip
                              (List.filter ApiSpec.has_text
                                 ["  Page one. "; "   "; "Page two."]))))
    /\ LocalStorage.messages (Api.local a') = []
    /\ Api.client a' = Scenario.idle.
Proof.
  apply (upload_stores_document (ApiScenario.local_env ApiScenario.helpful) ApiScenario.draw3
           "u1" ApiScenario.upload ApiScenario.app0 ["  Page one. "; "   "; "Page two."]).
  - vm_compute. discriminate.
  - reflexivity.
  - reflexivity.
  - reflexivity.
  - repeat split; intros; reflexivity.
  - intros item. reflexivity.
  - vm_compute. split; discriminate.
  - reflexivity.
  - apply Exists_cons_hd. vm_compute. discriminate.
  - by_evaluation.
Defined.



Lemma answered_question_is_recorded_witness :
  exists a' ts1 ts2 returned' local2,
    Api.ask_question (ApiScenario.local_env ApiScenario.helpful) ApiScenario.draw1 ApiScenario.draw2
      ApiScenario.request0 ApiScenario.app0 = (Fastapi.Return "It is on page 2.", a')
    /\ Cosmos.get_history true Scenario.world0 "u1" (Some "d1") (Api.local a')
         (Api.container a') = Py.Ok (returned', local2)
    /\ Permutation returned'
         ([] ++ [StoreSpec.message_entry "m1" "u1" "d1" "user" (Py.strip " why? ") ts1;
                 StoreSpec.message_entry "m2" "u1" "d1" "assistant" "It is on page 2." ts2])
    /\ StronglySorted (Spec.le_key LocalStorage.timestamp_key) returned'
    /\ Api.uploads a' = ApiScenario.nothing_stored
    /\ Api.client a'
       = snd (Gemini.get_gemini_response ApiScenario.helpful "hello world"
                (Py.strip " why? ") Scenario.idle).
Proof.
  apply (answered_question_is_recorded (ApiScenario.local_env ApiScenario.helpful)
           Scenario.world0 ApiScenario.draw1 ApiScenario.draw2 ApiScenario.request0 ApiScenario.app0
           "hello world" "It is on page 2." [] Scenario.one_document).
  - vm_compute. discriminate.
  - discriminate.
  - split; [vm_compute; split; discriminate|]. split; [discriminate|reflexivity].
  - split; [vm_compute; split; discriminate|]. split; [discriminate|reflexivity].
  - by_evaluation.
  - by_evaluation.
  - by_evaluation.
Defined.

Lemma unanswered_question_is_recorded_witness :
  exists msg a' ts1 returned' local1,
    Py.RuntimeError "Failed to get response from AI service: 500 INTERNAL"
    = Py.RuntimeError msg
    /\ Api.ask_question (ApiScenario.local_env GeminiScenario.down) ApiScenario.draw1
         ApiScenario.draw2 ApiScenario.request0 ApiScenario.app0
       = (Fastapi.HTTPException 503 msg, a')
    /\ Gemini.sent (Api.client a')
       = Gemini.sent Scenario.idle
         ++ repeat (Gemini.build_prompt "hello world" (Py.strip " why? ")) 3
    /\ Cosmos.get_history true Scenario.world0 "u1" (Some "d1") (Api.local a')
         (Api.container a') = Py.Ok (returned', local1)
    /\ Permutation returned'
         ([] ++ [StoreSpec.message_entry "m1" "u1" "d1" "user" (Py.strip " why? ") ts1])
    /\ StronglySorted (Spec.le_key LocalStorage.timestamp_key) returned'.
Proof.
  apply (unanswered_question_is_recorded (ApiScenario.local_env GeminiScenario.down)
           Scenario.world0 ApiScenario.draw1 ApiScenario.draw2 ApiScenario.request0 ApiScenario.app0
           "hello world" _ [] Scenario.one_document).
  - vm_compute. discriminate.
  - discriminate.
  - split; [vm_compute; split; discriminate|]. split; [discriminate|reflexivity].
  - by_evaluation.
  - by_evaluation.
  - by_evaluation.
Defined.

Lemma history_blocked_by_one_message_witness :
  (exists exc,
      LocalStorage.get_history Scenario.world0 "u1" (Some "d1")
        (LocalStorage.mk_db [] [Scenario.millis_message; Scenario.legacy_message])
      = Py.Raise exc)
  /\ Api.get_chat_history (ApiScenario.local_env ApiScenario.helpful) Scenario.world0 "u1"
       (Some "d1")
       (Api.mk_app (LocalStorage.mk_db [] [Scenario.millis_message; Scenario.legacy_message])
          [] ApiScenario.nothing_stored Scenario.idle)
     = (Fastapi.HTTPException 500 "Failed to fetch history.",
        Api.mk_app (LocalStorage.mk_db [] [Scenario.millis_message; Scenario.legacy_message])
          [] ApiScenario.nothing_stored Scenario.idle).
Proof.
  apply (history_blocked_by_one_message (ApiScenario.local_env ApiScenario.helpful)
           Scenario.world0 "u1" "d1"
           (Api.mk_app
              (LocalStorage.mk_db [] [Scenario.millis_message; Scenario.legacy_message])
              [] ApiScenario.nothing_stored Scenario.idle)
           0 Scenario.millis_message).
  - reflexivity.
  - discriminate.
  - reflexivity.
  - split; reflexivity.
  - right. exists (Py.ValueError "year is out of range"). by_evaluation.
Defined.

(** ** The calendar, there and back *)

Section CalendarRoundTrip.
Import Py Datetime LocalStorage Spec.
Local Open Scope Z_scope.

Lemma days_before_year_decomposed (a b c e : Z) :
  0 <= b <= 3 -> 0 <= c <= 24 -> 0 <= e <= 3 ->
  days_before_year (a * 400 + 1 + b * 100 + c * 4 + e)
  = 146097 * a + 36524 * b + 1461 * c + 365 * e.
Proof.
  intros Hb Hc He. unfold days_before_year. cbv zeta.
  replace (a * 400 + 1 + b * 100 + c * 4 + e - 1) with (400 * a + (100 * b + 4 * c + e))
    by lia.
  assert (H4 : (400 * a + (100 * b + 4 * c + e)) / 4 = 100 * a + 25 * b + c) by zlia.
  assert (H100 : (400 * a + (100 * b + 4 * c + e)) / 100 = 4 * a + b) by zlia.
  assert (H400 : (400 * a + (100 * b + 4 * c + e)) / 400 = a) by zlia.
  rewrite H4, H100, H400. lia.
Qed.

(** The days before the month that [ord2ymd] settles on, on either side of
    its correction of the estimated month. *)
Lemma month_preceding (month : Z) (leapyear : bool) :
  2 <= month <= 12 ->
  DAYS_BEFORE_MONTH (month - 1) + (if (2 <? month - 1) && leapyear then 1 else 0)
  = DAYS_BEFORE_MONTH month + (if (2 <? month) && leapyear then 1 else 0)
    - (DAYS_IN_MONTH (month - 1) + (if (month - 1 =? 2) && leapyear then 1 else 0)).
Proof.
  intros Hm.
  assert (H : month = 2 \/ month = 3 \/ month = 4 \/ month = 5 \/ month = 6 \/ month = 7
              \/ month = 8 \/ month = 9 \/ month = 10 \/ month = 11 \/ month = 12) by lia.
  destruct H as [->|[->|[->|[->|[->|[->|[->|[->|[->|[->| ->]]]]]]]]]];
    destruct leapyear; reflexivity.
Qed.

(** [date.fromordinal(n).toordinal() == n] *)
Lemma ymd2ord_ord2ymd (n : Z) :
  1 <= n <= MAXORDINAL ->
  ymd2ord (ord2ymd n).1.1 (ord2ymd n).1.2 (ord2ymd n).2 = n.
Proof.
  intros Hn. unfold ord2ymd, MAXORDINAL, DI400Y, DI100Y, DI4Y in *. cbv zeta.
  set (n0 := n - 1).
  set (a := n0 / 146097). set (r400 := n0 mod 146097).
  set (b := r400 / 36524). set (r100 := r400 mod 36524).
  set (c := r100 / 1461). set (r4 := r100 mod 1461).
  set (e := r4 / 365). set (r1 := r4 mod 365).
  assert (Ha : 0 <= a <= 24) by (subst a n0; zlia).
  assert (H400 : n0 = 146097 * a + r400 /\ 0 <= r400 <= 146096) by (subst a r400; zlia).
  assert (Hb : 0 <= b <= 4) by (subst b; zlia).
  assert (H100 : r400 = 36524 * b + r100 /\ 0 <= r100 <= 36523) by (subst b r100; zlia).
  assert (Hc : 0 <= c <= 24) by (subst c; zlia).
  assert (H4 : r100 = 1461 * c + r4 /\ 0 <= r4 <= 1460) by (subst c r4; zlia).
  assert (He : 0 <= e <= 4) by (subst e; zlia).
  assert (H1 : r4 = 365 * e + r1 /\ 0 <= r1 <= 364) by (subst e r1; zlia).
  assert (Hn0 : n = n0 + 1) by (subst n0; lia).
  clearbody a r400 b r100 c r4 e r1 n0.
  unfold ymd2ord, days_before_month.
  destruct ((e =? 4) || (b =? 4)) eqn:Elast.
  - cbn [fst snd].
    apply orb_true_iff in Elast as [E|E]; apply Z.eqb_eq in E; subst.
    + assert (Hb3 : 0 <= b <= 3) by lia. assert (Hc23 : 0 <= c <= 23) by lia.
      replace (a * 400 + 1 + b * 100 + c * 4 + 4 - 1)
        with (a * 400 + 1 + b * 100 + c * 4 + 3) by lia.
      rewrite days_before_year_decomposed, is_leap_decomposed by lia.
      destruct (Z.eqb_spec c 24) as [->|_]; [lia|]. cbn. lia.
    + assert (c = 0 /\ e = 0 /\ r1 = 0) as (-> & -> & ->) by lia.
      replace (a * 400 + 1 + 4 * 100 + 0 * 4 + 0 - 1)
        with (a * 400 + 1 + 3 * 100 + 24 * 4 + 3) by lia.
      rewrite days_before_year_decomposed, is_leap_decomposed by lia. cbn. lia.
  - apply orb_false_iff in Elast as [E1 E2]. apply Z.eqb_neq in E1, E2.
    set (leapyear := (e =? 3) && (negb (c =? 24) || (b =? 3))).
    assert (Hleap : is_leap (a * 400 + 1 + b * 100 + c * 4 + e) = leapyear)
      by (apply is_leap_decomposed; lia).
    assert (Hdby : days_before_year (a * 400 + 1 + b * 100 + c * 4 + e)
                   = 146097 * a + 36524 * b + 1461 * c + 365 * e)
      by (apply days_before_year_decomposed; lia).
    destruct (month_day_valid r1 leapyear (proj2 H1)) as [Hlt _]. cbv zeta in Hlt.
    destruct (r1 <? _) eqn:Ecmp; cbn [fst snd]; rewrite Hdby, Hleap.
    + destruct (Hlt eq_refl) as [Hm _].
      assert (Hm12 : Z.shiftr (r1 + 50) 5 <= 12).
      { rewrite Z.shiftr_div_pow2 by lia. change (2 ^ 5) with 32. zlia. }
      rewrite month_preceding by lia. lia.
    + lia.
Qed.

Lemma to_epoch_of_epoch (us : Z) (tz : option Z) :
  1 <= ordinal_of_epoch_us us <= MAXORDINAL ->
  to_epoch_us (of_epoch_us us tz) = us.
Proof.
  unfold ordinal_of_epoch_us, of_epoch_us, to_epoch_us. intros Hord.
  pose proof (ymd2ord_ord2ymd _ Hord) as Hback.
  destruct (ord2ymd (us / MICRO / 86400 + EPOCH_ORDINAL)) as [[y m] d].
  cbn [fst snd] in Hback. cbn [year month day hour minute second microsecond].
  rewrite Hback. unfold MICRO, EPOCH_ORDINAL in *. zlia.
Qed.

(** What the normaliser writes for a well-formed UTC datetime reads back
    as the same datetime without its microseconds. *)
Lemma canonical_reads_back (dt : datetime) :
  well_formed dt = true -> tzinfo dt = Some 0 ->
  fromisoformat (replace "Z" "+00:00" (canonical dt))
  = Ok (mk_datetime (year dt) (month dt) (day dt)
          (hour dt) (minute dt) (second dt) 0 (Some 0)).
Proof.
  intros Hwf Htz.
  apply andb_true_iff in Hwf as [Hd Ht].
  assert (Ht0 : valid_time (hour dt) (minute dt) (second dt) 0 = true).
  { destruct (valid_time_bounds _ _ _ _ Ht) as (Hh & Hmi & Hs & _).
    unfold valid_time. rewrite !andb_true_iff, !Z.leb_le. lia. }
  rewrite (canonical_of_well_formed dt Htz).
  destruct (canonical_string_split (year dt) (month dt) (day dt)
              (hour dt) (minute dt) (second dt)) as (pre & Hpre & Hs & Hall).
  rewrite Hs. unfold replace. rewrite replace_from_prefix.
  - rewrite Hpre, !app_assoc_s. apply fromisoformat_canonical; assumption.
  - apply Hall; [|reflexivity..].
    intros c Hc. apply negb_true_iff, digit_neq; [exact Hc|reflexivity].
Qed.

Lemma microsecond_of_epoch (us : Z) (tz : option Z) :
  microsecond (of_epoch_us us tz) = us mod MICRO.
Proof.
  unfold of_epoch_us. destruct (ord2ymd _) as [[y m] d]. reflexivity.
Qed.

Lemma to_epoch_us_whole (dt : datetime) (tz : option Z) :
  to_epoch_us (mk_datetime (year dt) (month dt) (day dt)
                 (hour dt) (minute dt) (second dt) 0 tz)
  = to_epoch_us dt - microsecond dt.
Proof.
  unfold to_epoch_us. cbn [year month day hour minute second microsecond]. lia.
Qed.

Lemma utc_from_us_value (us : Z) :
  EPOCH_MIN <= us / MICRO <= EPOCH_MAX -> utc_from_us us = Ok (of_epoch_us us (Some 0)).
Proof.
  intros Hin. destruct (utc_from_us_in_range us Hin) as [dt Hdt].
  unfold utc_from_us in Hdt |- *.
  destruct (negb (in_range TIME_T_MIN TIME_T_MAX (us / MICRO))); [discriminate|].
  destruct (negb (in_range GMTIME_MIN GMTIME_MAX (us / MICRO))); [discriminate|].
  destruct (negb (in_range EPOCH_MIN EPOCH_MAX (us / MICRO))); [discriminate|].
  reflexivity.
Qed.

Lemma canonical_read_back (us : Z) :
  EPOCH_MIN <= us / MICRO <= EPOCH_MAX ->
  exists dt,
    utc_from_us us = Ok (of_epoch_us us (Some 0))
    /\ fromisoformat (replace "Z" "+00:00" (canonical (of_epoch_us us (Some 0)))) = Ok dt
    /\ tzinfo dt = Some 0
    /\ to_epoch_us dt = us / MICRO * MICRO.
Proof.
  intros Hin.
  assert (Hord : 1 <= ordinal_of_epoch_us us <= MAXORDINAL).
  { unfold ordinal_of_epoch_us, EPOCH_ORDINAL, MAXORDINAL, EPOCH_MIN, EPOCH_MAX in *. zlia. }
  destruct (of_epoch_us_well_formed us (Some 0) Hord) as [Hwf Htz].
  pose proof (to_epoch_of_epoch us (Some 0) Hord) as Hback.
  pose proof (microsecond_of_epoch us (Some 0)) as Hmicro.
  pose proof (utc_from_us_value us Hin) as Hfrom.
  generalize dependent (of_epoch_us us (Some 0)). intros dt0 Hwf Htz Hback Hmicro Hfrom.
  eexists. split; [exact Hfrom|].
  split; [apply canonical_reads_back; assumption|].
  split; [reflexivity|].
  rewrite to_epoch_us_whole, Hback, Hmicro. unfold MICRO. zlia.
Qed.

(** X27. A stored timestamp that is a number of seconds since 1970 -- an
    integer, or a float, which is first rounded to the microsecond -- and that
    falls in the years 1 to 9999 is normalised to a string that reads back as
    that very second in UTC: the date and the time of day survive the
    conversion, only the fraction of the second is dropped. *)
Theorem numeric_timestamp_round_trip (tz : datetime -> result Z) (now : Z) :
  (forall n : Z,
      EPOCH_MIN <= n <= EPOCH_MAX ->
      exists s dt,
        _normalize_timestamp tz now (VInt n) = Ok s
        /\ fromisoformat (replace "Z" "+00:00" s) = Ok dt
        /\ tzinfo dt = Some 0
        /\ to_epoch_us dt = n * MICRO)
  /\ (forall x : Q,
        let us := round_half_even (x * inject_Z MICRO) in
        EPOCH_MIN <= us / MICRO <= EPOCH_MAX ->
        exists s dt,
          _normalize_timestamp tz now (VFloat x) = Ok s
          /\ fromisoformat (replace "Z" "+00:00" s) = Ok dt
          /\ tzinfo dt = Some 0
          /\ to_epoch_us dt = us / MICRO * MICRO).
Proof.
  split.
  - intros n Hn.
    assert (Hdiv : n * MICRO / MICRO = n) by (unfold MICRO; zlia).
    destruct (canonical_read_back (n * MICRO)) as (dt & Hfrom & Hread & Htz & Hus).
    { rewrite Hdiv. exact Hn. }
    exists (canonical (of_epoch_us (n * MICRO) (Some 0))), dt.
    rewrite Hdiv in Hus. repeat split; try assumption.
    unfold _normalize_timestamp. cbn [py_eq as_number orb fromtimestamp].
    rewrite Hfrom. reflexivity.
  - intros x us Hin.
    destruct (canonical_read_back us Hin) as (dt & Hfrom & Hread & Htz & Hus).
    exists (canonical (of_epoch_us us (Some 0))), dt.
    repeat split; try assumption.
    unfold _normalize_timestamp. cbn [py_eq as_number orb fromtimestamp].
    fold us. rewrite Hfrom. reflexivity.
Qed.

End CalendarRoundTrip.

Lemma numeric_timestamp_round_trip_witness :
  (exists s dt,
      LocalStorage._normalize_timestamp (fun _ => Py.Ok 0%Z) 0%Z (Py.VInt 1700000000)
      = Py.Ok s
      /\ Datetime.fromisoformat (Py.replace "Z" "+00:00" s) = Py.Ok dt
      /\ Datetime.tzinfo dt = Some 0%Z
      /\ Datetime.to_epoch_us dt = (1700000000 * Datetime.MICRO)%Z)
  /\ (exists s dt,
        LocalStorage._normalize_timestamp (fun _ => Py.Ok 0%Z) 0%Z (Py.VFloat (3 # 2))
        = Py.Ok s
        /\ Datetime.fromisoformat (Py.replace "Z" "+00:00" s) = Py.Ok dt
        /\ Datetime.tzinfo dt = Some 0%Z
        /\ Datetime.to_epoch_us dt = 1000000%Z).
Proof.
  split.
  - apply (proj1 (numeric_timestamp_round_trip (fun _ => Py.Ok 0%Z) 0%Z) 1700000000%Z).
    unfold Datetime.EPOCH_MIN, Datetime.EPOCH_MAX. lia.
  - apply (proj2 (numeric_timestamp_round_trip (fun _ => Py.Ok 0%Z) 0%Z) (3 # 2)).
    vm_compute. split; intros H; discriminate H.
Defined.
